(** * LA Bookings admin panel: session manager and API gateway

    A shallow embedding of the TypeScript sources of the booking front-end:
    the axios gateway with its interceptors and the [withRetry] helper
    (services/api.ts), the authentication context with its route guard
    (context/AuthContext.tsx), the two booking forms and the admin
    user-management handlers.

    Asynchronous functions are embedded as state-passing computations over a
    [world]: the cookie jar, the browser location, the React state cells the
    handlers touch and a chronological trace of the observable effects
    (requests put on the wire, toasts, cookie writes, navigations, timers).
    A rejected promise is a [Throw] result; [await] is sequencing.  Console
    output is not part of the trace. *)

From Stdlib Require Import ZArith QArith Qpower Ascii.
From stdpp Require Import base gmap strings list pretty.
From Equations Require Import Equations.

Set Warnings "-register-all".

Open Scope string_scope.
Open Scope list_scope.
Open Scope Z_scope.

(** ** JavaScript values

    Response bodies are typed [any] in the sources, so they are embedded as
    untyped values.  Numbers occurring in bodies are integers: [JNum n] is
    the number a body holds where it writes the integer [n], that is the
    double nearest to [n].  A string is held as the bytes of its UTF-8
    encoding, which is also what a string literal of this file denotes. *)

Inductive json : Type :=
| JUndefined
| JNull
| JBool (b : bool)
| JNum (n : Z)
| JStr (s : string)
| JArr (items : list json)
| JObj (fields : list (string * json)).

(** [!!v] *)
Definition truthy (v : json) : bool :=
  match v with
  | JUndefined | JNull => false
  | JBool b => b
  | JNum n => negb (n =? 0)%Z
  | JStr s => negb (String.eqb s "")
  | JArr _ | JObj _ => true
  end.

(** [a || b] *)
Definition js_or (a b : json) : json := if truthy a then a else b.

Fixpoint assoc (k : string) (fs : list (string * json)) : json :=
  match fs with
  | [] => JUndefined
  | (k', v) :: rest => if String.eqb k k' then v else assoc k rest
  end.

(** Own property [k] of a value that is neither [null] nor [undefined]. *)
Definition prop (v : json) (k : string) : json :=
  match v with
  | JObj fs => assoc k fs
  | _ => JUndefined
  end.

(** [v?.k] *)
Definition opt_get (v : json) (k : string) : json :=
  match v with
  | JUndefined | JNull => JUndefined
  | _ => prop v k
  end.

(** [{...v, k: x}] *)
Definition spread_with (v : json) (k : string) (x : json) : json :=
  match v with
  | JObj fs => JObj ((k, x) :: fs)
  | _ => JObj [(k, x)]
  end.

(** The double nearest to the natural number [n], ties to even, as the
    integer it is; [2 ^ 1024] stands for [Infinity]. *)
Definition to_double (n : Z) : Z :=
  let e := Z.log2 n + 1 - 53 in
  if e <=? 0 then n
  else
    let q := Z.shiftr n e in
    let r := n - Z.shiftl q e in
    let half := Z.shiftl 1 (e - 1) in
    let q' := if (half <? r) || ((r =? half) && Z.odd q) then q + 1 else q in
    Z.shiftl q' e.

Definition decimal_length (v : Z) : Z := Z.of_nat (String.length (pretty v)).

(** The decimal with the fewest significant digits, [k] or more, among those
    whose nearest double is [v]; among several, the one closest to [v], and
    on a tie the even one. *)
Fixpoint fewest_digits (fuel : nat) (v k : Z) : Z :=
  match fuel with
  | O => v
  | S fuel' =>
      let scale := 10 ^ (decimal_length v - k) in
      let s := v / scale in
      let lo := s * scale in
      let hi := (s + 1) * scale in
      let lo_ok := to_double lo =? v in
      let hi_ok := to_double hi =? v in
      if lo_ok && hi_ok
      then if v - lo <? hi - v then lo
           else if hi - v <? v - lo then hi
           else if Z.even s then lo else hi
      else if lo_ok then lo
      else if hi_ok then hi
      else fewest_digits fuel' v (k + 1)
  end.

Fixpoint strip_zeros (rev_digits : string) : string :=
  match rev_digits with
  | String "0" rest => strip_zeros rest
  | _ => rev_digits
  end.

(** [String(n)] for the number [JNum n]: the shortest digits that denote
    its double, written out in decimal below [10 ^ 21] and in exponent
    notation from there on. *)
Definition number_to_string (n : Z) : string :=
  let sign := if n <? 0 then "-" else "" in
  let v := to_double (Z.abs n) in
  if 2 ^ 1024 <=? v then sign +:+ "Infinity"
  else
    let c := fewest_digits (Z.to_nat (decimal_length v)) v 1 in
    if c <? 10 ^ 21 then sign +:+ pretty c
    else
      let mantissa :=
        match String.rev (strip_zeros (String.rev (pretty c))) with
        | String d EmptyString => String d EmptyString
        | String d rest => String d ("." +:+ rest)
        | EmptyString => EmptyString
        end in
      sign +:+ mantissa +:+ "e+" +:+ pretty (decimal_length c - 1).

(** [String(v)], also the conversion of template literals. *)
Fixpoint js_String (v : json) : string :=
  match v with
  | JUndefined => "undefined"
  | JNull => "null"
  | JBool true => "true"
  | JBool false => "false"
  | JNum n => number_to_string n
  | JStr s => s
  | JArr items =>
      let elt x := match x with JUndefined | JNull => "" | _ => js_String x end in
      (fix join (l : list json) : string :=
         match l with
         | [] => ""
         | [x] => elt x
         | x :: rest => elt x +:+ "," +:+ join rest
         end) items
  | JObj _ => "[object Object]"
  end.

(** [s.includes(sub)] on strings. *)
Fixpoint includes (sub s : string) : bool :=
  String.prefix sub s ||
  match s with
  | EmptyString => false
  | String _ rest => includes sub rest
  end.

(** [x === s] for a string [s]. *)
Definition strict_eq_str (x : json) (s : string) : bool :=
  match x with
  | JStr t => String.eqb t s
  | _ => false
  end.

Definition of_bytes (bytes : list N) : string :=
  String.string_of_list_ascii (map ascii_of_N bytes).

(** The characters [trim] removes, each as its UTF-8 bytes: the white space
    and the line terminators of the language (TAB, LF, VT, FF, CR, SP,
    U+00A0, U+1680, U+2000 to U+200A, U+2028, U+2029, U+202F, U+205F,
    U+3000, U+FEFF). *)
Definition white_space : list string :=
  map of_bytes
    [[9]; [10]; [11]; [12]; [13]; [32];
     [194; 160];
     [225; 154; 128];
     [226; 128; 128]; [226; 128; 129]; [226; 128; 130]; [226; 128; 131];
     [226; 128; 132]; [226; 128; 133]; [226; 128; 134]; [226; 128; 135];
     [226; 128; 136]; [226; 128; 137]; [226; 128; 138];
     [226; 128; 168]; [226; 128; 169]; [226; 128; 175];
     [226; 129; 159];
     [227; 128; 128];
     [239; 187; 191]]%N.

(** [s] without its prefix [p], when it starts with [p]. *)
Fixpoint drop_prefix (p s : string) : option string :=
  match p, s with
  | EmptyString, _ => Some s
  | String a p', String b s' => if Ascii.eqb a b then drop_prefix p' s' else None
  | String _ _, EmptyString => None
  end.

(** [s] without its first character, when that is one of [ws]. *)
Definition strip_white (ws : list string) (s : string) : option string :=
  head (omap (fun p => drop_prefix p s) ws).

(** Every round removes a byte at least, so [String.length s] rounds are
    enough for [s]. *)
Fixpoint strip_all (ws : list string) (fuel : nat) (s : string) : string :=
  match fuel with
  | O => s
  | S fuel' =>
      match strip_white ws s with
      | Some rest => strip_all ws fuel' rest
      | None => s
      end
  end.

Definition trim_start (s : string) : string :=
  strip_all white_space (String.length s) s.

(** A string ends with a character exactly when its reversed bytes start
    with the reversed bytes of that character. *)
Definition trim_end (s : string) : string :=
  String.rev (strip_all (map String.rev white_space) (String.length s) (String.rev s)).

(** [s.trim()] *)
Definition trim (s : string) : string := trim_end (trim_start s).

(** The string taken apart into its UTF-16 code units, as indexing and
    spreading see it.  A character outside the basic plane (four bytes)
    gives its two surrogates, each held as the three bytes the same scheme
    gives a code unit of that value. *)
Definition unit_bytes (u : N) : string :=
  of_bytes [N.lor 224 (N.shiftr u 12);
            N.lor 128 (N.land (N.shiftr u 6) 63);
            N.lor 128 (N.land u 63)]%N.

Fixpoint code_units (s : string) : list string :=
  match s with
  | EmptyString => []
  | String a rest =>
      let n := N_of_ascii a in
      if (n <? 192)%N then String a EmptyString :: code_units rest
      else if (n <? 224)%N then
        match rest with
        | String b rest2 => String a (String b EmptyString) :: code_units rest2
        | EmptyString => [String a EmptyString]
        end
      else if (n <? 240)%N then
        match rest with
        | String b (String c rest3) =>
            String a (String b (String c EmptyString)) :: code_units rest3
        | _ => String a EmptyString :: code_units rest
        end
      else
        match rest with
        | String b (String c (String d rest4)) =>
            let cp := (N.lor (N.shiftl (N.land n 7) 18)
                         (N.lor (N.shiftl (N.land (N_of_ascii b) 63) 12)
                            (N.lor (N.shiftl (N.land (N_of_ascii c) 63) 6)
                               (N.land (N_of_ascii d) 63))))%N in
            let u := (cp - 65536)%N in
            unit_bytes (55296 + N.shiftr u 10)
              :: unit_bytes (56320 + N.land u 1023)
              :: code_units rest4
        | _ => String a EmptyString :: code_units rest
        end
  end.

(** ** Requests, responses and thrown values *)

Inductive http_method := GET | POST | PATCH | DELETE.

(** An axios request configuration.  [_retry] is the flag the response
    interceptor reads; no code of the repository sets it. *)
Record request := {
  method : http_method;
  url : string;
  headers : list (string * string);
  body : json;
  _retry : bool
}.

Record response := { status : Z; data : json }.

(** What the remote service does with a request: nothing comes back
    (connection failure or the 10 second timeout, with axios' message), or a
    response with a status and a body. *)
Inductive outcome :=
| NoResponse (message : string)
| Response (r : response).

(** Values that the embedded code throws. *)
Inductive error :=
| AxiosError (message : string) (config : request) (resp : option response)
| TypeError (message : string)
| Error (message : string).

(** [axios.isAxiosError(error)] *)
Definition isAxiosError (e : error) : bool :=
  match e with AxiosError _ _ _ => true | _ => false end.

(** [error.response] *)
Definition error_response (e : error) : option response :=
  match e with AxiosError _ _ r => r | _ => None end.

(** [error.message] *)
Definition error_message (e : error) : string :=
  match e with AxiosError m _ _ | TypeError m | Error m => m end.

(** [error.response?.status === code] *)
Definition response_status_is (e : error) (code : Z) : bool :=
  match error_response e with
  | Some r => (status r =? code)%Z
  | None => false
  end.

(** [error.response?.data?.message] *)
Definition response_data_message (e : error) : json :=
  match error_response e with
  | Some r => opt_get (data r) "message"
  | None => JUndefined
  end.

(** ** The world *)

Inductive toast_kind := toast_success | toast_error | toast_info.

Inductive event :=
| Request (r : request)
| Toast (kind : toast_kind) (content : json)
| CookieSet (name value : string) (expires : Z)
| CookieRemove (name : string)
| SetHref (href : string)
| RouterPush (path : string)
| RouterReplace (path : string)
| Timeout (ms : Q).

Record cookie := { value : string; expires : option Z }.

Record world := {
  (** the remote service: outcome of a request, given how many went before *)
  remote : nat -> request -> outcome;
  (** [new Date(s) < today] for the date string [s] of a form *)
  date_before_today : string -> bool;
  (** the cookie jar read and written through js-cookie *)
  cookies : gmap string cookie;
  (** [window.location.pathname], [None] where [window] is undefined *)
  pathname : option string;
  (** observable effects, oldest first *)
  events : list event;
  (** state of [AuthProvider] *)
  auth_user : json;
  auth_loading : bool;
  (** state of the profile page *)
  users : list json;
  showDeleteModal : bool;
  userToDelete : json;
  deletingUser : bool;
  (** [loading] / [isLoading] of a booking form *)
  form_loading : bool
}.

Definition with_cookies (f : gmap string cookie -> gmap string cookie) (w : world) : world :=
  {| remote := remote w; date_before_today := date_before_today w;
     cookies := f (cookies w); pathname := pathname w; events := events w;
     auth_user := auth_user w; auth_loading := auth_loading w;
     users := users w; showDeleteModal := showDeleteModal w;
     userToDelete := userToDelete w; deletingUser := deletingUser w;
     form_loading := form_loading w |}.

Definition with_events (f : list event -> list event) (w : world) : world :=
  {| remote := remote w; date_before_today := date_before_today w;
     cookies := cookies w; pathname := pathname w; events := f (events w);
     auth_user := auth_user w; auth_loading := auth_loading w;
     users := users w; showDeleteModal := showDeleteModal w;
     userToDelete := userToDelete w; deletingUser := deletingUser w;
     form_loading := form_loading w |}.

Definition with_auth_user (v : json) (w : world) : world :=
  {| remote := remote w; date_before_today := date_before_today w;
     cookies := cookies w; pathname := pathname w; events := events w;
     auth_user := v; auth_loading := auth_loading w;
     users := users w; showDeleteModal := showDeleteModal w;
     userToDelete := userToDelete w; deletingUser := deletingUser w;
     form_loading := form_loading w |}.

Definition with_auth_loading (b : bool) (w : world) : world :=
  {| remote := remote w; date_before_today := date_before_today w;
     cookies := cookies w; pathname := pathname w; events := events w;
     auth_user := auth_user w; auth_loading := b;
     users := users w; showDeleteModal := showDeleteModal w;
     userToDelete := userToDelete w; deletingUser := deletingUser w;
     form_loading := form_loading w |}.

Definition with_users (f : list json -> list json) (w : world) : world :=
  {| remote := remote w; date_before_today := date_before_today w;
     cookies := cookies w; pathname := pathname w; events := events w;
     auth_user := auth_user w; auth_loading := auth_loading w;
     users := f (users w); showDeleteModal := showDeleteModal w;
     userToDelete := userToDelete w; deletingUser := deletingUser w;
     form_loading := form_loading w |}.

Definition with_showDeleteModal (b : bool) (w : world) : world :=
  {| remote := remote w; date_before_today := date_before_today w;
     cookies := cookies w; pathname := pathname w; events := events w;
     auth_user := auth_user w; auth_loading := auth_loading w;
     users := users w; showDeleteModal := b;
     userToDelete := userToDelete w; deletingUser := deletingUser w;
     form_loading := form_loading w |}.

Definition with_userToDelete (v : json) (w : world) : world :=
  {| remote := remote w; date_before_today := date_before_today w;
     cookies := cookies w; pathname := pathname w; events := events w;
     auth_user := auth_user w; auth_loading := auth_loading w;
     users := users w; showDeleteModal := showDeleteModal w;
     userToDelete := v; deletingUser := deletingUser w;
     form_loading := form_loading w |}.

Definition with_deletingUser (b : bool) (w : world) : world :=
  {| remote := remote w; date_before_today := date_before_today w;
     cookies := cookies w; pathname := pathname w; events := events w;
     auth_user := auth_user w; auth_loading := auth_loading w;
     users := users w; showDeleteModal := showDeleteModal w;
     userToDelete := userToDelete w; deletingUser := b;
     form_loading := form_loading w |}.

Definition with_form_loading (b : bool) (w : world) : world :=
  {| remote := remote w; date_before_today := date_before_today w;
     cookies := cookies w; pathname := pathname w; events := events w;
     auth_user := auth_user w; auth_loading := auth_loading w;
     users := users w; showDeleteModal := showDeleteModal w;
     userToDelete := userToDelete w; deletingUser := deletingUser w;
     form_loading := b |}.

(** ** Computations *)

Inductive result (A : Type) :=
| Ok (a : A)
| Throw (e : error).
Arguments Ok {A} a.
Arguments Throw {A} e.

Definition M (A : Type) : Type := world -> result A * world.

Definition ret {A} (a : A) : M A := fun w => (Ok a, w).

Definition throw {A} (e : error) : M A := fun w => (Throw e, w).

(** Reading a part of the world. *)
Definition read {A} (f : world -> A) : M A := fun w => (Ok (f w), w).

Definition bind {A B} (c : M A) (k : A -> M B) : M B :=
  fun w =>
    match c w with
    | (Ok a, w1) => k a w1
    | (Throw e, w1) => (Throw e, w1)
    end.

Notation "'let*' x ':=' c 'in' k" := (bind c (fun x => k))
  (at level 10, x name, c at level 100, k at level 200,
   format "'[v' 'let*'  x  ':='  c  'in' '/' k ']'").

(** [try { body } catch (error) { handler }] *)
Definition try_catch {A} (body : M A) (handler : error -> M A) : M A :=
  fun w =>
    match body w with
    | (Ok a, w1) => (Ok a, w1)
    | (Throw e, w1) => handler e w1
    end.

(** [try { body } finally { fin }] *)
Definition try_finally {A} (body : M A) (fin : M unit) : M A :=
  fun w =>
    match body w with
    | (r, w1) =>
        match fin w1 with
        | (Ok _, w2) => (r, w2)
        | (Throw e, w2) => (Throw e, w2)
        end
    end.

(** A call of an async function whose promise nobody awaits. *)
Definition detached {A} (c : M A) : M unit :=
  fun w => (Ok tt, snd (c w)).

(** Lifting of a property access that throws on [null] and [undefined]. *)
Definition get (v : json) (k : string) : M json :=
  match v with
  | JUndefined => throw (TypeError ("Cannot read properties of undefined (reading '" +:+ k +:+ "')"))
  | JNull => throw (TypeError ("Cannot read properties of null (reading '" +:+ k +:+ "')"))
  | _ => ret (prop v k)
  end.

Definition emit (e : event) : M unit :=
  fun w => (Ok tt, with_events (fun evs => evs ++ [e]) w).

Definition requests_of (evs : list event) : list request :=
  omap (fun e => match e with Request r => Some r | _ => None end) evs.

Definition timeouts_of (evs : list event) : list Q :=
  omap (fun e => match e with Timeout d => Some d | _ => None end) evs.

Definition cookie_removals_of (evs : list event) : list string :=
  omap (fun e => match e with CookieRemove n => Some n | _ => None end) evs.

Definition cookie_writes_of (evs : list event) : list string :=
  omap (fun e => match e with CookieSet n _ _ => Some n | _ => None end) evs.

Definition toasts_of (evs : list event) : list (toast_kind * json) :=
  omap (fun e => match e with Toast k c => Some (k, c) | _ => None end) evs.

(** ** Environment: js-cookie, react-toastify, the router, timers *)

Module Cookies.
Definition get (name : string) : M json :=
  read (fun w =>
          match cookies w !! name with
          | Some c => JStr (value c)
          | None => JUndefined
          end).

Definition set (name : string) (v : json) (days : Z) : M unit :=
  fun w =>
    let s := js_String v in
    emit (CookieSet name s days)
         (with_cookies (insert name {| value := s; expires := Some days |}) w).

Definition remove (name : string) : M unit :=
  fun w => emit (CookieRemove name) (with_cookies (delete name) w).
End Cookies.

Module toast.
Definition success (content : json) : M unit := emit (Toast toast_success content).
Definition error (content : json) : M unit := emit (Toast toast_error content).
Definition info (content : json) : M unit := emit (Toast toast_info content).
End toast.

Module router.
Definition push (path : string) : M unit := emit (RouterPush path).
Definition replace (path : string) : M unit := emit (RouterReplace path).
End router.

(** [window.location.href = href] *)
Definition set_location_href (href : string) : M unit := emit (SetHref href).

(** [await new Promise(resolve => setTimeout(resolve, delay))] *)
Definition sleep (delay : Q) : M unit := emit (Timeout delay).

Definition setUser (v : json) : M unit := fun w => (Ok tt, with_auth_user v w).
Definition setLoading (b : bool) : M unit := fun w => (Ok tt, with_auth_loading b w).

(** ** services/api.ts *)

Definition API_BASE_URL : string := "http://localhost:3000/api".

Definition requests_sent (w : world) : nat := length (requests_of (events w)).

Module axios.
(** The transport: the request goes on the wire; axios resolves with a
    response whose status is 2xx and rejects otherwise. *)
Definition dispatch (config : request) : M response :=
  fun w =>
    let w1 := with_events (fun evs => evs ++ [Request config]) w in
    match remote w (requests_sent w) config with
    | NoResponse msg => (Throw (AxiosError msg config None), w1)
    | Response r =>
        if (200 <=? status r)%Z && (status r <? 300)%Z
        then (Ok r, w1)
        else (Throw (AxiosError ("Request failed with status code " +:+ pretty (status r))
                                config (Some r)), w1)
    end.

(** [axios.delete(url, { headers })] on the global instance, which has no
    interceptors. *)
Definition delete (url : string) (headers : list (string * string)) : M response :=
  dispatch {| method := DELETE; url := url; headers := headers;
              body := JUndefined; _retry := false |}.
End axios.

(** [errorMessage.includes(s)]: defined on strings and arrays only. *)
Definition js_includes (v : json) (s : string) : M bool :=
  match v with
  | JStr t => ret (includes s t)
  | JArr items => ret (existsb (fun x => strict_eq_str x s) items)
  | _ => throw (TypeError "errorMessage.includes is not a function")
  end.

Module api.
(** Request interceptor: the bearer token is read from the cookie at call
    time. *)
Definition decorate (token : json) (config : request) : request :=
  if truthy token
  then {| method := method config; url := url config;
          headers := headers config ++ [("Authorization", "Bearer " +:+ js_String token)];
          body := body config; _retry := _retry config |}
  else config.

Definition request_interceptor (config : request) : M request :=
  let* token := Cookies.get "auth_token" in
  ret (decorate token config).

(** Response interceptor, rejection branch. *)
Definition response_interceptor (error : error) : M response :=
  match error with
  | AxiosError _ originalRequest (Some resp) =>
      let* _ :=
        (if (status resp =? 401)%Z && negb (_retry originalRequest)
         then
           let* _ := Cookies.remove "auth_token" in
           let* location := read pathname in
           match location with
           | Some p =>
               if negb (includes "/login" p) && negb (includes "/register" p)
               then set_location_href "/login"
               else ret tt
           | None => ret tt
           end
         else ret tt) in
      let* _ :=
        (if (status resp =? 500)%Z
         then
           let errorMessage := js_or (opt_get (data resp) "message") (JStr "Server error") in
           let* mongo := js_includes errorMessage "MongoDB" in
           let* db := (if mongo then ret true else js_includes errorMessage "database") in
           if db
           then toast.error (JStr "Database connection issue. Please try again in a moment.")
           else toast.error (JStr "An error occurred. Please try again.")
         else ret tt) in
      throw error
  | _ =>
      let* _ := toast.error (JStr "Network error. Please check your connection.") in
      throw error
  end.

Definition config_of (m : http_method) (path : string) (payload : json) : request :=
  {| method := m; url := API_BASE_URL +:+ path;
     headers := [("Content-Type", "application/json")];
     body := payload; _retry := false |}.

Definition request (m : http_method) (path : string) (payload : json) : M response :=
  let* config := request_interceptor (config_of m path payload) in
  try_catch (axios.dispatch config) response_interceptor.

Definition get (path : string) : M response := request GET path JUndefined.
Definition post (path : string) (payload : json) : M response := request POST path payload.
Definition patch (path : string) (payload : json) : M response := request PATCH path payload.
Definition delete (path : string) : M response := request DELETE path JUndefined.
End api.

Module authService.
Definition register (userData : json) : M json :=
  try_catch
    (let* response := api.post "/auth/register" userData in
     let* token := get (data response) "token" in
     let* _ := (if truthy token then Cookies.set "auth_token" token 30 else ret tt) in
     ret (data response))
    (fun error =>
       if isAxiosError error && response_status_is error 400
       then throw error
       else throw error).

Definition login (credentials : json) : M json :=
  try_catch
    (let* response := api.post "/auth/login" credentials in
     let* token := get (data response) "token" in
     let* _ := (if truthy token then Cookies.set "auth_token" token 30 else ret tt) in
     ret (data response))
    (fun error =>
       if isAxiosError error && response_status_is error 401
       then throw error
       else throw error).

Definition getCurrentUser : M json :=
  try_catch
    (let* response := api.get "/auth/me" in
     ret (data response))
    (fun error =>
       let* _ := (if isAxiosError error && response_status_is error 401
                  then Cookies.remove "auth_token"
                  else ret tt) in
       throw error).

Definition logout : M unit :=
  let* _ := Cookies.remove "auth_token" in
  set_location_href "/login".
End authService.

(** The test of [withRetry] that refuses a retry:
    [!axios.isAxiosError(error) ||
     (error.response && error.response.status !== 500 && error.response)]. *)
Definition not_retried (error : error) : bool :=
  negb (isAxiosError error) ||
  match error_response error with
  | Some r => negb (status r =? 500)%Z
  | None => false
  end.

Definition default_retries : Z := 2.
Definition default_delay : Q := 1000.

(** [withRetry(apiCall, retries = 2, delay = 1000)].  The delay is a
    JavaScript number; it is kept as a rational in lowest terms.  The
    products 1000 * 1.5^k are dyadic and fit a double exactly up to k = 29,
    so for the default budget the rationals are the numbers the program
    computes. *)
Equations? withRetry {A : Type} (apiCall : M A) (retries : Z) (delay : Q) (w : world)
  : result A * world by wf (Z.to_nat retries) lt :=
  withRetry apiCall retries delay w with apiCall w => {
    | (Ok a, w1) := (Ok a, w1);
    | (Throw error, w1) with Z_le_gt_dec retries 0 => {
        | left _ := (Throw error, w1);
        | right _ with not_retried error => {
            | true := (Throw error, w1);
            | false := withRetry apiCall (retries - 1) (Qred (delay * 1.5))
                                 (snd (sleep delay w1)) } } }.
Proof. lia. Qed.

(** A service method of the shape
    [withRetry(async () => { const response = await api.m(path, payload); return response.data; })]. *)
Definition wrapped_call (m : http_method) (path : string) (payload : json) : M json :=
  withRetry (let* response := api.request m path payload in ret (data response))
            default_retries default_delay.

Module bookingsService.
Definition getAllBookings : M json := wrapped_call GET "/bookings" JUndefined.
Definition getAllBookingsAdmin : M json := wrapped_call GET "/bookings" JUndefined.
Definition getBookingById (id : string) : M json :=
  wrapped_call GET ("/bookings/" +:+ id) JUndefined.
Definition createBooking (bookingData : json) : M json :=
  wrapped_call POST "/bookings" bookingData.
Definition updateBookingStatus (id status : string) : M json :=
  wrapped_call PATCH ("/bookings/" +:+ id) (JObj [("status", JStr status)]).
Definition adminUpdateBookingStatus (id status : string) : M json :=
  wrapped_call PATCH ("/admin/bookings/" +:+ id +:+ "/status") (JObj [("status", JStr status)]).
Definition deleteBooking (id : string) : M json :=
  wrapped_call DELETE ("/bookings/" +:+ id) JUndefined.
Definition getAvailableTimeslots (date : string) : M json :=
  wrapped_call GET ("/bookings/timeslots?date=" +:+ date) JUndefined.
End bookingsService.

(** [usersAdminService.getAllUsers], which relabels the rows it receives with
    [Math.random()], is not embedded; [deleteUser] is. *)
Module usersAdminService.
Definition deleteUser (userId : string) : M json :=
  if negb (truthy (JStr userId))
  then throw (Error "User ID is required")
  else
    let* token := Cookies.get "auth_token" in
    let url := API_BASE_URL +:+ "/admin/users/delete/" +:+ userId in
    try_catch
      (let* response :=
         axios.delete url [("Authorization", "Bearer " +:+ js_String token);
                           ("Content-Type", "application/json")] in
       ret (data response))
      (fun error => throw error).
End usersAdminService.

(** ** context/AuthContext.tsx *)

Module AuthContext.
(** [const isAuthenticated = !!user] *)
Definition isAuthenticated (w : world) : bool := truthy (auth_user w).

(** State of a freshly mounted [AuthProvider]:
    [useState(null)] and [useState(true)]. *)
Definition mounted (w : world) : Prop :=
  auth_user w = JNull /\ auth_loading w = true.

Definition loadUser : M unit :=
  try_finally
    (try_catch
       (let* response := authService.getCurrentUser in
        let* d := get response "data" in
        let u := opt_get d "user" in
        if truthy u then setUser u else ret tt)
       (fun error => ret tt))
    (setLoading false).

(** The effect run once on mount. *)
Definition mount_effect : M unit :=
  let* token := Cookies.get "auth_token" in
  if negb (truthy token)
  then setLoading false
  else detached loadUser.

Definition login (email password : string) : M unit :=
  let* _ := setLoading true in
  try_finally
    (try_catch
       (let* response :=
          authService.login (JObj [("email", JStr email); ("password", JStr password)]) in
        let* d := get response "data" in
        let* u := get d "user" in
        let* _ := setUser u in
        let* _ := toast.success (JStr "Login successful!") in
        router.push "/dashboard")
       (fun error =>
          let* _ :=
            (if response_status_is error 503
             then toast.error (JStr "Database connection is currently unavailable. Please try again later.")
             else if negb (bool_decide (is_Some (error_response error)))
             then toast.error (JStr "Network error. Please check your connection and try again.")
             else toast.error (js_or (response_data_message error) (JStr "Login failed"))) in
          throw error))
    (setLoading false).

Definition register (name email password : string) : M unit :=
  let* _ := setLoading true in
  try_finally
    (try_catch
       (let* response :=
          authService.register
            (JObj [("name", JStr name); ("email", JStr email); ("password", JStr password)]) in
        let* d := get response "data" in
        let* u := get d "user" in
        let* _ := setUser u in
        let* _ := toast.success (JStr "Registration successful!") in
        router.push "/dashboard")
       (fun error =>
          let* _ :=
            (if response_status_is error 503
             then toast.error (JStr "Database connection is currently unavailable. Please try again later.")
             else if negb (bool_decide (is_Some (error_response error)))
             then toast.error (JStr "Network error. Please check your connection and try again.")
             else toast.error (js_or (response_data_message error) (JStr "Registration failed"))) in
          throw error))
    (setLoading false).

Definition logout : M unit :=
  let* _ := authService.logout in
  let* _ := setUser JNull in
  toast.info (JStr "You have been logged out").

(** [data.phone] is optional: [phone] is [JUndefined] when it is absent. *)
Definition updateUserProfile (name email : string) (phone : json) : M unit :=
  let* user := read auth_user in
  if truthy user
  then setUser (spread_with (spread_with (spread_with user "name" (JStr name))
                                         "email" (JStr email))
                            "phone" phone)
  else ret tt.

(** What a render of the guard puts on the screen. *)
Inductive rendered (V : Type) :=
| LoadingPlaceholder
| Content (v : V)
| Null.
Arguments LoadingPlaceholder {V}.
Arguments Content {V} v.
Arguments Null {V}.

(** [withAuth(Component)]: the render function of [ProtectedRoute], given
    the [isAuthenticated] and [loading] it reads from the context. *)
Definition withAuth {P V : Type} (Component : P -> V)
    (props : P) (isAuthenticated loading : bool) : rendered V :=
  if loading then LoadingPlaceholder
  else if isAuthenticated then Content (Component props) else Null.

(** The effect of [ProtectedRoute], run after the render is committed. *)
Definition withAuth_effect (isAuthenticated loading : bool) : M unit :=
  if negb loading && negb isAuthenticated
  then router.replace "/login"
  else ret tt.
End AuthContext.

(** ** The booking form (new-booking page on [bookingsService]) *)

Definition setFormLoading (b : bool) : M unit := fun w => (Ok tt, with_form_loading b w).

Module NewBookingPage.
Definition handleSubmit (formData : json) : M unit :=
  let* _ := setFormLoading true in
  try_finally
    (try_catch
       (let* response := bookingsService.createBooking formData in
        if truthy response
        then
          let* _ := toast.success (JStr "Booking created successfully!") in
          router.push "/dashboard"
        else ret tt)
       (fun error =>
          toast.error (js_or (response_data_message error) (JStr "Failed to create booking"))))
    (setFormLoading false).
End NewBookingPage.

(** ** The earlier booking form, on [bookingService] of the earlier api.ts *)

Module bookingService.
Definition createBooking (bookingData : json) : M response :=
  try_catch (api.post "/bookings" bookingData) (fun error => throw error).
End bookingService.

Module EarlierNewBookingPage.
Record BookingFormData := {
  date : string;
  time : string;
  service : string;
  notes : string
}.

Definition services : list (string * string) :=
  [("haircut", "Haircut"); ("coloring", "Hair Coloring"); ("styling", "Hair Styling");
   ("facial", "Facial Treatment"); ("makeup", "Professional Makeup");
   ("manicure", "Manicure"); ("pedicure", "Pedicure"); ("massage", "Massage Therapy")].

(** [services.find(s => s.id === id)?.name] *)
Definition service_name (id : string) : json :=
  match List.find (fun s => String.eqb (fst s) id) services with
  | Some s => JStr (snd s)
  | None => JUndefined
  end.

Definition handleSubmit (formData : BookingFormData) : M unit :=
  let* user := read auth_user in
  if negb (truthy (JStr (date formData))) || negb (truthy (JStr (time formData)))
     || negb (truthy (JStr (service formData)))
  then toast.error (JStr "Please fill all required fields")
  else
    let* past := read (fun w => date_before_today w (date formData)) in
    if past : bool
    then toast.error (JStr "Please select a future date")
    else
       try_finally
         (try_catch
            (let* _ := setFormLoading true in
             let selectedService := service_name (service formData) in
             let* _ :=
               bookingService.createBooking
                 (JObj [("customer_name", opt_get user "name");
                        ("customer_email", opt_get user "email");
                        ("customer_phone", js_or (opt_get user "phone") (JStr ""));
                        ("service_name", selectedService);
                        ("service_details", JStr (js_String selectedService +:+ " service"));
                        ("booking_date", JStr (date formData));
                        ("booking_time", JStr (time formData));
                        ("booking_notes", JStr (notes formData));
                        ("status", JStr "pending")]) in
             let* _ := toast.success (JStr "Booking created successfully!") in
             router.push "/dashboard")
            (fun error => toast.error (JStr "Failed to create booking. Please try again.")))
         (setFormLoading false).
End EarlierNewBookingPage.

(** ** The profile page: user management *)

Definition setUsers (f : list json -> list json) : M unit := fun w => (Ok tt, with_users f w).
Definition setShowDeleteModal (b : bool) : M unit := fun w => (Ok tt, with_showDeleteModal b w).
Definition setUserToDelete (v : json) : M unit := fun w => (Ok tt, with_userToDelete v w).
Definition setDeletingUser (b : bool) : M unit := fun w => (Ok tt, with_deletingUser b w).

Module ProfilePage.
Definition openDeleteModal (user : json) : M unit :=
  if negb (truthy (prop user "_id")) && negb (truthy (prop user "id"))
  then toast.error (JStr "Cannot delete user: Missing ID")
  else
    let userWithId :=
      spread_with user "_id" (js_or (js_or (prop user "_id") (prop user "id")) (JStr "")) in
    let* _ := setUserToDelete userWithId in
    setShowDeleteModal true.

Definition closeDeleteModal : M unit :=
  let* _ := setShowDeleteModal false in
  setUserToDelete JNull.

(** [userToDelete._id || userToDelete.id], then, when truthy,
    [String(userId).trim()]. *)
Definition cleaned_id (userToDelete : json) : json :=
  let userId := js_or (prop userToDelete "_id") (prop userToDelete "id") in
  if truthy userId then JStr (trim (js_String userId)) else userId.

Definition handleDeleteUser : M unit :=
  let* userToDelete := read userToDelete in
  let* user := read auth_user in
    (if negb (truthy userToDelete) then ret tt
     else
       let userId := cleaned_id userToDelete in
       if negb (truthy userId)
       then
         let* _ := toast.error (JStr "Invalid user ID") in
         closeDeleteModal
       else if strict_eq_str (opt_get user "id") (js_String userId)
       then
         let* _ := toast.error (JStr "You cannot delete your own admin account") in
         closeDeleteModal
       else
         let* _ := setDeletingUser true in
         try_finally
           (try_catch
              (let* result := usersAdminService.deleteUser (js_String userId) in
               let* _ :=
                 setUsers (List.filter (fun u =>
                   negb (strict_eq_str (js_or (prop u "_id") (prop u "id")) (js_String userId)))) in
               let* _ := toast.success (JStr "User access revoked successfully") in
               closeDeleteModal)
              (fun error =>
                 if response_status_is error 404
                 then toast.error (JStr "User not found")
                 else if response_status_is error 403
                 then toast.error (JStr "You do not have permission to delete this user")
                 else if response_status_is error 400
                 then toast.error (JStr "Cannot delete admin account")
                 else toast.error (JStr ("Failed to revoke user access: " +:+ error_message error))))
           (setDeletingUser false)).
End ProfilePage.

(** ** Vocabulary of the properties *)

(** A failure without an HTTP response. *)
Definition is_network_error (e : error) : bool :=
  match e with AxiosError _ _ None => true | _ => false end.

(** A failure carrying an HTTP response with the given status. *)
Definition has_status (e : error) (code : Z) : bool :=
  match e with AxiosError _ _ (Some r) => (status r =? code)%Z | _ => false end.

(** The identifier of a row of the users table: [u._id || u.id]. *)
Definition row_id (u : json) : json := js_or (prop u "_id") (prop u "id").

(** The object [{ email, password }]. *)
Definition credentials (email password : string) : json :=
  JObj [("email", JStr email); ("password", JStr password)].

(** [Cookies.get('auth_token')] in the world [w]. *)
Definition stored_token (w : world) : json :=
  match cookies w !! "auth_token" with
  | Some c => JStr (value c)
  | None => JUndefined
  end.

(** The request that [api.m(path, payload)] puts on the wire in [w]. *)
Definition wire_request (m : http_method) (path : string) (payload : json) (w : world) : request :=
  api.decorate (stored_token w) (api.config_of m path payload).

(** The answer of the remote service to the next request, if it is [c]. *)
Definition answer (w : world) (c : request) : outcome := remote w (requests_sent w) c.

(** The current location is a login or register page. *)
Definition on_auth_page (p : string) : bool := includes "/login" p || includes "/register" p.

(** The events a computation adds to the trace of [w]. *)
Definition added {A} (c : M A) (w : world) (evs : list event) : Prop :=
  events (snd (c w)) = events w ++ evs.

(** The part of a trace that concerns the retry helper: attempts (requests
    on the wire) and waits (timers awaited). *)
Inductive step :=
| Attempt
| Wait (ms : Q).

Definition schedule (evs : list event) : list step :=
  omap (fun e => match e with
                 | Request _ => Some Attempt
                 | Timeout d => Some (Wait d)
                 | _ => None
                 end) evs.

(** An API call that puts exactly one request on the wire each time it is
    invoked and awaits no timer of its own. *)
Definition one_request_per_call {A} (apiCall : M A) : Prop :=
  forall w, exists evs, added apiCall w evs /\ schedule evs = [Attempt].

(** The delay before the retry number [k + 1]:
    the initial delay times 1.5 to the power [k]. *)
Definition backoff (delay : Q) (k : nat) : Q := Qred (delay * 1.5 ^ Z.of_nat k).

(** The delay [withRetry] holds after [k] recursive calls. *)
Definition nth_delay (delay : Q) (k : nat) : Q :=
  Nat.iter k (fun d => Qred (d * 1.5)) delay.

(** An attempt, then [m] times a wait followed by an attempt. *)
Definition retry_schedule (delay : Q) (m : nat) : list step :=
  Attempt :: flat_map (fun k => [Wait (nth_delay delay k); Attempt]) (seq 0 m).

Definition attempts (sched : list step) : nat :=
  length (List.filter (fun s => match s with Attempt => true | Wait _ => false end) sched).

Definition waits (sched : list step) : list Q :=
  omap (fun s => match s with Wait d => Some d | Attempt => None end) sched.

(** [preserves R c]: whatever the world [w], [c] leaves a world related to
    [w] by [R], whether it returns or throws. *)
Definition preserves {A} (R : world -> world -> Prop) (c : M A) : Prop :=
  forall w, R w (snd (c w)).

(** The trace has only grown, by events that satisfy [P]. *)
Definition extends (P : event -> Prop) (w w' : world) : Prop :=
  exists evs, events w' = events w ++ evs /\ Forall P evs.

(** [emits P c]: [c] only appends to the trace, and every event it appends
    satisfies [P]. *)
Definition emits {A} (P : event -> Prop) (c : M A) : Prop := preserves (extends P) c.

(** No cookie has been added or changed; cookies may have been removed. *)
Definition keeps_jar (w w' : world) : Prop := cookies w' ⊆ cookies w.

(** The session of [AuthProvider] is what it was. *)
Definition keeps_session (w w' : world) : Prop := auth_user w' = auth_user w.

(** The world with the request [c] on the wire. *)
Definition on_wire (c : request) (w : world) : world :=
  with_events (fun evs => evs ++ [Request c]) w.

Definition navigations_of (evs : list event) : list string :=
  omap (fun e => match e with SetHref h => Some h | _ => None end) evs.

(** The world after the response interceptor has handled a 401. *)
Definition signed_out (w : world) : world :=
  let w1 := snd (Cookies.remove "auth_token" w) in
  match pathname w with
  | Some p => if on_auth_page p then w1 else snd (set_location_href "/login" w1)
  | None => w1
  end.

Definition off_schedule (e : event) : Prop :=
  match e with Request _ | Timeout _ => False | _ => True end.

Definition no_request (e : event) : Prop :=
  match e with Request _ => False | _ => True end.

Definition no_cookie_write (e : event) : Prop :=
  match e with CookieSet _ _ _ => False | _ => True end.

(** ** Sample worlds *)

Module Sample.
Definition always (o : outcome) : nat -> request -> outcome := fun _ _ => o.

Definition browser (srv : nat -> request -> outcome) (jar : gmap string cookie)
    (path : string) : world :=
  {| remote := srv; date_before_today := fun _ => false;
     cookies := jar; pathname := Some path; events := [];
     auth_user := JNull; auth_loading := true;
     users := []; showDeleteModal := false; userToDelete := JNull;
     deletingUser := false; form_loading := false |}.

Definition token_jar (t : string) : gmap string cookie :=
  <["auth_token" := {| value := t; expires := Some 30 |}]> ∅.

Definition reply (code : Z) (payload : json) : outcome :=
  Response {| status := code; data := payload |}.

Definition invalid_date : json := JObj [("message", JStr "Invalid date")].

(** two connection failures, then a 200 *)
Definition flaky : nat -> request -> outcome :=
  fun n _ => if (n <? 2)%nat then NoResponse "Network Error" else reply 200 (JArr []).

(** the callback of [bookingsService.getAllBookings] *)
Definition get_bookings : M json :=
  let* response := api.get "/bookings" in ret (data response).

Definition rejected_400 : world := browser (always (reply 400 invalid_date)) (token_jar "t0") "/dashboard".

Definition error_400 : error :=
  AxiosError "Request failed with status code 400"
    {| method := GET; url := "http://localhost:3000/api/bookings";
       headers := [("Content-Type", "application/json"); ("Authorization", "Bearer t0")];
       body := JUndefined; _retry := false |}
    (Some {| status := 400; data := invalid_date |}).

Definition ann : json :=
  JObj [("id", JStr "u1"); ("name", JStr "Ann"); ("email", JStr "a@b.com");
        ("role", JStr "admin")].

Definition login_body : json :=
  JObj [("token", JStr "tok-1"); ("data", JObj [("user", ann)])].

Definition welcoming : world :=
  browser (always (reply 200 login_body)) ∅ "/login".

(** a service that refuses every request with 401 *)
Definition refusing : world :=
  browser (always (reply 401 (JObj [("message", JStr "Invalid credentials")]))) ∅ "/login".

Definition booking_form : json :=
  JObj [("customer_name", JStr "Ann"); ("customer_email", JStr "a@b.com");
        ("customer_phone", JStr ""); ("service_name", JStr "Consultation");
        ("service_details", JStr ""); ("booking_date", JStr "2099-01-01");
        ("booking_time", JStr "09:00"); ("booking_notes", JStr "")].


(** an administrator whose identifier is stored with surrounding blanks *)
Definition padded_admin : json :=
  JObj [("id", JStr " 42 "); ("name", JStr "Root"); ("email", JStr "root@b.com");
        ("role", JStr "admin")].

(** the row of that account as the users list has it, with a role for which
    the table offers the button *)
Definition padded_row : json :=
  JObj [("_id", JStr " 42 "); ("name", JStr "Root"); ("email", JStr "root@b.com");
        ("role", JStr "user")].

Definition deleting_self : world :=
  {| remote := always (reply 200 (JObj [("success", JBool true)]));
     date_before_today := fun _ => false;
     cookies := token_jar "t0"; pathname := Some "/dashboard/profile";
     events := [];
     auth_user := padded_admin; auth_loading := false;
     users := [padded_row]; showDeleteModal := true; userToDelete := padded_row;
     deletingUser := false; form_loading := false |}.

(** the administrator has selected the row of the own account *)
Definition own_row : json :=
  JObj [("_id", JStr "u1"); ("name", JStr "Ann"); ("email", JStr "a@b.com")].

Definition selecting_self : world :=
  {| remote := always (reply 200 (JObj [("success", JBool true)]));
     date_before_today := fun _ => false;
     cookies := token_jar "t0"; pathname := Some "/dashboard/profile";
     events := [];
     auth_user := ann; auth_loading := false;
     users := [own_row]; showDeleteModal := true; userToDelete := own_row;
     deletingUser := false; form_loading := false |}.

Definition expired : world :=
  browser (always (reply 401 (JObj [("message", JStr "Token expired")])))
          (token_jar "t0") "/dashboard".

Definition offline : world := browser (always (NoResponse "Network Error")) (token_jar "t0") "/dashboard".

Definition network_error : error :=
  AxiosError "Network Error"
    {| method := GET; url := "http://localhost:3000/api/bookings";
       headers := [("Content-Type", "application/json"); ("Authorization", "Bearer t0")];
       body := JUndefined; _retry := false |}
    None.
End Sample.

(** ** Vocabulary of the further properties *)

(** The part [f] of the world is what it was. *)
Definition unchanged {X : Type} (f : world -> X) (w w' : world) : Prop := f w' = f w.

(** The headers a gateway request carries when no token is stored. *)
Definition plain_headers : list (string * string) := [("Content-Type", "application/json")].

(** The toast the response interceptor shows for a 500 whose message is the
    string [t]. *)
Definition server_error_toast (t : string) : string :=
  if includes "MongoDB" t || includes "database" t
  then "Database connection issue. Please try again in a moment."
  else "An error occurred. Please try again.".

(** The error axios rejects with for the response [r] to the request [c]. *)
Definition rejection (c : request) (r : response) : error :=
  AxiosError ("Request failed with status code " +:+ pretty (status r)) c (Some r).

(** Neither a cookie operation nor an assignment to [window.location.href]. *)
Definition no_sign_out (e : event) : Prop :=
  match e with SetHref _ | CookieRemove _ | CookieSet _ _ _ => False | _ => True end.

Definition no_toast (e : event) : Prop :=
  match e with Toast _ _ => False | _ => True end.

(** A value on which [.includes] is not a function although it is truthy. *)
Definition lacks_includes (v : json) : Prop :=
  truthy v = true /\ match v with JStr _ | JArr _ => False | _ => True end.

(** The object [{ name, email, password }]. *)
Definition registration (name email password : string) : json :=
  JObj [("name", JStr name); ("email", JStr email); ("password", JStr password)].

(** The request [usersAdminService.deleteUser(userId)] puts on the wire: the
    header is built from whatever [Cookies.get] returned, also [undefined]. *)
Definition delete_user_request (userId : string) (w : world) : request :=
  {| method := DELETE;
     url := API_BASE_URL +:+ "/admin/users/delete/" +:+ userId;
     headers := [("Authorization", "Bearer " +:+ js_String (stored_token w));
                 ("Content-Type", "application/json")];
     body := JUndefined; _retry := false |}.

(** The text [handleDeleteUser] shows for a failed deletion. *)
Definition revoke_failure_text (e : error) : string :=
  if has_status e 404 then "User not found"
  else if has_status e 403 then "You do not have permission to delete this user"
  else if has_status e 400 then "Cannot delete admin account"
  else "Failed to revoke user access: " +:+ error_message e.

Definition any_event (e : event) : Prop := True.

(** The text the bookings table shows for a failed status update. *)
Definition status_failure_text (e : error) : string :=
  if has_status e 403 then "You do not have permission to update this booking"
  else if has_status e 404 then "Booking not found"
  else "Failed to update booking status".

(** The row [booking] after a status update for [bookingId]. *)
Definition with_status (bookingId newStatus : string) (booking : json) : json :=
  if strict_eq_str (prop booking "_id") bookingId
  then spread_with booking "status" (JStr newStatus)
  else booking.

(** The request of [adminUpdateBookingStatus(bookingId, newStatus)]. *)
Definition status_request (bookingId newStatus : string) (w : world) : request :=
  wire_request PATCH ("/admin/bookings/" +:+ bookingId +:+ "/status")
               (JObj [("status", JStr newStatus)]) w.

(** ** Components with state of their own

    The pages below keep their state in [useState] cells that no other
    component reads.  Their handlers are computations that pass that state
    along with the world; a state update made before a throw is kept. *)

Definition L (S A : Type) : Type := S -> world -> result A * (S * world).

Definition retL {S A} (a : A) : L S A := fun s w => (Ok a, (s, w)).

Definition bindL {S A B} (c : L S A) (k : A -> L S B) : L S B :=
  fun s w =>
    match c s w with
    | (Ok a, (s1, w1)) => k a s1 w1
    | (Throw e, sw) => (Throw e, sw)
    end.

Notation "'let+' x ':=' c 'in' k" := (bindL c (fun x => k))
  (at level 10, x name, c at level 100, k at level 200,
   format "'[v' 'let+'  x  ':='  c  'in' '/' k ']'").

(** A computation on the world alone, run inside a component. *)
Definition liftL {S A} (c : M A) : L S A :=
  fun s w => match c w with (r, w1) => (r, (s, w1)) end.

(** The state as the handler's closure sees it. *)
Definition getL {S} : L S S := fun s w => (Ok s, (s, w)).

(** [setX(prev => f(prev))] *)
Definition modifyL {S} (f : S -> S) : L S unit := fun s w => (Ok tt, (f s, w)).

Definition try_catchL {S A} (body : L S A) (handler : error -> L S A) : L S A :=
  fun s w =>
    match body s w with
    | (Ok a, sw) => (Ok a, sw)
    | (Throw e, (s1, w1)) => handler e s1 w1
    end.

Definition try_finallyL {S A} (body : L S A) (fin : L S unit) : L S A :=
  fun s w =>
    match body s w with
    | (r, (s1, w1)) =>
        match fin s1 w1 with
        | (Ok _, sw) => (r, sw)
        | (Throw e, sw) => (Throw e, sw)
        end
    end.

Definition detachedL {S A} (c : L S A) : L S unit :=
  fun s w => (Ok tt, snd (c s w)).

(** ** The new-booking page: time slots *)

Module BookingForm.
Record State := {
  formData : json;
  availableSlots : json
}.

Definition timeSlots : json :=
  JArr [JStr "09:00"; JStr "10:00"; JStr "11:00"; JStr "12:00"; JStr "13:00";
        JStr "14:00"; JStr "15:00"; JStr "16:00"; JStr "17:00"].

Definition setFormData (f : json -> json) : L State unit :=
  modifyL (fun st => {| formData := f (formData st); availableSlots := availableSlots st |}).

Definition setAvailableSlots (v : json) : L State unit :=
  modifyL (fun st => {| formData := formData st; availableSlots := v |}).

Definition fetchAvailableTimeSlots (date : string) : L State unit :=
  try_catchL
    (let+ response := liftL (bookingsService.getAvailableTimeslots date) in
     if truthy response && truthy (prop response "availableSlots")
     then setAvailableSlots (prop response "availableSlots")
     else setAvailableSlots timeSlots)
    (fun error => setAvailableSlots timeSlots).

(** [handleChange] for an input named [name] holding [value]. *)
Definition handleChange (name value : string) : L State unit :=
  let+ _ := setFormData (fun prev => spread_with prev name (JStr value)) in
  if String.eqb name "booking_date" && truthy (JStr value)
  then detachedL (fetchAvailableTimeSlots value)
  else retL tt.
End BookingForm.

(** ** The dashboard: the bookings table *)

Module Dashboard.
(** The cells the handlers below read and write.  The rows of [bookings] are
    objects, by their type [Booking]. *)
Record State := {
  bookings : list json;
  filteredBookings : list json;
  statusFilter : string;
  showCancelConfirm : option string;
  updatingStatus : bool
}.

Definition setBookings (f : list json -> list json) : L State unit :=
  modifyL (fun st =>
    {| bookings := f (bookings st); filteredBookings := filteredBookings st;
       statusFilter := statusFilter st; showCancelConfirm := showCancelConfirm st;
       updatingStatus := updatingStatus st |}).

Definition setFilteredBookings (v : list json) : L State unit :=
  modifyL (fun st =>
    {| bookings := bookings st; filteredBookings := v;
       statusFilter := statusFilter st; showCancelConfirm := showCancelConfirm st;
       updatingStatus := updatingStatus st |}).

Definition setShowCancelConfirm (v : option string) : L State unit :=
  modifyL (fun st =>
    {| bookings := bookings st; filteredBookings := filteredBookings st;
       statusFilter := statusFilter st; showCancelConfirm := v;
       updatingStatus := updatingStatus st |}).

Definition setUpdatingStatus (b : bool) : L State unit :=
  modifyL (fun st =>
    {| bookings := bookings st; filteredBookings := filteredBookings st;
       statusFilter := statusFilter st; showCancelConfirm := showCancelConfirm st;
       updatingStatus := b |}).

(** The effect on [statusFilter] and [bookings]. *)
Definition filter_effect : L State unit :=
  let+ st := getL in
  if String.eqb (statusFilter st) "all"
  then setFilteredBookings (bookings st)
  else setFilteredBookings
         (List.filter (fun booking => strict_eq_str (prop booking "status") (statusFilter st))
                      (bookings st)).

(** [showCancelConfirm !== bookingId] *)
Definition confirm_is_not (v : option string) (bookingId : string) : bool :=
  match v with
  | Some s => negb (String.eqb s bookingId)
  | None => true
  end.

Definition handleStatusChange (bookingId newStatus : string) : L State unit :=
  let+ st := getL in
  if String.eqb newStatus "cancelled" && confirm_is_not (showCancelConfirm st) bookingId
  then setShowCancelConfirm (Some bookingId)
  else
    let+ _ := setShowCancelConfirm None in
    let+ _ := setUpdatingStatus true in
    try_finallyL
      (try_catchL
         (let+ _ := liftL (bookingsService.adminUpdateBookingStatus bookingId newStatus) in
          let+ _ := setBookings (map (fun booking =>
                      if strict_eq_str (prop booking "_id") bookingId
                      then spread_with booking "status" (JStr newStatus)
                      else booking)) in
          liftL (toast.success (JStr ("Booking status updated to " +:+ newStatus))))
         (fun error =>
            if response_status_is error 403
            then liftL (toast.error (JStr "You do not have permission to update this booking"))
            else if response_status_is error 404
            then liftL (toast.error (JStr "Booking not found"))
            else liftL (toast.error (JStr "Failed to update booking status"))))
      (setUpdatingStatus false).

(** [confirmed] is what [window.confirm] returns. *)
Definition handleDeleteBooking (confirmed : bool) (bookingId : string) : L State unit :=
  if negb confirmed then retL tt
  else
    try_catchL
      (let+ _ := liftL (bookingsService.deleteBooking bookingId) in
       let+ _ := setBookings (List.filter (fun booking =>
                   negb (strict_eq_str (prop booking "_id") bookingId))) in
       liftL (toast.success (JStr "Booking deleted successfully")))
      (fun error => liftL (toast.error (JStr "Failed to delete booking"))).
End Dashboard.

(** ** The profile page: saving the profile *)

Module ProfileForm.
(** [handleSubmit] of the profile page; the state is its [loading] cell. *)
Definition handleSubmit (formData : json) : L bool unit :=
  let+ isAuthenticated := liftL (read AuthContext.isAuthenticated) in
  if negb isAuthenticated
  then liftL (toast.error (JStr "You must be logged in to update your profile"))
  else
    let+ _ := modifyL (fun _ => true) in
    try_finallyL
      (try_catchL
         (let+ response := liftL (api.patch "/users/profile" formData) in
          if truthy (data response)
          then liftL (toast.success (JStr "Profile updated successfully"))
          else retL tt)
         (fun error =>
            liftL (toast.error (js_or (response_data_message error)
                                      (JStr "Failed to update profile")))))
      (modifyL (fun _ => false)).
End ProfileForm.

(** ** services/api.ts: the users list *)

(** [Array.isArray(v)] *)
Definition isArray (v : json) : bool :=
  match v with JArr _ => true | _ => false end.

(** The own enumerable properties of a value, which an object spread
    copies: the fields of an object, the elements of an array and the
    code units of a string under their indices. *)
Definition own_entries (v : json) : list (string * json) :=
  match v with
  | JObj fs => fs
  | JArr items => imap (fun i x => (pretty i, x)) items
  | JStr s => imap (fun i c => (pretty i, JStr c)) (code_units s)
  | _ => []
  end.


Module usersAdmin.

End usersAdmin.

(** ** The booking details page: loading the booking *)

Module BookingDetailsPage.
Record State := {
  booking : json;
  loading : bool;
  error : string
}.

Definition setBooking (v : json) : L State unit :=
  modifyL (fun st => {| booking := v; loading := loading st; error := error st |}).

Definition setLoading (b : bool) : L State unit :=
  modifyL (fun st => {| booking := booking st; loading := b; error := error st |}).

Definition setError (s : string) : L State unit :=
  modifyL (fun st => {| booking := booking st; loading := loading st; error := s |}).

(** [items.find(b => b._id === id)] *)
Fixpoint find_by_id (id : string) (items : list json) : M json :=
  match items with
  | [] => ret JUndefined
  | b :: rest =>
      let* v := get b "_id" in
      if strict_eq_str v id then ret b else find_by_id id rest
  end.

(** [bookingsArray.find(...)]: only arrays have the method. *)
Definition js_find_by_id (bookingsArray : json) (id : string) : M json :=
  match bookingsArray with
  | JArr items => find_by_id id items
  | _ => throw (TypeError "bookingsArray.find is not a function")
  end.

Definition fetchBooking (id : string) : L State unit :=
  if negb (truthy (JStr id)) then retL tt
  else
    try_finallyL
      (try_catchL
         (let+ _ := setLoading true in
          let+ allBookings := liftL bookingsService.getAllBookingsAdmin in
          let bookingsArray :=
            if isArray allBookings then allBookings
            else js_or (opt_get allBookings "data") (JArr []) in
          let+ foundBooking := liftL (js_find_by_id bookingsArray id) in
          let fromList := if truthy foundBooking then foundBooking else JNull in
          let+ bookingData :=
            try_catchL
              (let+ response := liftL (bookingsService.getBookingById id) in
               if truthy response && truthy (prop response "data")
               then retL (prop response "data")
               else retL fromList)
              (fun error => retL fromList) in
          if truthy bookingData
          then setBooking bookingData
          else setError "Booking not found")
         (fun error => setError "Failed to load booking details"))
      (setLoading false).
End BookingDetailsPage.

Module Scenario.
(** a service that fails every request with a 500 and the given body *)
Definition failing (payload : json) : world :=
  Sample.browser (Sample.always (Sample.reply 500 payload)) (Sample.token_jar "t0") "/dashboard".

(** a login answer with the user beside the token, not under [data] *)
Definition flat_login_body : json :=
  JObj [("token", JStr "tok-1"); ("user", Sample.ann)].

Definition flat_login : world :=
  Sample.browser (Sample.always (Sample.reply 200 flat_login_body)) ∅ "/login".

(** a registration refused because the address is in use *)
Definition taken : world :=
  Sample.browser
    (Sample.always (Sample.reply 400 (JObj [("message", JStr "Email already registered")])))
    ∅ "/register".

(** a returning visitor whose token the service accepts *)
Definition returning : world :=
  Sample.browser
    (Sample.always (Sample.reply 200 (JObj [("data", JObj [("user", Sample.ann)])])))
    (Sample.token_jar "t0") "/dashboard".

(** the administrator Ann has selected the row of another user *)
Definition other_row : json :=
  JObj [("_id", JStr " u2 "); ("name", JStr "Bob"); ("email", JStr "b@b.com")].

Definition profile_page (srv : nat -> request -> outcome) : world :=
  {| remote := srv; date_before_today := fun _ => false;
     cookies := Sample.token_jar "t0"; pathname := Some "/dashboard/profile";
     events := [];
     auth_user := Sample.ann; auth_loading := false;
     users := [Sample.own_row; JObj [("_id", JStr "u2"); ("name", JStr "Bob")]];
     showDeleteModal := true; userToDelete := other_row;
     deletingUser := false; form_loading := false |}.

Definition revoking : world :=
  profile_page (Sample.always (Sample.reply 200 (JObj [("success", JBool true)]))).

Definition revoking_refused : world :=
  profile_page (Sample.always (Sample.reply 403 JNull)).

(** a service that accepts everything with an empty 204 *)
Definition no_content : world :=
  Sample.browser (Sample.always (Sample.reply 204 (JStr ""))) (Sample.token_jar "t0")
                 "/dashboard/new-booking".

(** what the gateway throws for the rejected slots request of [rejected_400] *)
Definition slots_rejection : error :=
  rejection (wire_request GET "/bookings/timeslots?date=2099-01-01" JUndefined Sample.rejected_400)
            {| status := 400; data := Sample.invalid_date |}.

(** the bookings table with two rows, filtered on pending *)
Definition table : Dashboard.State :=
  {| Dashboard.bookings :=
       [JObj [("_id", JStr "b1"); ("status", JStr "pending")];
        JObj [("_id", JStr "b2"); ("status", JStr "confirmed")]];
     Dashboard.filteredBookings := [JObj [("_id", JStr "b1"); ("status", JStr "pending")]];
     Dashboard.statusFilter := "pending";
     Dashboard.showCancelConfirm := None;
     Dashboard.updatingStatus := false |}.

(** a service that accepts every request *)
Definition accepting : world :=
  Sample.browser (Sample.always (Sample.reply 200 (JObj [("success", JBool true)])))
                 (Sample.token_jar "t0") "/dashboard".
End Scenario.

(** ** Vocabulary of the pages *)

(** [null] and [undefined], on which reading a property throws. *)
Definition nullish (v : json) : bool :=
  match v with JUndefined | JNull => true | _ => false end.


(** What the booking details page takes for the list of bookings. *)
Definition bookings_array (allBookings : json) : json :=
  if isArray allBookings then allBookings
  else js_or (opt_get allBookings "data") (JArr []).

(** The by-id call failed, or its answer carries no data. *)
Definition without_data (r : result json) : Prop :=
  match r with
  | Ok response => truthy response && truthy (prop response "data") = false
  | Throw _ => True
  end.

Module Directory.
(** a users list under [data], with one row of each kind *)
Definition rows : list json :=
  [JObj [("_id", JStr "u1"); ("name", JStr "Ann")];
   JObj [("id", JStr "u2"); ("name", JStr "Bob")];
   JObj [("name", JStr "Cy")]].


End Directory.

Module Details.
Definition row : json := JObj [("_id", JStr "b1"); ("status", JStr "pending")].

(** a service that lists one booking and knows no booking by id *)
Definition service : nat -> request -> outcome :=
  fun _ c =>
    if String.eqb (url c) (API_BASE_URL +:+ "/bookings")
    then Sample.reply 200 (JArr [row])
    else Sample.reply 404 JNull.

Definition page : world :=
  Sample.browser service (Sample.token_jar "t0") "/dashboard/bookings/b1".

Definition blank : BookingDetailsPage.State :=
  {| BookingDetailsPage.booking := JNull;
     BookingDetailsPage.loading := true;
     BookingDetailsPage.error := "" |}.
End Details.

(** * Properties *)

Example js_helpers_ex :
  trim "  ab c " = "ab c" /\ includes "/login" "/auth/login/x" = true
  /\ js_String (JArr [JNum 1; JNull; JStr "a"]) = "1,,a".
Proof. repeat split; reflexivity. Qed.

(** [trim] removes the no-break space and the byte order mark, and leaves
    a letter whose last byte is the last byte of the no-break space. *)
Example trim_ex :
  trim (of_bytes [194; 160; 52; 50; 239; 187; 191; 32]%N) = "42" /\
  trim (of_bytes [32; 195; 160]%N) = of_bytes [195; 160]%N /\
  trim (of_bytes [226; 128; 139; 32]%N) = of_bytes [226; 128; 139]%N.
Proof. repeat split; vm_compute; reflexivity. Qed.

(** Numbers are printed as the language prints their doubles. *)
Example number_to_string_ex :
  js_String (JNum 42) = "42" /\ js_String (JNum (-1200)) = "-1200" /\
  js_String (JNum (2 ^ 53 + 1)) = "9007199254740992" /\
  js_String (JNum (2 ^ 60)) = "1152921504606847000" /\
  js_String (JNum (10 ^ 21)) = "1e+21" /\
  js_String (JNum (2 ^ 70)) = "1.1805916207174113e+21" /\
  js_String (JNum (2 ^ 1024)) = "Infinity".
Proof. repeat split; vm_compute; reflexivity. Qed.

(** A string is spread by code units. *)
Example own_entries_ex :
  own_entries (JStr (of_bytes [97; 195; 169; 240; 159; 152; 128]%N)) =
    [("0", JStr "a"); ("1", JStr (of_bytes [195; 169]%N));
     ("2", JStr (of_bytes [237; 160; 189]%N)); ("3", JStr (of_bytes [237; 184; 128]%N))].
Proof. vm_compute. reflexivity. Qed.

(** ** Unfolding [withRetry] *)

Section WithRetry.
Context {A : Type} (apiCall : M A).

Lemma withRetry_ok retries delay w a w1 :
  apiCall w = (Ok a, w1) ->
  withRetry apiCall retries delay w = (Ok a, w1).
Proof. intros H. simp withRetry. rewrite H. reflexivity. Qed.

Lemma withRetry_exhausted retries delay w :
  retries <= 0 ->
  withRetry apiCall retries delay w = apiCall w.
Proof.
  intros H. simp withRetry. destruct (apiCall w) as [[a|e] w1]; simpl; [reflexivity|].
  destruct (Z_le_gt_dec retries 0); simpl; [reflexivity | lia].
Qed.

Lemma withRetry_refused retries delay w e w1 :
  apiCall w = (Throw e, w1) ->
  not_retried e = true ->
  withRetry apiCall retries delay w = (Throw e, w1).
Proof.
  intros H Hn. simp withRetry. rewrite H. simpl.
  destruct (Z_le_gt_dec retries 0); simpl; [reflexivity|].
  rewrite Hn. reflexivity.
Qed.

Lemma withRetry_again retries delay w e w1 :
  apiCall w = (Throw e, w1) ->
  0 < retries ->
  not_retried e = false ->
  withRetry apiCall retries delay w =
  withRetry apiCall (retries - 1) (Qred (delay * 1.5)) (snd (sleep delay w1)).
Proof.
  intros H Hr Hn. rewrite withRetry_equation_1. rewrite H. simpl.
  destruct (Z_le_gt_dec retries 0); simpl; [lia|].
  rewrite Hn. reflexivity.
Qed.
End WithRetry.

(** ** Which failures are retried *)

Lemma not_retried_spec e :
  not_retried e = negb (is_network_error e || has_status e 500).
Proof.
  destruct e as [m c [r|] | m | m]; reflexivity.
Qed.

(** C1. When an attempt fails, [withRetry] tries again only if the failure is
    a network error (an axios error without a response) or an HTTP 500
    response; every other failure, in particular every error carrying a
    response whose status is not 500 (401 and the other 4xx included), is
    re-thrown at once: same error, and the world is the one the failed
    attempt left, with no timer awaited and no further call. *)
Theorem withRetry_retries_only_transient {A : Type} (apiCall : M A)
    (retries : Z) (delay : Q) (w w1 : world) (e : error) :
  apiCall w = (Throw e, w1) ->
  (is_network_error e || has_status e 500 = false ->
     withRetry apiCall retries delay w = (Throw e, w1))
  /\ (forall r, error_response e = Some r -> status r <> 500 ->
        withRetry apiCall retries delay w = (Throw e, w1))
  /\ (withRetry apiCall retries delay w <> (Throw e, w1) ->
        is_network_error e || has_status e 500 = true)
  /\ (is_network_error e || has_status e 500 = true -> 0 < retries ->
        withRetry apiCall retries delay w =
        withRetry apiCall (retries - 1) (Qred (delay * 1.5)) (snd (sleep delay w1))).
Proof.
  intros H.
  assert (Hno : is_network_error e || has_status e 500 = false ->
                withRetry apiCall retries delay w = (Throw e, w1)).
  { intros Hf. apply (withRetry_refused apiCall retries delay w e w1 H).
    rewrite not_retried_spec, Hf. reflexivity. }
  repeat split.
  - exact Hno.
  - intros r Hr Hs. apply Hno.
    destruct e as [m c [r'|] | m | m]; simpl in *; try discriminate; try reflexivity.
    injection Hr as ->. apply Z.eqb_neq. exact Hs.
  - intros Hne. destruct (is_network_error e || has_status e 500) eqn:E; [reflexivity|].
    exfalso. apply Hne, Hno. reflexivity.
  - intros Ht Hr. apply (withRetry_again apiCall retries delay w e w1 H Hr).
    rewrite not_retried_spec, Ht. reflexivity.
Qed.

Lemma withRetry_retries_only_transient_witness :
  withRetry Sample.get_bookings default_retries default_delay Sample.rejected_400 =
  (Throw Sample.error_400, snd (Sample.get_bookings Sample.rejected_400)).
Proof.
  assert (H : Sample.get_bookings Sample.rejected_400 =
              (Throw Sample.error_400, snd (Sample.get_bookings Sample.rejected_400)))
    by (vm_compute; reflexivity).
  apply (proj1 (proj2 (withRetry_retries_only_transient _ default_retries default_delay _ _ _ H))
           {| status := 400; data := Sample.invalid_date |}).
  - reflexivity.
  - simpl. lia.
Defined.

(** ** The schedule of attempts and waits *)

Lemma schedule_app evs1 evs2 : schedule (evs1 ++ evs2) = schedule evs1 ++ schedule evs2.
Proof. apply omap_app. Qed.

Lemma requests_schedule evs : length (requests_of evs) = attempts (schedule evs).
Proof.
  induction evs as [|e evs IH]; [reflexivity|].
  destruct e; simpl; try exact IH. cbn. f_equal. exact IH.
Qed.

Lemma timeouts_schedule evs : timeouts_of evs = waits (schedule evs).
Proof.
  induction evs as [|e evs IH]; [reflexivity|].
  destruct e; simpl; try exact IH. cbn. f_equal. exact IH.
Qed.

Lemma nth_delay_shift delay k :
  nth_delay (Qred (delay * 1.5)) k = nth_delay delay (S k).
Proof. unfold nth_delay. rewrite Nat.iter_succ_r. reflexivity. Qed.

Lemma retry_schedule_succ delay m :
  retry_schedule delay (S m) =
  Attempt :: Wait delay :: retry_schedule (Qred (delay * 1.5)) m.
Proof.
  unfold retry_schedule. rewrite <- cons_seq, <- fmap_S_seq. simpl.
  do 3 f_equal. induction (seq 0 m) as [|k l IH]; [reflexivity|].
  simpl. rewrite nth_delay_shift. do 2 f_equal. exact IH.
Qed.

Lemma attempts_retry_schedule delay m : attempts (retry_schedule delay m) = S m.
Proof.
  revert delay. induction m as [|m IH]; intros delay; [reflexivity|].
  rewrite retry_schedule_succ. specialize (IH (Qred (delay * 1.5))).
  unfold attempts in *. simpl in *. rewrite IH. reflexivity.
Qed.

Lemma waits_retry_schedule delay m :
  waits (retry_schedule delay m) = map (nth_delay delay) (seq 0 m).
Proof.
  revert delay. induction m as [|m IH]; intros delay; [reflexivity|].
  rewrite retry_schedule_succ.
  change (waits (Attempt :: Wait delay :: retry_schedule (Qred (delay * 1.5)) m))
    with (delay :: waits (retry_schedule (Qred (delay * 1.5)) m)).
  rewrite IH, <- cons_seq, <- fmap_S_seq. simpl. f_equal. clear IH.
  induction (seq 0 m) as [|k l IHl]; [reflexivity|].
  simpl. rewrite nth_delay_shift. f_equal. exact IHl.
Qed.

Lemma nth_delay_power delay k : (nth_delay delay k == delay * 1.5 ^ Z.of_nat k)%Q.
Proof.
  induction k as [|k IH].
  - simpl. ring.
  - change (nth_delay delay (S k)) with (Qred (nth_delay delay k * 1.5)).
    rewrite Qred_correct, IH, Nat2Z.inj_succ, <- Z.add_1_r.
    rewrite Qpower_plus by discriminate. ring.
Qed.

Lemma nth_delay_backoff k : nth_delay default_delay k = backoff default_delay k.
Proof.
  destruct k as [|k]; [reflexivity|].
  change (nth_delay default_delay (S k)) with (Qred (nth_delay default_delay k * 1.5)).
  unfold backoff. apply Qred_complete.
  rewrite nth_delay_power, Nat2Z.inj_succ, <- Z.add_1_r.
  rewrite Qpower_plus by discriminate. ring.
Qed.

Lemma backoff_power delay k : (backoff delay k == delay * 1.5 ^ Z.of_nat k)%Q.
Proof. unfold backoff. apply Qred_correct. Qed.

Lemma withRetry_schedule {A : Type} (apiCall : M A) :
  one_request_per_call apiCall ->
  forall (n : nat) (retries : Z) (delay : Q) (w : world),
    Z.to_nat retries = n ->
    exists evs m,
      added (withRetry apiCall retries delay) w evs /\
      (m <= n)%nat /\
      schedule evs = retry_schedule delay m.
Proof.
  intros Hone n. induction n as [|n IH]; intros retries delay w Hn.
  - destruct (Hone w) as (evs & Hadd & Hs).
    exists evs, 0%nat. unfold added. rewrite withRetry_exhausted by lia.
    repeat split; [exact Hadd | lia | exact Hs].
  - destruct (Hone w) as (evs1 & Hadd1 & Hs1). unfold added in Hadd1.
    destruct (apiCall w) as [[a|e] w1] eqn:Hcall.
    + exists evs1, 0%nat. unfold added.
      rewrite (withRetry_ok apiCall retries delay w a w1 Hcall).
      repeat split; [exact Hadd1 | lia | exact Hs1].
    + destruct (not_retried e) eqn:Hnr.
      * exists evs1, 0%nat. unfold added.
        rewrite (withRetry_refused apiCall retries delay w e w1 Hcall Hnr).
        repeat split; [exact Hadd1 | lia | exact Hs1].
      * assert (Hr : 0 < retries) by lia.
        destruct (IH (retries - 1) (Qred (delay * 1.5)) (snd (sleep delay w1)))
          as (evs2 & m & Hadd2 & Hm & Hs2); [lia|].
        exists (evs1 ++ [Timeout delay] ++ evs2), (S m). unfold added in *.
        rewrite (withRetry_again apiCall retries delay w e w1 Hcall Hr Hnr).
        repeat split.
        -- rewrite Hadd2. simpl in *. rewrite Hadd1.
           rewrite <- !app_assoc. reflexivity.
        -- lia.
        -- rewrite !schedule_app, Hs1, Hs2, retry_schedule_succ. reflexivity.
Qed.

(** ** What a computation leaves unchanged *)

Section Preserves.
Context (R : world -> world -> Prop) `{!PreOrder R}.

Lemma preserves_ret {A} (a : A) : preserves R (ret a).
Proof. intros w. reflexivity. Qed.

Lemma preserves_throw {A} (e : error) : preserves R (@throw A e).
Proof. intros w. reflexivity. Qed.

Lemma preserves_read {A} (f : world -> A) : preserves R (read f).
Proof. intros w. reflexivity. Qed.

Lemma preserves_get (v : json) (k : string) : preserves R (get v k).
Proof. destruct v; simpl; (apply preserves_ret || apply preserves_throw). Qed.

Lemma preserves_js_includes (v : json) (s : string) : preserves R (js_includes v s).
Proof. destruct v; simpl; (apply preserves_ret || apply preserves_throw). Qed.

Lemma preserves_bind {A B} (c : M A) (k : A -> M B) :
  preserves R c -> (forall a, preserves R (k a)) -> preserves R (bind c k).
Proof.
  intros Hc Hk w. specialize (Hc w). unfold bind.
  destruct (c w) as [[a|e] w1]; simpl in *; [|exact Hc].
  etransitivity; [exact Hc | apply Hk].
Qed.

Lemma preserves_try_catch {A} (c : M A) (h : error -> M A) :
  preserves R c -> (forall e, preserves R (h e)) -> preserves R (try_catch c h).
Proof.
  intros Hc Hh w. specialize (Hc w). unfold try_catch.
  destruct (c w) as [[a|e] w1]; simpl in *; [exact Hc|].
  etransitivity; [exact Hc | apply Hh].
Qed.

Lemma preserves_try_finally {A} (c : M A) (fin : M unit) :
  preserves R c -> preserves R fin -> preserves R (try_finally c fin).
Proof.
  intros Hc Hf w. specialize (Hc w). unfold try_finally.
  destruct (c w) as [r w1]; simpl in *. specialize (Hf w1).
  destruct (fin w1) as [[u|e] w2]; simpl in *; etransitivity; eauto.
Qed.

Lemma preserves_detached {A} (c : M A) : preserves R c -> preserves R (detached c).
Proof. intros Hc w. exact (Hc w). Qed.

Lemma preserves_withRetry {A} (apiCall : M A) (retries : Z) (delay : Q) :
  preserves R apiCall -> (forall d, preserves R (sleep d)) ->
  preserves R (withRetry apiCall retries delay).
Proof.
  intros Hc Hs. remember (Z.to_nat retries) as n eqn:Hn.
  revert retries delay Hn. induction n as [|n IH]; intros retries delay Hn w.
  - rewrite withRetry_exhausted by lia. apply Hc.
  - pose proof (Hc w) as Hw. destruct (apiCall w) as [[a|e] w1] eqn:Hcall.
    + rewrite (withRetry_ok apiCall retries delay w a w1 Hcall). exact Hw.
    + destruct (not_retried e) eqn:Hnr.
      * rewrite (withRetry_refused apiCall retries delay w e w1 Hcall Hnr). exact Hw.
      * rewrite (withRetry_again apiCall retries delay w e w1 Hcall ltac:(lia) Hnr).
        etransitivity; [exact Hw|]. etransitivity; [apply (Hs delay w1)|].
        apply IH. lia.
Qed.
End Preserves.

#[global] Instance extends_preorder (P : event -> Prop) : PreOrder (extends P).
Proof.
  split.
  - intros w. exists []. rewrite app_nil_r. auto.
  - intros a b c (evs1 & H1 & F1) (evs2 & H2 & F2).
    exists (evs1 ++ evs2). rewrite H2, H1, app_assoc. split; [reflexivity|].
    apply Forall_app; auto.
Qed.

#[global] Instance keeps_jar_preorder : PreOrder keeps_jar.
Proof.
  split.
  - intros w. unfold keeps_jar. reflexivity.
  - intros a b c Hab Hbc. unfold keeps_jar in *. etransitivity; eauto.
Qed.

Lemma emits_emit (P : event -> Prop) (e : event) : P e -> emits P (emit e).
Proof. intros He w. exists [e]. simpl. auto. Qed.

Lemma emits_dispatch (P : event -> Prop) (config : request) :
  P (Request config) -> emits P (axios.dispatch config).
Proof.
  intros H w. exists [Request config]. unfold axios.dispatch.
  destruct (remote w (requests_sent w) config) as [msg|r]; [simpl; auto|].
  destruct ((200 <=? status r) && (status r <? 300)); simpl; auto.
Qed.

Lemma emits_Cookies_set (P : event -> Prop) name v days :
  P (CookieSet name (js_String v) days) -> emits P (Cookies.set name v days).
Proof. intros H w. exists [CookieSet name (js_String v) days]. simpl. auto. Qed.

Lemma emits_Cookies_remove (P : event -> Prop) name :
  P (CookieRemove name) -> emits P (Cookies.remove name).
Proof. intros H w. exists [CookieRemove name]. simpl. auto. Qed.

Lemma emits_silent {A} (P : event -> Prop) (c : M A) :
  (forall w, events (snd (c w)) = events w) -> emits P c.
Proof. intros H w. exists []. rewrite H, app_nil_r. auto. Qed.

Lemma keeps_jar_emit (e : event) : preserves keeps_jar (emit e).
Proof. intros w. unfold keeps_jar. reflexivity. Qed.

Lemma keeps_jar_dispatch (config : request) : preserves keeps_jar (axios.dispatch config).
Proof.
  intros w. unfold keeps_jar, axios.dispatch.
  destruct (remote w (requests_sent w) config) as [msg|r]; [reflexivity|].
  destruct ((200 <=? status r) && (status r <? 300)); reflexivity.
Qed.

Lemma keeps_jar_Cookies_remove name : preserves keeps_jar (Cookies.remove name).
Proof. intros w. unfold keeps_jar. simpl. apply delete_subseteq. Qed.

Lemma keeps_jar_silent {A} (c : M A) :
  (forall w, cookies (snd (c w)) = cookies w) -> preserves keeps_jar c.
Proof. intros H w. unfold keeps_jar. rewrite H. reflexivity. Qed.

#[global] Instance keeps_session_preorder : PreOrder keeps_session.
Proof.
  split.
  - intros w. reflexivity.
  - intros a b c Hab Hbc. unfold keeps_session in *. congruence.
Qed.

Lemma keeps_session_dispatch (config : request) :
  preserves keeps_session (axios.dispatch config).
Proof.
  intros w. unfold keeps_session, axios.dispatch.
  destruct (remote w (requests_sent w) config) as [msg|r]; [reflexivity|].
  destruct ((200 <=? status r) && (status r <? 300)); reflexivity.
Qed.

Lemma keeps_session_silent {A} (c : M A) :
  (forall w, auth_user (snd (c w)) = auth_user w) -> preserves keeps_session c.
Proof. intros H w. apply H. Qed.

Ltac head_of c :=
  lazymatch c with
  | ?f _ => head_of f
  | _ => c
  end.

Ltac preserves_step :=
  lazymatch goal with
  | |- emits _ _ => unfold emits
  | |- preserves _ (ret _) => apply preserves_ret; tc_solve
  | |- preserves _ (throw _) => apply preserves_throw; tc_solve
  | |- preserves _ (read _) => apply preserves_read; tc_solve
  | |- preserves _ (get _ _) => apply preserves_get; tc_solve
  | |- preserves _ (js_includes _ _) => apply preserves_js_includes; tc_solve
  | |- preserves _ (bind _ _) => apply preserves_bind; [tc_solve | | intros ?]
  | |- preserves _ (try_catch _ _) => apply preserves_try_catch; [tc_solve | | intros ?]
  | |- preserves _ (try_finally _ _) => apply preserves_try_finally; [tc_solve | |]
  | |- preserves _ (detached _) => apply preserves_detached
  | |- preserves _ (withRetry _ _ _) => apply preserves_withRetry; [tc_solve | | intros ?]
  | |- preserves _ (if ?b then _ else _) => destruct b
  | |- preserves _ (match ?x with _ => _ end) => destruct x
  | |- preserves (extends _) (emit _) => apply emits_emit; exact I
  | |- preserves (extends _) (Cookies.set _ _ _) => apply emits_Cookies_set; exact I
  | |- preserves (extends _) (Cookies.remove _) => apply emits_Cookies_remove; exact I
  | |- preserves (extends _) (axios.dispatch _) => apply emits_dispatch; exact I
  | |- preserves (extends _) (fun w => (Ok _, _)) => apply emits_silent; intros ?; reflexivity
  | |- preserves keeps_jar (emit _) => apply keeps_jar_emit
  | |- preserves keeps_jar (Cookies.remove _) => apply keeps_jar_Cookies_remove
  | |- preserves keeps_jar (axios.dispatch _) => apply keeps_jar_dispatch
  | |- preserves keeps_jar (fun w => (Ok _, _)) => apply keeps_jar_silent; intros ?; reflexivity
  | |- preserves keeps_session (axios.dispatch _) => apply keeps_session_dispatch
  | |- preserves keeps_session (emit _) => apply keeps_session_silent; intros ?; reflexivity
  | |- preserves keeps_session (Cookies.set _ _ _) =>
      apply keeps_session_silent; intros ?; reflexivity
  | |- preserves keeps_session (Cookies.remove _) =>
      apply keeps_session_silent; intros ?; reflexivity
  | |- preserves keeps_session (fun w => (Ok _, _)) =>
      apply keeps_session_silent; intros ?; reflexivity
  | |- preserves _ ?c => let h := head_of c in progress unfold h
  end.

Ltac preserves_auto := repeat preserves_step.

Lemma response_interceptor_off_schedule (e : error) :
  emits off_schedule (api.response_interceptor e).
Proof.
  preserves_auto.
Qed.

Lemma response_interceptor_keeps_jar (e : error) :
  preserves keeps_jar (api.response_interceptor e).
Proof. preserves_auto. Qed.

Lemma off_schedule_nil evs : Forall off_schedule evs -> schedule evs = [].
Proof.
  induction 1 as [|e evs He _ IH]; [reflexivity|].
  destruct e; simpl in *; try exact IH; contradiction.
Qed.

Lemma request_interceptor_pure (config : request) (w : world) :
  api.request_interceptor config w = (Ok (api.decorate (stored_token w) config), w).
Proof. reflexivity. Qed.

Lemma api_request_schedule (m : http_method) (path : string) (payload : json) (w : world) :
  exists evs, added (api.request m path payload) w evs /\ schedule evs = [Attempt].
Proof.
  unfold api.request, added, bind.
  rewrite request_interceptor_pure.
  set (config := api.decorate _ _).
  unfold try_catch, axios.dispatch.
  set (w1 := with_events (fun evs => evs ++ [Request config]) w).
  assert (Hfail : forall e,
    exists evs, events (snd (api.response_interceptor e w1)) = events w ++ evs
                /\ schedule evs = [Attempt]).
  { intros e. destruct (response_interceptor_off_schedule e w1) as (evs & Hadd & Hoff).
    exists (Request config :: evs). rewrite Hadd. simpl.
    rewrite <- app_assoc. split; [reflexivity|].
    rewrite (off_schedule_nil evs Hoff). reflexivity. }
  destruct (remote w (requests_sent w) config) as [msg|r]; [apply Hfail|].
  destruct ((200 <=? status r) && (status r <? 300)); [|apply Hfail].
  exists [Request config]. simpl. auto.
Qed.

Lemma wrapped_callback_one_request (m : http_method) (path : string) (payload : json) :
  one_request_per_call (let* response := api.request m path payload in ret (data response)).
Proof.
  intros w. destruct (api_request_schedule m path payload w) as (evs & Hadd & Hs).
  exists evs. split; [|exact Hs]. unfold added, bind in *.
  destruct (api.request m path payload w) as [[r|e] w1]; exact Hadd.
Qed.

(** ** The retry budget *)

(** C2. With the default budget, [withRetry] invokes the wrapped call at
    least once and at most three times (one request on the wire per
    invocation); and when the first two attempts fail with retried errors,
    whatever the third attempt throws is thrown to the caller unchanged, the
    world being the one the third attempt left. *)
Theorem withRetry_budget {A : Type} (apiCall : M A) (w : world) :
  one_request_per_call apiCall ->
  (exists evs,
     added (withRetry apiCall default_retries default_delay) w evs /\
     (1 <= length (requests_of evs) <= 3)%nat)
  /\ (forall e1 w1 e2 w2 e3 w3,
        apiCall w = (Throw e1, w1) ->
        is_network_error e1 || has_status e1 500 = true ->
        apiCall (snd (sleep 1000 w1)) = (Throw e2, w2) ->
        is_network_error e2 || has_status e2 500 = true ->
        apiCall (snd (sleep 1500 w2)) = (Throw e3, w3) ->
        withRetry apiCall default_retries default_delay w = (Throw e3, w3)).
Proof.
  intros Hone. split.
  - destruct (withRetry_schedule apiCall Hone 2 default_retries default_delay w eq_refl)
      as (evs & m & Hadd & Hm & Hs).
    exists evs. split; [exact Hadd|].
    rewrite requests_schedule, Hs, attempts_retry_schedule. lia.
  - intros e1 w1 e2 w2 e3 w3 H1 T1 H2 T2 H3.
    assert (N1 : not_retried e1 = false) by (rewrite not_retried_spec, T1; reflexivity).
    assert (N2 : not_retried e2 = false) by (rewrite not_retried_spec, T2; reflexivity).
    unfold default_retries, default_delay.
    rewrite (withRetry_again apiCall 2 1000 w e1 w1 H1 ltac:(lia) N1).
    change (Qred (1000 * 1.5)) with 1500%Q. change (2 - 1) with 1.
    rewrite (withRetry_again apiCall 1 1500 _ e2 w2 H2 ltac:(lia) N2).
    rewrite withRetry_exhausted by lia. exact H3.
Qed.

Lemma withRetry_budget_witness :
  (exists evs,
     added (withRetry Sample.get_bookings default_retries default_delay) Sample.offline evs /\
     (1 <= length (requests_of evs) <= 3)%nat)
  /\ exists w3,
       withRetry Sample.get_bookings default_retries default_delay Sample.offline =
       (Throw Sample.network_error, w3).
Proof.
  pose proof (withRetry_budget Sample.get_bookings Sample.offline
                (wrapped_callback_one_request GET "/bookings" JUndefined)) as [Hcount Hlast].
  split; [exact Hcount|].
  set (w1 := snd (Sample.get_bookings Sample.offline)).
  set (w2 := snd (Sample.get_bookings (snd (sleep 1000 w1)))).
  set (w3 := snd (Sample.get_bookings (snd (sleep 1500 w2)))).
  exists w3.
  apply (Hlast Sample.network_error w1 Sample.network_error w2 Sample.network_error w3);
    vm_compute; reflexivity.
Defined.

(** ** Backoff *)

(** C3. The events [withRetry] adds, with the default initial delay, are an
    attempt first (no wait before it) and then, for each retry, a wait
    followed by an attempt; there are at most [retries] retries, and the wait
    before retry number [k + 1] is 1000 ms times 1.5 to the power [k], the
    factor 1.5 being greater than 1. *)
Theorem withRetry_backoff {A : Type} (apiCall : M A) (retries : Z) (w : world) :
  one_request_per_call apiCall ->
  exists evs m,
    added (withRetry apiCall retries default_delay) w evs /\
    (m <= Z.to_nat retries)%nat /\
    schedule evs =
      Attempt :: flat_map (fun k => [Wait (backoff default_delay k); Attempt]) (seq 0 m) /\
    (forall (k : nat) (d : Q), timeouts_of evs !! k = Some d ->
       (d == 1000 * 1.5 ^ Z.of_nat k)%Q) /\
    (1 < 1.5)%Q.
Proof.
  intros Hone.
  destruct (withRetry_schedule apiCall Hone _ retries default_delay w eq_refl)
    as (evs & m & Hadd & Hm & Hs).
  exists evs, m. repeat split; try assumption.
  - rewrite Hs. unfold retry_schedule. f_equal.
    induction (seq 0 m) as [|k l IH]; [reflexivity|].
    simpl. rewrite nth_delay_backoff, IH. reflexivity.
  - intros k d Hk. rewrite timeouts_schedule, Hs, waits_retry_schedule in Hk.
    apply list_lookup_fmap_Some in Hk as (j & -> & Hj).
    apply lookup_seq in Hj. destruct Hj as [Hj _]. simpl in Hj. subst j.
    apply nth_delay_power.
Qed.

Lemma withRetry_backoff_witness :
  exists evs,
    added (withRetry Sample.get_bookings default_retries default_delay) Sample.offline evs /\
    schedule evs = [Attempt; Wait 1000; Attempt; Wait 1500; Attempt].
Proof.
  destruct (withRetry_backoff Sample.get_bookings default_retries Sample.offline
              (wrapped_callback_one_request GET "/bookings" JUndefined))
    as (evs & m & Hadd & _ & Hs & _).
  exists evs. split; [exact Hadd|].
  unfold added in Hadd.
  assert (Hev : evs = events (snd (withRetry Sample.get_bookings default_retries default_delay
                                             Sample.offline)))
    by (rewrite Hadd; reflexivity).
  rewrite Hev. vm_compute. reflexivity.
Defined.

(** ** The gateway, case by case *)


Lemma api_request_resolved m path payload w r :
  answer w (wire_request m path payload w) = Response r ->
  200 <= status r < 300 ->
  api.request m path payload w = (Ok r, on_wire (wire_request m path payload w) w).
Proof.
  intros Ha Hs. unfold api.request, bind. rewrite request_interceptor_pure.
  unfold try_catch, axios.dispatch. fold (wire_request m path payload w).
  unfold answer in Ha. rewrite Ha.
  replace ((200 <=? status r) && (status r <? 300)) with true; [reflexivity|].
  symmetry. apply andb_true_iff. split; [apply Z.leb_le | apply Z.ltb_lt]; lia.
Qed.

Lemma api_request_rejected m path payload w r :
  answer w (wire_request m path payload w) = Response r ->
  ~ (200 <= status r < 300) ->
  api.request m path payload w =
  api.response_interceptor
    (AxiosError ("Request failed with status code " +:+ pretty (status r))
                (wire_request m path payload w) (Some r))
    (on_wire (wire_request m path payload w) w).
Proof.
  intros Ha Hs. unfold api.request, bind. rewrite request_interceptor_pure.
  unfold try_catch, axios.dispatch. fold (wire_request m path payload w).
  unfold answer in Ha. rewrite Ha.
  replace ((200 <=? status r) && (status r <? 300)) with false; [reflexivity|].
  symmetry. apply andb_false_iff.
  destruct (Z.leb_spec 200 (status r)); [right; apply Z.ltb_ge; lia | left; reflexivity].
Qed.

Lemma api_request_no_response m path payload w msg :
  answer w (wire_request m path payload w) = NoResponse msg ->
  api.request m path payload w =
  api.response_interceptor
    (AxiosError msg (wire_request m path payload w) None)
    (on_wire (wire_request m path payload w) w).
Proof.
  intros Ha. unfold api.request, bind. rewrite request_interceptor_pure.
  unfold try_catch, axios.dispatch. fold (wire_request m path payload w).
  unfold answer in Ha. rewrite Ha. reflexivity.
Qed.

Lemma wire_request_not_retry m path payload w : _retry (wire_request m path payload w) = false.
Proof. unfold wire_request, api.decorate. destruct (truthy _); reflexivity. Qed.

(** A 4xx other than 401 passes through the interceptor untouched. *)
Lemma response_interceptor_passes msg c r w :
  status r <> 401 -> status r <> 500 ->
  api.response_interceptor (AxiosError msg c (Some r)) w = (Throw (AxiosError msg c (Some r)), w).
Proof.
  intros H1 H5. unfold api.response_interceptor, bind.
  apply Z.eqb_neq in H1, H5. rewrite H1, H5. reflexivity.
Qed.

Lemma response_interceptor_401 msg c r w :
  status r = 401 -> _retry c = false ->
  api.response_interceptor (AxiosError msg c (Some r)) w =
  (Throw (AxiosError msg c (Some r)), signed_out w).
Proof.
  intros H1 Hc. unfold api.response_interceptor, signed_out, on_auth_page, bind.
  rewrite H1, Hc. simpl.
  destruct (pathname w) as [p|]; simpl; [|reflexivity].
  rewrite <- negb_orb. destruct (includes "/login" p || includes "/register" p); reflexivity.
Qed.

(** ** Unauthorized responses *)

(** C8. When the remote service answers a gateway request with HTTP 401, the
    request fails with that response, the stored token is gone, the cookie
    was removed exactly once, and the browser is sent to [/login] exactly
    when there is a location that is not a login or register page.  The
    retry wrapper around such a call makes this single attempt only: it
    throws the same error and leaves the same world. *)
Theorem unauthorized_clears_token (m : http_method) (path : string) (payload : json)
    (w : world) (r : response) :
  answer w (wire_request m path payload w) = Response r ->
  status r = 401 ->
  exists e w' evs,
    api.request m path payload w = (Throw e, w') /\
    error_response e = Some r /\
    cookies w' !! "auth_token" = None /\
    events w' = events w ++ evs /\
    requests_of evs = [wire_request m path payload w] /\
    cookie_removals_of evs = ["auth_token"] /\
    navigations_of evs =
      match pathname w with
      | Some p => if on_auth_page p then [] else ["/login"]
      | None => []
      end /\
    timeouts_of evs = [] /\
    wrapped_call m path payload w = (Throw e, w').
Proof.
  intros Ha Hs.
  pose proof (api_request_rejected m path payload w r Ha ltac:(lia)) as Hreq.
  rewrite (response_interceptor_401 _ _ r _ Hs (wire_request_not_retry m path payload w)) in Hreq.
  set (c := wire_request m path payload w) in *.
  set (e := AxiosError _ c (Some r)) in *.
  exists e, (signed_out (on_wire c w)),
    (Request c :: CookieRemove "auth_token" ::
       match pathname w with
       | Some p => if on_auth_page p then [] else [SetHref "/login"]
       | None => []
       end).
  split; [exact Hreq|]. split; [reflexivity|].
  assert (Hshape :
    cookies (signed_out (on_wire c w)) !! "auth_token" = None /\
    events (signed_out (on_wire c w)) =
      events w ++ Request c :: CookieRemove "auth_token" ::
        match pathname w with
        | Some p => if on_auth_page p then [] else [SetHref "/login"]
        | None => []
        end).
  { unfold signed_out. simpl.
    destruct (pathname w) as [p|]; [destruct (on_auth_page p)|]; simpl;
      rewrite lookup_delete_eq, <- ?app_assoc; split; reflexivity. }
  destruct Hshape as [Hjar Hev].
  repeat split; try assumption.
  - destruct (pathname w) as [p|]; [destruct (on_auth_page p)|]; reflexivity.
  - destruct (pathname w) as [p|]; [destruct (on_auth_page p)|]; reflexivity.
  - destruct (pathname w) as [p|]; [destruct (on_auth_page p)|]; reflexivity.
  - destruct (pathname w) as [p|]; [destruct (on_auth_page p)|]; reflexivity.
  - unfold wrapped_call. apply withRetry_refused.
    + unfold bind. rewrite Hreq. reflexivity.
    + unfold not_retried. simpl. rewrite Hs. reflexivity.
Qed.

Lemma unauthorized_clears_token_witness :
  exists e w' evs,
    wrapped_call GET "/bookings" JUndefined Sample.expired = (Throw e, w') /\
    events w' = evs /\
    cookie_removals_of evs = ["auth_token"] /\
    navigations_of evs = ["/login"].
Proof.
  destruct (unauthorized_clears_token GET "/bookings" JUndefined Sample.expired
              {| status := 401; data := JObj [("message", JStr "Token expired")] |}
              eq_refl eq_refl)
    as (e & w' & evs & _ & _ & _ & Hev & _ & Hrm & Hnav & _ & Hwrap).
  exists e, w', evs. repeat split; assumption.
Defined.

(** ** The route guard *)

(** C4. Whatever [loading] and [isAuthenticated] are, the guard shows the
    wrapped component only when [loading] is false and [isAuthenticated] is
    true: while loading it shows the placeholder, and when not loading and
    not authenticated it shows nothing and its effect replaces the route by
    [/login]. *)
Theorem withAuth_guard {P V : Type} (Component : P -> V) (props : P)
    (isAuthenticated loading : bool) (w : world) :
  (loading = true \/ isAuthenticated = false ->
     forall v, AuthContext.withAuth Component props isAuthenticated loading
               <> AuthContext.Content v)
  /\ (loading = true ->
        AuthContext.withAuth Component props isAuthenticated loading
        = AuthContext.LoadingPlaceholder)
  /\ (loading = false -> isAuthenticated = false ->
        AuthContext.withAuth Component props isAuthenticated loading = AuthContext.Null /\
        AuthContext.withAuth_effect isAuthenticated loading w =
          (Ok tt, with_events (fun evs => evs ++ [RouterReplace "/login"]) w)).
Proof.
  repeat split.
  - intros [-> | ->] v; destruct loading || destruct isAuthenticated; discriminate.
  - intros ->. reflexivity.
  - subst. reflexivity.
  - subst. reflexivity.
Qed.

Lemma withAuth_guard_witness :
  AuthContext.withAuth (fun n : nat => n) 7%nat false false = AuthContext.Null /\
  AuthContext.withAuth (fun n : nat => n) 7%nat true true = AuthContext.LoadingPlaceholder.
Proof.
  split.
  - apply (proj2 (proj2 (withAuth_guard (fun n : nat => n) 7%nat false false Sample.offline)));
      reflexivity.
  - apply (proj1 (proj2 (withAuth_guard (fun n : nat => n) 7%nat true true Sample.offline)));
      reflexivity.
Defined.

(** ** Startup *)

Lemma getCurrentUser_keeps_session : preserves keeps_session authService.getCurrentUser.
Proof. preserves_auto. Qed.

(** C5. From the state of a freshly mounted provider: when no token is
    stored, the mount effect only sets [loading] to false (the trace, hence
    the network, is untouched); when a token is stored and fetching the
    current user fails, [loadUser] completes without throwing, the session is
    still [null] and [loading] is false. *)
Theorem startup_without_session (w : world) :
  AuthContext.mounted w ->
  (truthy (stored_token w) = false ->
     AuthContext.mount_effect w = (Ok tt, with_auth_loading false w) /\
     events (with_auth_loading false w) = events w /\
     auth_user (with_auth_loading false w) = JNull)
  /\ (forall e w1,
        truthy (stored_token w) = true ->
        authService.getCurrentUser w = (Throw e, w1) ->
        AuthContext.loadUser w = (Ok tt, with_auth_loading false w1) /\
        AuthContext.mount_effect w = (Ok tt, with_auth_loading false w1) /\
        auth_user (with_auth_loading false w1) = JNull /\
        auth_loading (with_auth_loading false w1) = false).
Proof.
  intros [Huser Hload]. split.
  - intros Hno. unfold AuthContext.mount_effect, bind, Cookies.get, read.
    fold (stored_token w). rewrite Hno. simpl. auto.
  - intros e w1 Htok Hfail.
    assert (Hl : AuthContext.loadUser w = (Ok tt, with_auth_loading false w1)).
    { unfold AuthContext.loadUser, try_finally, try_catch, bind. rewrite Hfail. reflexivity. }
    repeat split.
    + exact Hl.
    + unfold AuthContext.mount_effect, bind, Cookies.get, read.
      fold (stored_token w). rewrite Htok. simpl. unfold detached. rewrite Hl. reflexivity.
    + simpl. pose proof (getCurrentUser_keeps_session w) as Hk.
      rewrite Hfail in Hk. unfold keeps_session in Hk. simpl in Hk. congruence.
Qed.

Lemma startup_without_session_witness :
  exists w', AuthContext.mount_effect Sample.expired = (Ok tt, w') /\
             auth_user w' = JNull /\ auth_loading w' = false.
Proof.
  destruct (startup_without_session Sample.expired (conj eq_refl eq_refl)) as [_ H].
  destruct (H _ _ eq_refl (surjective_pairing (authService.getCurrentUser Sample.expired)))
    as (_ & Hm & Hu & Hl).
  eexists. split; [exact Hm|]. split; [exact Hu | exact Hl].
Defined.

(** ** Login *)

Lemma truthy_JStr (t : string) : t <> "" -> truthy (JStr t) = true.
Proof.
  intros H. simpl. destruct (String.eqb_spec t ""); [contradiction | reflexivity].
Qed.

(** C6, counterexample.  The service accepts the credentials and answers
    with the token and the user record side by side: the token is stored,
    and yet [login] throws and the session holds no user. *)
Lemma login_success_counterexample :
  answer Scenario.flat_login
         (wire_request POST "/auth/login" (credentials "a@b.com" "secret") Scenario.flat_login)
    = Sample.reply 200 (JObj [("token", JStr "tok-1"); ("user", Sample.ann)]) /\
  fst (AuthContext.login "a@b.com" "secret" Scenario.flat_login) =
    Throw (TypeError "Cannot read properties of undefined (reading 'user')") /\
  auth_user (snd (AuthContext.login "a@b.com" "secret" Scenario.flat_login)) = JNull /\
  stored_token (snd (AuthContext.login "a@b.com" "secret" Scenario.flat_login)) = JStr "tok-1".
Proof. repeat split; vm_compute; reflexivity. Qed.

(** C6, amended.  When the remote service answers the login request with a
    2xx response whose body carries a non-empty string [token] and, under
    [data], the user record, [login] returns normally; the session is the
    [user] of that [data]; the cookie [auth_token] holds the token with a
    30 day expiry; [loading] is false again. *)
Theorem login_success (w : world) (email password : string) (r : response)
    (t : string) (d : json) :
  answer w (wire_request POST "/auth/login" (credentials email password) w) = Response r ->
  200 <= status r < 300 ->
  prop (data r) "token" = JStr t -> t <> "" ->
  prop (data r) "data" = d -> d <> JUndefined -> d <> JNull ->
  exists w',
    AuthContext.login email password w = (Ok tt, w') /\
    auth_user w' = prop d "user" /\
    cookies w' !! "auth_token" = Some {| value := t; expires := Some 30 |} /\
    stored_token w' = JStr t /\
    auth_loading w' = false /\
    events w' = events w ++
      [Request (wire_request POST "/auth/login" (credentials email password) w);
       CookieSet "auth_token" t 30;
       Toast toast_success (JStr "Login successful!");
       RouterPush "/dashboard"].
Proof.
  intros Ha Hs Htok Ht Hd Hu Hn.
  set (w0 := with_auth_loading true w).
  assert (Hreq : api.post "/auth/login" (credentials email password) w0 =
                 (Ok r, on_wire (wire_request POST "/auth/login" (credentials email password) w) w0)).
  { apply (api_request_resolved POST "/auth/login" (credentials email password) w0 r); assumption. }
  assert (Hobj : exists fs, data r = JObj fs).
  { destruct (data r); try discriminate Htok. eexists; reflexivity. }
  destruct Hobj as [fs Hfs].
  assert (Hlogin : authService.login (credentials email password) w0 =
                   (Ok (data r),
                    snd (Cookies.set "auth_token" (JStr t) 30
                           (on_wire (wire_request POST "/auth/login" (credentials email password) w) w0)))).
  { unfold authService.login, try_catch, bind. rewrite Hreq.
    rewrite Hfs in *. simpl in Htok |- *. rewrite Htok.
    rewrite (truthy_JStr t Ht). reflexivity. }
  eexists. split.
  - unfold AuthContext.login, bind. simpl. fold w0.
    unfold try_finally, try_catch, bind. fold (credentials email password).
    rewrite Hlogin.
    rewrite Hfs in *. simpl in Hd |- *. rewrite Hd.
    destruct d; try contradiction; reflexivity.
  - destruct d; try contradiction; simpl;
      rewrite ?lookup_insert_eq, <- ?app_assoc; repeat split; try reflexivity.
    all: unfold stored_token; simpl; rewrite lookup_insert_eq; reflexivity.
Qed.

Lemma login_success_witness :
  exists w',
    AuthContext.login "a@b.com" "secret" Sample.welcoming = (Ok tt, w') /\
    auth_user w' = Sample.ann /\
    stored_token w' = JStr "tok-1".
Proof.
  destruct (login_success Sample.welcoming "a@b.com" "secret"
              {| status := 200; data := Sample.login_body |} "tok-1"
              (JObj [("user", Sample.ann)]))
    as (w' & Hl & Hu & _ & Ht & _); try reflexivity; try discriminate.
  - simpl. lia.
  - exists w'. split; [exact Hl|]. split; [exact Hu | exact Ht].
Defined.

(** ** Failed login *)

Lemma api_request_keeps_jar m path payload : preserves keeps_jar (api.request m path payload).
Proof. preserves_auto. Qed.

Lemma api_request_no_cookie_write m path payload :
  emits no_cookie_write (api.request m path payload).
Proof. preserves_auto. Qed.

Lemma authService_login_keeps_session c : preserves keeps_session (authService.login c).
Proof. preserves_auto. Qed.

Lemma no_cookie_write_nil evs : Forall no_cookie_write evs -> cookie_writes_of evs = [].
Proof.
  induction 1 as [|e evs He _ IH]; [reflexivity|].
  destruct e; simpl in *; try exact IH; contradiction.
Qed.

(** A credential exchange that throws has written no cookie. *)
Lemma authService_login_throws c w e w1 :
  authService.login c w = (Throw e, w1) ->
  keeps_jar w w1 /\ extends no_cookie_write w w1.
Proof.
  unfold authService.login, try_catch, bind, api.post.
  pose proof (api_request_keeps_jar POST "/auth/login" c w) as Hjar.
  pose proof (api_request_no_cookie_write POST "/auth/login" c w) as Hev.
  destruct (api.request POST "/auth/login" c w) as [[resp|e'] w'] eqn:Hreq; simpl in *.
  - destruct (data resp) eqn:Hd; simpl;
      try (destruct (truthy _); simpl; discriminate).
    all: unfold throw; intros H; try discriminate H.
    all: assert (w' = w1) by congruence; subst; auto.
  - destruct (isAxiosError e' && response_status_is e' 401); unfold throw;
      intros H; assert (w' = w1) by congruence; subst; auto.
Qed.

(** C7. When the credential exchange throws, [login] throws the same error;
    the session is what it was; no cookie was written (no write in the
    trace, and every cookie of the jar was there before with the same
    value); [loading] is false again. *)
Theorem login_failure (w : world) (email password : string) (e : error) (w1 : world) :
  authService.login (credentials email password) (with_auth_loading true w) = (Throw e, w1) ->
  exists w',
    AuthContext.login email password w = (Throw e, w') /\
    auth_user w' = auth_user w /\
    (exists evs, events w' = events w ++ evs /\ cookie_writes_of evs = []) /\
    cookies w' ⊆ cookies w /\
    auth_loading w' = false.
Proof.
  intros Hfail.
  destruct (authService_login_throws _ _ _ _ Hfail) as [Hjar (evs & Hev & Hnw)].
  pose proof (authService_login_keeps_session (credentials email password)
                (with_auth_loading true w)) as Hsess.
  rewrite Hfail in Hsess. unfold keeps_session, keeps_jar in *. simpl in *.
  unfold AuthContext.login, bind. simpl.
  unfold try_finally, try_catch, bind. fold (credentials email password).
  rewrite Hfail.
  destruct (response_status_is e 503); [|destruct (negb _)]; simpl;
    (eexists; split; [reflexivity|]; simpl;
     split; [exact Hsess|]; split; [|split; [exact Hjar | reflexivity]];
     eexists; rewrite Hev, <- app_assoc; split; [reflexivity|];
     apply no_cookie_write_nil, Forall_app; split; [exact Hnw | repeat constructor]).
Qed.

Lemma login_failure_witness :
  exists e w',
    AuthContext.login "a@b.com" "wrong" Sample.refusing = (Throw e, w') /\
    has_status e 401 = true /\
    auth_user w' = JNull /\
    cookies w' !! "auth_token" = None.
Proof.
  destruct (login_failure Sample.refusing "a@b.com" "wrong" _ _
              (surjective_pairing
                 (authService.login (credentials "a@b.com" "wrong")
                    (with_auth_loading true Sample.refusing))))
    as (w' & Hl & Hu & _ & Hjar & _).
  eexists _, w'. split; [exact Hl|]. split; [reflexivity|]. split; [exact Hu|].
  apply (lookup_weaken_None _ _ _ eq_refl Hjar).
Defined.

(** ** Messages of rejected bookings *)




(** ** Deleting users *)

(** C10.  The guard against deleting the own account misses an identifier
    with surrounding blanks: the selected row and the logged-in
    administrator have the same identifier, the handler trims the row's side
    only, and the DELETE request for the own account goes out with the
    success toast, while the row stays on the users list. *)
Lemma own_account_guard_misses_padded_id :
  row_id (userToDelete Sample.deleting_self) = opt_get (auth_user Sample.deleting_self) "id" /\
  fst (ProfilePage.handleDeleteUser Sample.deleting_self) = Ok tt /\
  events (snd (ProfilePage.handleDeleteUser Sample.deleting_self)) =
    [Request {| method := DELETE;
                url := "http://localhost:3000/api/admin/users/delete/42";
                headers := [("Authorization", "Bearer t0");
                            ("Content-Type", "application/json")];
                body := JUndefined; _retry := false |};
     Toast toast_success (JStr "User access revoked successfully")] /\
  users (snd (ProfilePage.handleDeleteUser Sample.deleting_self)) = [Sample.padded_row].
Proof. repeat split; vm_compute; reflexivity. Qed.

(** What the guard does catch.  With a user selected, when the identifier of
    that user is missing or empty, or when it equals the identifier of the
    logged-in administrator after conversion to a string and trimming of
    surrounding whitespace (what [handleDeleteUser] compares), the handler
    sends nothing: it adds one error toast to the trace, leaves the users
    list as it is and closes the dialog. *)
Theorem own_account_guard (w : world) :
  truthy (userToDelete w) = true ->
  (truthy (row_id (userToDelete w)) = false \/
   exists i, ProfilePage.cleaned_id (userToDelete w) = JStr i /\
             opt_get (auth_user w) "id" = JStr i) ->
  exists w' msg,
    ProfilePage.handleDeleteUser w = (Ok tt, w') /\
    events w' = events w ++ [Toast toast_error (JStr msg)] /\
    (msg = "Invalid user ID" \/ msg = "You cannot delete your own admin account") /\
    requests_of (events w') = requests_of (events w) /\
    users w' = users w /\
    showDeleteModal w' = false /\ userToDelete w' = JNull.
Proof.
  intros Hsel Hcase.
  unfold ProfilePage.handleDeleteUser, bind, read. rewrite Hsel. simpl.
  destruct (truthy (ProfilePage.cleaned_id (userToDelete w))) eqn:Hid; simpl.
  - destruct Hcase as [Hmissing | (i & Hi & Hadmin)].
    + unfold ProfilePage.cleaned_id in Hid. fold (row_id (userToDelete w)) in Hid.
      rewrite Hmissing in Hid. congruence.
    + rewrite Hi, Hadmin. simpl. rewrite String.eqb_refl.
      eexists _, _. split; [reflexivity|]. simpl.
      repeat split; try reflexivity; [right; reflexivity|].
      unfold requests_of. rewrite omap_app, app_nil_r. reflexivity.
  - eexists _, _. split; [reflexivity|]. simpl.
    repeat split; try reflexivity; [left; reflexivity|].
    unfold requests_of. rewrite omap_app, app_nil_r. reflexivity.
Qed.

Lemma own_account_guard_witness :
  exists w',
    ProfilePage.handleDeleteUser Sample.selecting_self = (Ok tt, w') /\
    events w' = [Toast toast_error (JStr "You cannot delete your own admin account")] /\
    users w' = [Sample.own_row].
Proof.
  destruct (own_account_guard Sample.selecting_self eq_refl
              (or_intror (ex_intro _ "u1" (conj eq_refl eq_refl))))
    as (w' & msg & Hh & Hev & _ & _ & Hu & _).
  exists w'. split; [exact Hh|]. split; [|exact Hu].
  assert (Hw : w' = snd (ProfilePage.handleDeleteUser Sample.selecting_self))
    by (rewrite Hh; reflexivity).
  rewrite Hw. vm_compute. reflexivity.
Defined.

(** * Further properties *)

(** ** More on [withRetry] *)

(** X1. Two retried failures followed by a success: [withRetry] returns that
    success, in the world the third attempt left. *)
Theorem withRetry_recovers {A : Type} (apiCall : M A) (w w1 w2 w3 : world)
    (e1 e2 : error) (a : A) :
  apiCall w = (Throw e1, w1) ->
  is_network_error e1 || has_status e1 500 = true ->
  apiCall (snd (sleep 1000 w1)) = (Throw e2, w2) ->
  is_network_error e2 || has_status e2 500 = true ->
  apiCall (snd (sleep 1500 w2)) = (Ok a, w3) ->
  withRetry apiCall default_retries default_delay w = (Ok a, w3).
Proof.
  intros H1 T1 H2 T2 H3.
  assert (N1 : not_retried e1 = false) by (rewrite not_retried_spec, T1; reflexivity).
  assert (N2 : not_retried e2 = false) by (rewrite not_retried_spec, T2; reflexivity).
  unfold default_retries, default_delay.
  rewrite (withRetry_again apiCall 2 1000 w e1 w1 H1 ltac:(lia) N1).
  change (Qred (1000 * 1.5)) with 1500%Q. change (2 - 1) with 1.
  rewrite (withRetry_again apiCall 1 1500 _ e2 w2 H2 ltac:(lia) N2).
  apply withRetry_ok. exact H3.
Qed.

Lemma withRetry_recovers_witness :
  exists w3,
    bookingsService.getAllBookings (Sample.browser Sample.flaky (Sample.token_jar "t0") "/dashboard")
      = (Ok (JArr []), w3) /\
    schedule (events w3) = [Attempt; Wait 1000; Attempt; Wait 1500; Attempt].
Proof.
  set (w := Sample.browser Sample.flaky (Sample.token_jar "t0") "/dashboard").
  set (w1 := snd (Sample.get_bookings w)).
  set (w2 := snd (Sample.get_bookings (snd (sleep 1000 w1)))).
  set (w3 := snd (Sample.get_bookings (snd (sleep 1500 w2)))).
  exists w3. split.
  - apply (withRetry_recovers Sample.get_bookings w w1 w2 w3
             Sample.network_error Sample.network_error (JArr [])); vm_compute; reflexivity.
  - vm_compute. reflexivity.
Defined.

(** X2. Whatever [withRetry] returns or throws is what one invocation of the
    wrapped call returned or threw, together with the world that invocation
    left: the helper adds nothing after its last attempt and alters no
    result. *)
Theorem withRetry_last_attempt {A : Type} (apiCall : M A) (retries : Z) (delay : Q) (w : world) :
  exists wl, withRetry apiCall retries delay w = apiCall wl.
Proof.
  remember (Z.to_nat retries) as n eqn:Hn.
  revert retries delay w Hn. induction n as [|n IH]; intros retries delay w Hn.
  - exists w. apply withRetry_exhausted. lia.
  - destruct (apiCall w) as [[a|e] w1] eqn:Hcall.
    + exists w. rewrite Hcall. apply withRetry_ok. exact Hcall.
    + destruct (not_retried e) eqn:Hnr.
      * exists w. rewrite Hcall. apply withRetry_refused; assumption.
      * rewrite (withRetry_again apiCall retries delay w e w1 Hcall ltac:(lia) Hnr).
        apply IH. lia.
Qed.

(** ** Parts of the world a computation does not touch *)

#[global] Instance unchanged_preorder {X : Type} (f : world -> X) : PreOrder (unchanged f).
Proof.
  split.
  - intros w. reflexivity.
  - intros a b c Hab Hbc. unfold unchanged in *. congruence.
Qed.

Lemma unchanged_silent {A X : Type} (f : world -> X) (c : M A) :
  (forall w, f (snd (c w)) = f w) -> preserves (unchanged f) c.
Proof. intros H w. apply H. Qed.

Lemma unchanged_dispatch {X : Type} (f : world -> X) (config : request) :
  (forall g w, f (with_events g w) = f w) ->
  preserves (unchanged f) (axios.dispatch config).
Proof.
  intros Hf w. unfold unchanged, axios.dispatch.
  destruct (remote w (requests_sent w) config) as [msg|r]; [apply Hf|].
  destruct ((200 <=? status r) && (status r <? 300)); apply Hf.
Qed.

Ltac frame_step :=
  lazymatch goal with
  | |- preserves _ (ret _) => apply preserves_ret; tc_solve
  | |- preserves _ (throw _) => apply preserves_throw; tc_solve
  | |- preserves _ (read _) => apply preserves_read; tc_solve
  | |- preserves _ (get _ _) => apply preserves_get; tc_solve
  | |- preserves _ (js_includes _ _) => apply preserves_js_includes; tc_solve
  | |- preserves _ (bind _ _) => apply preserves_bind; [tc_solve | | intros ?]
  | |- preserves _ (try_catch _ _) => apply preserves_try_catch; [tc_solve | | intros ?]
  | |- preserves _ (try_finally _ _) => apply preserves_try_finally; [tc_solve | |]
  | |- preserves _ (detached _) => apply preserves_detached
  | |- preserves _ (withRetry _ _ _) => apply preserves_withRetry; [tc_solve | | intros ?]
  | |- preserves _ (if ?b then _ else _) => destruct b
  | |- preserves _ (match ?x with _ => _ end) => destruct x
  | |- preserves (unchanged _) (axios.dispatch _) =>
      apply unchanged_dispatch; intros ? ?; reflexivity
  | |- preserves (unchanged _) (emit _) => apply unchanged_silent; intros ?; reflexivity
  | |- preserves (unchanged _) (Cookies.set _ _ _) =>
      apply unchanged_silent; intros ?; reflexivity
  | |- preserves (unchanged _) (Cookies.remove _) =>
      apply unchanged_silent; intros ?; reflexivity
  | |- preserves (unchanged _) (fun w => (Ok _, _)) =>
      apply unchanged_silent; intros ?; reflexivity
  | |- preserves _ ?c => let h := head_of c in progress unfold h
  end.

Ltac frame_auto := repeat frame_step.

(** ** The response interceptor on server and network failures *)

(** The gateway on a 500 whose message is the string [t]. *)
Lemma api_request_500 (m : http_method) (path : string) (payload : json)
    (w : world) (r : response) (t : string) :
  answer w (wire_request m path payload w) = Response r ->
  status r = 500 ->
  js_or (opt_get (data r) "message") (JStr "Server error") = JStr t ->
  api.request m path payload w =
    (Throw (rejection (wire_request m path payload w) r),
     snd (toast.error (JStr (server_error_toast t))
            (on_wire (wire_request m path payload w) w))).
Proof.
  intros Ha Hs Hm.
  rewrite (api_request_rejected m path payload w r Ha ltac:(lia)).
  unfold api.response_interceptor, rejection, bind.
  replace (status r =? 401) with false by (symmetry; apply Z.eqb_neq; lia).
  replace (status r =? 500) with true by (symmetry; apply Z.eqb_eq; lia).
  simpl. rewrite Hm. simpl. unfold server_error_toast.
  destruct (includes "MongoDB" t); simpl; [reflexivity|].
  destruct (includes "database" t); reflexivity.
Qed.

(** X3. A 500 answer whose message is a string (or is missing, which counts
    as "Server error"): the gateway shows exactly one toast, the database
    text when the message contains "MongoDB" or "database" (case sensitive)
    and the general text otherwise; the error is thrown on with its
    response, and the cookie jar is untouched. *)
Theorem server_error_is_announced (m : http_method) (path : string) (payload : json)
    (w : world) (r : response) (t : string) :
  answer w (wire_request m path payload w) = Response r ->
  status r = 500 ->
  js_or (opt_get (data r) "message") (JStr "Server error") = JStr t ->
  exists w',
    api.request m path payload w = (Throw (rejection (wire_request m path payload w) r), w') /\
    events w' = events w ++
      [Request (wire_request m path payload w);
       Toast toast_error (JStr (server_error_toast t))] /\
    cookies w' = cookies w.
Proof.
  intros Ha Hs Hm.
  rewrite (api_request_500 m path payload w r t Ha Hs Hm).
  eexists. split; [reflexivity|]. simpl. rewrite <- app_assoc. auto.
Qed.

Lemma server_error_is_announced_witness :
  exists w',
    fst (api.get "/bookings"
           (Scenario.failing (JObj [("message", JStr "Database connection lost")])))
      = Throw (rejection (wire_request GET "/bookings" JUndefined
                            (Scenario.failing (JObj [("message", JStr "Database connection lost")])))
                         {| status := 500; data := JObj [("message", JStr "Database connection lost")] |}) /\
    snd (api.get "/bookings"
           (Scenario.failing (JObj [("message", JStr "Database connection lost")]))) = w' /\
    toasts_of (events w') = [(toast_error, JStr "An error occurred. Please try again.")].
Proof.
  destruct (server_error_is_announced GET "/bookings" JUndefined
              (Scenario.failing (JObj [("message", JStr "Database connection lost")]))
              {| status := 500; data := JObj [("message", JStr "Database connection lost")] |}
              "Database connection lost" eq_refl eq_refl eq_refl)
    as (w' & Hreq & Hev & _).
  exists w'. unfold api.get. rewrite Hreq. repeat split. rewrite Hev. reflexivity.
Defined.

(** X4. A 500 answer whose [message] is truthy but neither a string nor an
    array (an object, a number): the interceptor itself fails with a
    [TypeError], so no toast is shown, the caller gets an error without a
    response, and [withRetry] does not retry although the status is 500. *)
Theorem server_error_with_structured_message (m : http_method) (path : string)
    (payload : json) (w : world) (r : response) :
  answer w (wire_request m path payload w) = Response r ->
  status r = 500 ->
  lacks_includes (opt_get (data r) "message") ->
  api.request m path payload w =
    (Throw (TypeError "errorMessage.includes is not a function"),
     on_wire (wire_request m path payload w) w) /\
  wrapped_call m path payload w =
    (Throw (TypeError "errorMessage.includes is not a function"),
     on_wire (wire_request m path payload w) w).
Proof.
  intros Ha Hs [Ht Hv].
  assert (Hreq : api.request m path payload w =
                 (Throw (TypeError "errorMessage.includes is not a function"),
                  on_wire (wire_request m path payload w) w)).
  { rewrite (api_request_rejected m path payload w r Ha ltac:(lia)).
    unfold api.response_interceptor, bind. rewrite Hs. simpl.
    unfold js_or. rewrite Ht.
    destruct (opt_get (data r) "message"); try contradiction; reflexivity. }
  split; [exact Hreq|].
  unfold wrapped_call. apply withRetry_refused; [|reflexivity].
  unfold bind. rewrite Hreq. reflexivity.
Qed.

Lemma server_error_with_structured_message_witness :
  length (requests_of (events (snd (bookingsService.getAllBookings
    (Scenario.failing (JObj [("message", JObj [("code", JNum 11000)])])))))) = 1%nat.
Proof.
  unfold bookingsService.getAllBookings.
  rewrite (proj2 (server_error_with_structured_message GET "/bookings" JUndefined
             (Scenario.failing (JObj [("message", JObj [("code", JNum 11000)])]))
             {| status := 500; data := JObj [("message", JObj [("code", JNum 11000)])] |}
             eq_refl eq_refl (conj eq_refl I))).
  reflexivity.
Defined.

(** ** The cookie jar and the gateway *)

Lemma interceptor_keeps_cookies (e : error) :
  has_status e 401 = false ->
  preserves (unchanged cookies) (api.response_interceptor e) /\
  emits no_sign_out (api.response_interceptor e).
Proof.
  intros H. unfold api.response_interceptor.
  destruct e as [msg c [r|] | msg | msg]; simpl in H; try rewrite H; simpl.
  all: split; [frame_auto | preserves_auto].
Qed.

Lemma no_sign_out_nil evs :
  Forall no_sign_out evs ->
  navigations_of evs = [] /\ cookie_removals_of evs = [] /\ cookie_writes_of evs = [].
Proof.
  induction 1 as [|e evs He _ IH]; [auto|].
  destruct e; simpl in *; try exact IH; contradiction.
Qed.

(** X5. The gateway changes the cookie jar and the location only on a 401:
    for a request that gets no answer, or an answer with any other status,
    the jar afterwards is the jar before, no cookie operation is made and no
    navigation is started. *)
Theorem gateway_keeps_token_unless_401 (m : http_method) (path : string) (payload : json)
    (w : world) :
  (forall r, answer w (wire_request m path payload w) = Response r -> status r <> 401) ->
  cookies (snd (api.request m path payload w)) = cookies w /\
  exists evs,
    events (snd (api.request m path payload w)) = events w ++ evs /\
    navigations_of evs = [] /\ cookie_removals_of evs = [] /\ cookie_writes_of evs = [].
Proof.
  intros Hno.
  set (c := wire_request m path payload w) in *.
  assert (Hfail : forall e, has_status e 401 = false ->
    cookies (snd (api.response_interceptor e (on_wire c w))) = cookies w /\
    exists evs,
      events (snd (api.response_interceptor e (on_wire c w))) = events w ++ evs /\
      navigations_of evs = [] /\ cookie_removals_of evs = [] /\ cookie_writes_of evs = []).
  { intros e He. destruct (interceptor_keeps_cookies e He) as [Hjar Hev].
    split; [exact (Hjar (on_wire c w))|].
    destruct (Hev (on_wire c w)) as (evs & Hadd & Hq).
    exists (Request c :: evs). rewrite Hadd. simpl. rewrite <- app_assoc.
    split; [reflexivity|]. exact (no_sign_out_nil evs Hq). }
  destruct (answer w c) as [msg|r] eqn:Ha.
  - rewrite (api_request_no_response m path payload w msg Ha). apply Hfail. reflexivity.
  - destruct (Z_le_dec 200 (status r)) as [Hlo|Hlo];
      [destruct (Z_lt_dec (status r) 300) as [Hhi|Hhi]|].
    + rewrite (api_request_resolved m path payload w r Ha (conj Hlo Hhi)).
      split; [reflexivity|]. exists [Request c]. simpl. auto.
    + rewrite (api_request_rejected m path payload w r Ha ltac:(lia)).
      apply Hfail. simpl. apply Z.eqb_neq, Hno. reflexivity.
    + rewrite (api_request_rejected m path payload w r Ha ltac:(lia)).
      apply Hfail. simpl. apply Z.eqb_neq, Hno. reflexivity.
Qed.

Lemma gateway_keeps_token_unless_401_witness :
  cookies (snd (api.get "/bookings" Sample.offline)) = Sample.token_jar "t0".
Proof.
  apply (proj1 (gateway_keeps_token_unless_401 GET "/bookings" JUndefined Sample.offline
                  ltac:(intros r H; discriminate H))).
Defined.

(** ** Signing out *)

(** X6. [logout] cannot fail and does not depend on the state it starts
    from: afterwards the session is [null], the jar holds no token, the
    browser is sent to [/login]; a gateway request made after it carries no
    [Authorization] header, and a provider mounted after it makes no
    request. *)
Theorem logout_signs_out (w : world) :
  exists w',
    AuthContext.logout w = (Ok tt, w') /\
    auth_user w' = JNull /\
    cookies w' !! "auth_token" = None /\
    events w' = events w ++
      [CookieRemove "auth_token"; SetHref "/login";
       Toast toast_info (JStr "You have been logged out")] /\
    (forall m path payload, headers (wire_request m path payload w') = plain_headers) /\
    events (snd (AuthContext.mount_effect w')) = events w'.
Proof.
  eexists. split; [reflexivity|]. simpl.
  assert (Hjar : delete "auth_token" (cookies w) !! "auth_token" = None)
    by apply lookup_delete_eq.
  repeat split.
  - exact Hjar.
  - rewrite <- !app_assoc. reflexivity.
  - intros m path payload. unfold wire_request, stored_token. simpl. rewrite Hjar. reflexivity.
  - unfold AuthContext.mount_effect, bind, Cookies.get, read. simpl. rewrite Hjar. reflexivity.
Qed.

(** ** The credential exchange *)

Lemma truthy_JStr_true (t : string) : t <> "" -> truthy (JStr t) = true.
Proof.
  intros H. simpl. destruct (String.eqb_spec t ""); [contradiction | reflexivity].
Qed.

(** The world after a credential exchange has stored the token [t]. *)
Lemma authService_login_resolved (c : json) (w : world) (r : response) (t : string) :
  answer w (wire_request POST "/auth/login" c w) = Response r ->
  200 <= status r < 300 ->
  prop (data r) "token" = JStr t -> t <> "" ->
  authService.login c w =
    (Ok (data r),
     snd (Cookies.set "auth_token" (JStr t) 30 (on_wire (wire_request POST "/auth/login" c w) w))).
Proof.
  intros Ha Hs Htok Ht.
  unfold authService.login, try_catch, bind, api.post.
  rewrite (api_request_resolved POST "/auth/login" c w r Ha Hs).
  destruct (data r) eqn:Hd; try discriminate Htok.
  simpl in *. rewrite Htok, (truthy_JStr_true t Ht). reflexivity.
Qed.

Lemma authService_register_resolved (c : json) (w : world) (r : response) (t : string) :
  answer w (wire_request POST "/auth/register" c w) = Response r ->
  200 <= status r < 300 ->
  prop (data r) "token" = JStr t -> t <> "" ->
  authService.register c w =
    (Ok (data r),
     snd (Cookies.set "auth_token" (JStr t) 30 (on_wire (wire_request POST "/auth/register" c w) w))).
Proof.
  intros Ha Hs Htok Ht.
  unfold authService.register, try_catch, bind, api.post.
  rewrite (api_request_resolved POST "/auth/register" c w r Ha Hs).
  destruct (data r) eqn:Hd; try discriminate Htok.
  simpl in *. rewrite Htok, (truthy_JStr_true t Ht). reflexivity.
Qed.

(** X7. After a login that succeeded with the token [t], every request of
    the gateway carries the header [Authorization: Bearer t]. *)
Theorem requests_after_login_carry_token (w : world) (email password : string)
    (r : response) (t : string) (d : json) :
  answer w (wire_request POST "/auth/login" (credentials email password) w) = Response r ->
  200 <= status r < 300 ->
  prop (data r) "token" = JStr t -> t <> "" ->
  prop (data r) "data" = d -> d <> JUndefined -> d <> JNull ->
  exists w',
    AuthContext.login email password w = (Ok tt, w') /\
    forall m path payload,
      headers (wire_request m path payload w') =
      plain_headers ++ [("Authorization", "Bearer " +:+ t)].
Proof.
  intros Ha Hs Htok Ht Hd Hu Hn.
  pose proof (authService_login_resolved (credentials email password)
                (with_auth_loading true w) r t Ha Hs Htok Ht) as Hlogin.
  assert (Hobj : exists fs, data r = JObj fs).
  { destruct (data r); try discriminate Htok. eexists; reflexivity. }
  destruct Hobj as [fs Hfs].
  eexists. split.
  - unfold AuthContext.login, bind. simpl.
    unfold try_finally, try_catch, bind. fold (credentials email password).
    rewrite Hlogin. rewrite Hfs in *. simpl in Hd |- *. rewrite Hd.
    destruct d; try contradiction; reflexivity.
  - intros m path payload. unfold wire_request, stored_token.
    destruct d; try contradiction; simpl; rewrite lookup_insert_eq; simpl;
      unfold api.decorate; rewrite (truthy_JStr_true t Ht); reflexivity.
Qed.

Lemma requests_after_login_carry_token_witness :
  exists w',
    AuthContext.login "a@b.com" "secret" Sample.welcoming = (Ok tt, w') /\
    headers (wire_request GET "/bookings" JUndefined w') =
      [("Content-Type", "application/json"); ("Authorization", "Bearer tok-1")].
Proof.
  destruct (requests_after_login_carry_token Sample.welcoming "a@b.com" "secret"
              {| status := 200; data := Sample.login_body |} "tok-1"
              (JObj [("user", Sample.ann)]))
    as (w' & Hl & Hh); try reflexivity; try discriminate.
  - simpl. lia.
  - exists w'. split; [exact Hl | apply Hh].
Defined.

(** X8. A credential exchange that succeeds with a token but whose body has
    no [data] object (the user sits elsewhere in the body): the token is
    stored, and yet [login] throws a [TypeError], shows its network-error
    text, and leaves the session as it was. *)
Theorem login_without_data_object (w : world) (email password : string)
    (r : response) (t : string) :
  answer w (wire_request POST "/auth/login" (credentials email password) w) = Response r ->
  200 <= status r < 300 ->
  prop (data r) "token" = JStr t -> t <> "" ->
  prop (data r) "data" = JUndefined ->
  exists w',
    AuthContext.login email password w =
      (Throw (TypeError "Cannot read properties of undefined (reading 'user')"), w') /\
    stored_token w' = JStr t /\
    auth_user w' = auth_user w /\
    auth_loading w' = false /\
    events w' = events w ++
      [Request (wire_request POST "/auth/login" (credentials email password) w);
       CookieSet "auth_token" t 30;
       Toast toast_error (JStr "Network error. Please check your connection and try again.")].
Proof.
  intros Ha Hs Htok Ht Hd.
  pose proof (authService_login_resolved (credentials email password)
                (with_auth_loading true w) r t Ha Hs Htok Ht) as Hlogin.
  assert (Hobj : exists fs, data r = JObj fs).
  { destruct (data r); try discriminate Htok. eexists; reflexivity. }
  destruct Hobj as [fs Hfs].
  eexists. split.
  - unfold AuthContext.login, bind. simpl.
    unfold try_finally, try_catch, bind. fold (credentials email password).
    rewrite Hlogin. rewrite Hfs in *. simpl in Hd |- *. rewrite Hd. reflexivity.
  - simpl. unfold stored_token. simpl. rewrite lookup_insert_eq, <- !app_assoc.
    repeat split; reflexivity.
Qed.

Lemma login_without_data_object_witness :
  exists e w',
    AuthContext.login "a@b.com" "secret" Scenario.flat_login = (Throw e, w') /\
    stored_token w' = JStr "tok-1" /\ AuthContext.isAuthenticated w' = false.
Proof.
  destruct (login_without_data_object Scenario.flat_login "a@b.com" "secret"
              {| status := 200; data := Scenario.flat_login_body |} "tok-1")
    as (w' & Hl & Ht & Hu & _); try reflexivity; try discriminate.
  - simpl. lia.
  - eexists _, w'. split; [exact Hl|]. split; [exact Ht|].
    unfold AuthContext.isAuthenticated. rewrite Hu. reflexivity.
Defined.

(** The world after a refused credential exchange: the interceptor has seen
    the response, the exchange re-throws. *)
Lemma api_post_refused (path : string) (c : json) (w : world) (r : response) :
  answer w (wire_request POST path c w) = Response r ->
  400 <= status r < 500 ->
  exists w1 evs,
    api.post path c w = (Throw (rejection (wire_request POST path c w) r), w1) /\
    events w1 = events w ++ Request (wire_request POST path c w) :: evs /\
    toasts_of evs = [] /\ cookie_writes_of evs = [] /\
    auth_user w1 = auth_user w /\ auth_loading w1 = auth_loading w.
Proof.
  intros Ha Hs. unfold api.post.
  rewrite (api_request_rejected POST path c w r Ha ltac:(lia)).
  destruct (Z.eq_dec (status r) 401) as [H401|H401].
  - rewrite (response_interceptor_401 _ _ r _ H401 (wire_request_not_retry POST path c w)).
    unfold signed_out. simpl.
    destruct (pathname w) as [p|]; [destruct (on_auth_page p)|]; simpl;
      eexists _, _; (split; [reflexivity|]); simpl; rewrite <- ?app_assoc;
      (split; [reflexivity|]); auto.
  - rewrite response_interceptor_passes by lia.
    exists (on_wire (wire_request POST path c w) w), []. repeat split; reflexivity.
Qed.

Lemma toasts_of_app evs1 evs2 : toasts_of (evs1 ++ evs2) = toasts_of evs1 ++ toasts_of evs2.
Proof. apply omap_app. Qed.

(** X9. A login that the service refuses with a 4xx carrying a non-empty
    string [message] (wrong password: 401): [login] throws the rejection,
    shows that message verbatim as its only toast, writes no cookie and
    leaves the session as it was. *)
Theorem login_refusal_is_shown (w : world) (email password : string)
    (r : response) (msg : string) :
  answer w (wire_request POST "/auth/login" (credentials email password) w) = Response r ->
  400 <= status r < 500 ->
  opt_get (data r) "message" = JStr msg -> msg <> "" ->
  exists w' evs,
    AuthContext.login email password w =
      (Throw (rejection (wire_request POST "/auth/login" (credentials email password) w) r), w') /\
    events w' = events w ++ evs /\
    toasts_of evs = [(toast_error, JStr msg)] /\
    cookie_writes_of evs = [] /\
    auth_user w' = auth_user w /\
    auth_loading w' = false.
Proof.
  intros Ha Hs Hm Hne.
  destruct (api_post_refused "/auth/login" (credentials email password)
              (with_auth_loading true w) r Ha Hs)
    as (w1 & evs & Hpost & Hev & Htoast & Hwr & Hu & _).
  change (wire_request POST "/auth/login" (credentials email password)
            (with_auth_loading true w))
    with (wire_request POST "/auth/login" (credentials email password) w) in *.
  set (c := wire_request POST "/auth/login" (credentials email password) w) in *.
  assert (Hlogin : authService.login (credentials email password) (with_auth_loading true w)
                   = (Throw (rejection c r), w1)).
  { unfold authService.login, try_catch, bind. rewrite Hpost.
    destruct (isAxiosError (rejection c r) && response_status_is (rejection c r) 401);
      reflexivity. }
  assert (H503 : response_status_is (rejection c r) 503 = false).
  { unfold response_status_is. simpl. apply Z.eqb_neq. lia. }
  exists (with_auth_loading false (snd (toast.error (JStr msg) w1))),
    (Request c :: evs ++ [Toast toast_error (JStr msg)]).
  split.
  - unfold AuthContext.login, bind. simpl.
    unfold try_finally, try_catch, bind. fold (credentials email password).
    rewrite Hlogin, H503. simpl. unfold response_data_message. simpl. rewrite Hm.
    unfold js_or. rewrite (truthy_JStr_true msg Hne). reflexivity.
  - simpl in *. rewrite Hev, <- app_assoc. split; [reflexivity|].
    split; [|split; [|auto]].
    + change (Request c :: evs ++ [Toast toast_error (JStr msg)])
        with ([Request c] ++ evs ++ [Toast toast_error (JStr msg)]).
      rewrite !toasts_of_app, Htoast. reflexivity.
    + change (Request c :: evs ++ [Toast toast_error (JStr msg)])
        with ([Request c] ++ evs ++ [Toast toast_error (JStr msg)]).
      unfold cookie_writes_of in *. rewrite !omap_app, Hwr. reflexivity.
Qed.

Lemma login_refusal_is_shown_witness :
  exists e w',
    AuthContext.login "a@b.com" "wrong" Sample.refusing = (Throw e, w') /\
    toasts_of (events w') = [(toast_error, JStr "Invalid credentials")] /\
    AuthContext.isAuthenticated w' = false.
Proof.
  destruct (login_refusal_is_shown Sample.refusing "a@b.com" "wrong"
              {| status := 401; data := JObj [("message", JStr "Invalid credentials")] |}
              "Invalid credentials" eq_refl)
    as (w' & evs & Hl & Hev & Ht & _ & Hu & _); [simpl; lia | reflexivity | discriminate |].
  eexists _, w'. split; [exact Hl|]. split.
  - rewrite Hev. exact Ht.
  - unfold AuthContext.isAuthenticated. rewrite Hu. reflexivity.
Defined.

(** X10. A login while the service cannot be reached: the user is shown two
    error toasts, one by the gateway and one by [login]; the jar and the
    session are untouched and the error, which has no response, is thrown
    on. *)
Theorem login_while_offline (w : world) (email password : string) (msg : string) :
  answer w (wire_request POST "/auth/login" (credentials email password) w) = NoResponse msg ->
  exists w',
    AuthContext.login email password w =
      (Throw (AxiosError msg (wire_request POST "/auth/login" (credentials email password) w)
                None), w') /\
    events w' = events w ++
      [Request (wire_request POST "/auth/login" (credentials email password) w);
       Toast toast_error (JStr "Network error. Please check your connection.");
       Toast toast_error (JStr "Network error. Please check your connection and try again.")] /\
    cookies w' = cookies w /\
    auth_user w' = auth_user w /\
    auth_loading w' = false.
Proof.
  intros Ha.
  eexists. split.
  - unfold AuthContext.login, bind. simpl.
    unfold try_finally, try_catch, bind. fold (credentials email password).
    unfold authService.login, try_catch, bind, api.post.
    rewrite (api_request_no_response POST "/auth/login" (credentials email password)
               (with_auth_loading true w) msg Ha).
    reflexivity.
  - simpl. rewrite <- !app_assoc. auto.
Qed.

Lemma login_while_offline_witness :
  exists e w',
    AuthContext.login "a@b.com" "secret"
      (Sample.browser (Sample.always (NoResponse "Network Error")) ∅ "/login") = (Throw e, w') /\
    length (toasts_of (events w')) = 2%nat.
Proof.
  destruct (login_while_offline
              (Sample.browser (Sample.always (NoResponse "Network Error")) ∅ "/login")
              "a@b.com" "secret" "Network Error" eq_refl)
    as (w' & Hl & Hev & _).
  eexists _, w'. split; [exact Hl|]. rewrite Hev. reflexivity.
Defined.

(** ** Registration *)

(** X11. A registration that the service accepts with a 2xx whose body
    carries a non-empty string [token] and a [data] object: [register]
    returns, the session is the [user] of that [data], the token is in the
    cookie [auth_token] with a 30 day expiry, and the browser is routed to
    [/dashboard]. *)
Theorem register_success (w : world) (name email password : string) (r : response)
    (t : string) (d : json) :
  answer w (wire_request POST "/auth/register" (registration name email password) w)
    = Response r ->
  200 <= status r < 300 ->
  prop (data r) "token" = JStr t -> t <> "" ->
  prop (data r) "data" = d -> d <> JUndefined -> d <> JNull ->
  exists w',
    AuthContext.register name email password w = (Ok tt, w') /\
    auth_user w' = prop d "user" /\
    cookies w' !! "auth_token" = Some {| value := t; expires := Some 30 |} /\
    auth_loading w' = false /\
    events w' = events w ++
      [Request (wire_request POST "/auth/register" (registration name email password) w);
       CookieSet "auth_token" t 30;
       Toast toast_success (JStr "Registration successful!");
       RouterPush "/dashboard"].
Proof.
  intros Ha Hs Htok Ht Hd Hu Hn.
  pose proof (authService_register_resolved (registration name email password)
                (with_auth_loading true w) r t Ha Hs Htok Ht) as Hreg.
  assert (Hobj : exists fs, data r = JObj fs).
  { destruct (data r); try discriminate Htok. eexists; reflexivity. }
  destruct Hobj as [fs Hfs].
  eexists. split.
  - unfold AuthContext.register, bind. simpl.
    unfold try_finally, try_catch, bind. fold (registration name email password).
    rewrite Hreg. rewrite Hfs in *. simpl in Hd |- *. rewrite Hd.
    destruct d; try contradiction; reflexivity.
  - destruct d; try contradiction; simpl;
      rewrite lookup_insert_eq, <- !app_assoc; repeat split; reflexivity.
Qed.

Lemma register_success_witness :
  exists w',
    AuthContext.register "Ann" "a@b.com" "secret" Sample.welcoming = (Ok tt, w') /\
    auth_user w' = Sample.ann /\ stored_token w' = JStr "tok-1".
Proof.
  destruct (register_success Sample.welcoming "Ann" "a@b.com" "secret"
              {| status := 200; data := Sample.login_body |} "tok-1"
              (JObj [("user", Sample.ann)]))
    as (w' & Hr & Hu & Hc & _); try reflexivity; try discriminate.
  - simpl. lia.
  - exists w'. split; [exact Hr|]. split; [exact Hu|].
    unfold stored_token. rewrite Hc. reflexivity.
Defined.

(** X12. A registration that the service refuses with a 4xx carrying a
    non-empty string [message] (a validation error: 400): [register] throws
    the rejection, shows that message verbatim as its only toast, writes no
    cookie and leaves the session as it was. *)
Theorem register_refusal_is_shown (w : world) (name email password : string)
    (r : response) (msg : string) :
  answer w (wire_request POST "/auth/register" (registration name email password) w)
    = Response r ->
  400 <= status r < 500 ->
  opt_get (data r) "message" = JStr msg -> msg <> "" ->
  exists w' evs,
    AuthContext.register name email password w =
      (Throw (rejection (wire_request POST "/auth/register"
                           (registration name email password) w) r), w') /\
    events w' = events w ++ evs /\
    toasts_of evs = [(toast_error, JStr msg)] /\
    cookie_writes_of evs = [] /\
    auth_user w' = auth_user w /\
    auth_loading w' = false.
Proof.
  intros Ha Hs Hm Hne.
  destruct (api_post_refused "/auth/register" (registration name email password)
              (with_auth_loading true w) r Ha Hs)
    as (w1 & evs & Hpost & Hev & Htoast & Hwr & Hu & _).
  change (wire_request POST "/auth/register" (registration name email password)
            (with_auth_loading true w))
    with (wire_request POST "/auth/register" (registration name email password) w) in *.
  set (c := wire_request POST "/auth/register" (registration name email password) w) in *.
  assert (Hreg : authService.register (registration name email password)
                   (with_auth_loading true w)
                 = (Throw (rejection c r), w1)).
  { unfold authService.register, try_catch, bind. rewrite Hpost.
    destruct (isAxiosError (rejection c r) && response_status_is (rejection c r) 400);
      reflexivity. }
  assert (H503 : response_status_is (rejection c r) 503 = false).
  { unfold response_status_is. simpl. apply Z.eqb_neq. lia. }
  exists (with_auth_loading false (snd (toast.error (JStr msg) w1))),
    (Request c :: evs ++ [Toast toast_error (JStr msg)]).
  split.
  - unfold AuthContext.register, bind. simpl.
    unfold try_finally, try_catch, bind. fold (registration name email password).
    rewrite Hreg, H503. simpl. unfold response_data_message. simpl. rewrite Hm.
    unfold js_or. rewrite (truthy_JStr_true msg Hne). reflexivity.
  - simpl in *. rewrite Hev, <- app_assoc. split; [reflexivity|].
    split; [|split; [|auto]].
    + change (Request c :: evs ++ [Toast toast_error (JStr msg)])
        with ([Request c] ++ evs ++ [Toast toast_error (JStr msg)]).
      rewrite !toasts_of_app, Htoast. reflexivity.
    + change (Request c :: evs ++ [Toast toast_error (JStr msg)])
        with ([Request c] ++ evs ++ [Toast toast_error (JStr msg)]).
      unfold cookie_writes_of in *. rewrite !omap_app, Hwr. reflexivity.
Qed.

Lemma register_refusal_is_shown_witness :
  exists e w',
    AuthContext.register "Ann" "a@b.com" "x" Scenario.taken = (Throw e, w') /\
    toasts_of (events w') = [(toast_error, JStr "Email already registered")] /\
    cookies w' = ∅.
Proof.
  destruct (register_refusal_is_shown Scenario.taken "Ann" "a@b.com" "x"
              {| status := 400; data := JObj [("message", JStr "Email already registered")] |}
              "Email already registered" eq_refl)
    as (w' & evs & Hr & Hev & Ht & _); [simpl; lia | reflexivity | discriminate |].
  eexists _, w'. split; [exact Hr|]. split.
  - rewrite Hev. exact Ht.
  - assert (Hw : w' = snd (AuthContext.register "Ann" "a@b.com" "x" Scenario.taken))
      by (rewrite Hr; reflexivity).
    rewrite Hw. vm_compute. reflexivity.
Defined.

(** ** Startup with a stored token *)

(** X13. Startup with a stored token that the service accepts: one request
    for the current user goes out; the session becomes the [user] under
    [data] of the body when that is truthy and stays [null] otherwise (also
    when the body is [null]); [loading] ends false and nothing is thrown. *)
Theorem startup_restores_session (w : world) (r : response) :
  AuthContext.mounted w ->
  truthy (stored_token w) = true ->
  answer w (wire_request GET "/auth/me" JUndefined w) = Response r ->
  200 <= status r < 300 ->
  exists w',
    AuthContext.mount_effect w = (Ok tt, w') /\
    auth_user w' =
      (let u := opt_get (prop (data r) "data") "user" in if truthy u then u else JNull) /\
    auth_loading w' = false /\
    events w' = events w ++ [Request (wire_request GET "/auth/me" JUndefined w)] /\
    cookies w' = cookies w.
Proof.
  intros [Hu Hl] Htok Ha Hs.
  assert (Hget : authService.getCurrentUser w =
                 (Ok (data r), on_wire (wire_request GET "/auth/me" JUndefined w) w)).
  { unfold authService.getCurrentUser, try_catch, bind, api.get.
    rewrite (api_request_resolved GET "/auth/me" JUndefined w r Ha Hs). reflexivity. }
  eexists. split.
  - unfold AuthContext.mount_effect, bind, Cookies.get, read.
    fold (stored_token w). rewrite Htok. simpl. unfold detached. reflexivity.
  - unfold AuthContext.loadUser, try_finally, try_catch, bind. rewrite Hget.
    destruct (data r) as [| |b|n|s|items|fs]; simpl; try (rewrite Hu; auto; fail).
    destruct (truthy (opt_get (assoc "data" fs) "user")) eqn:Ht; simpl; rewrite ?Hu; auto.
Qed.

Lemma startup_restores_session_witness :
  exists w',
    AuthContext.mount_effect Scenario.returning = (Ok tt, w') /\
    auth_user w' = Sample.ann /\ auth_loading w' = false.
Proof.
  destruct (startup_restores_session Scenario.returning
              {| status := 200; data := JObj [("data", JObj [("user", Sample.ann)])] |}
              (conj eq_refl eq_refl) eq_refl eq_refl)
    as (w' & Hm & Hu & Hl & _); [simpl; lia|].
  exists w'. split; [exact Hm|]. split; [exact Hu | exact Hl].
Defined.

(** X14. Startup with a stored token that the service answers with 401:
    nothing is thrown, the session stays [null], [loading] ends false, the
    token is gone from the jar (it is removed by the interceptor and again by
    [getCurrentUser]), and the browser is sent to [/login] unless it is on a
    login or register page. *)
Theorem startup_with_expired_token (w : world) (r : response) :
  AuthContext.mounted w ->
  truthy (stored_token w) = true ->
  answer w (wire_request GET "/auth/me" JUndefined w) = Response r ->
  status r = 401 ->
  exists w' evs,
    AuthContext.mount_effect w = (Ok tt, w') /\
    auth_user w' = JNull /\
    auth_loading w' = false /\
    cookies w' !! "auth_token" = None /\
    events w' = events w ++ evs /\
    requests_of evs = [wire_request GET "/auth/me" JUndefined w] /\
    cookie_removals_of evs = ["auth_token"; "auth_token"] /\
    navigations_of evs =
      match pathname w with
      | Some p => if on_auth_page p then [] else ["/login"]
      | None => []
      end /\
    toasts_of evs = [].
Proof.
  intros [Hu Hl] Htok Ha Hs.
  set (c := wire_request GET "/auth/me" JUndefined w).
  assert (Hget : authService.getCurrentUser w =
                 (Throw (rejection c r), snd (Cookies.remove "auth_token" (signed_out (on_wire c w))))).
  { unfold authService.getCurrentUser, try_catch, bind, api.get.
    rewrite (api_request_rejected GET "/auth/me" JUndefined w r Ha ltac:(lia)).
    rewrite (response_interceptor_401 _ _ r _ Hs (wire_request_not_retry GET "/auth/me" JUndefined w)).
    fold c. unfold response_status_is. simpl.
    replace (status r =? 401) with true by (symmetry; apply Z.eqb_eq; exact Hs).
    reflexivity. }
  assert (Hmount : AuthContext.mount_effect w =
                   (Ok tt, with_auth_loading false
                             (snd (Cookies.remove "auth_token" (signed_out (on_wire c w)))))).
  { unfold AuthContext.mount_effect, bind, Cookies.get, read.
    fold (stored_token w). rewrite Htok. simpl. unfold detached.
    unfold AuthContext.loadUser, try_finally, try_catch, bind. rewrite Hget. reflexivity. }
  exists (with_auth_loading false
            (snd (Cookies.remove "auth_token" (signed_out (on_wire c w))))),
    (Request c :: CookieRemove "auth_token" ::
       match pathname w with
       | Some p => if on_auth_page p then [] else [SetHref "/login"]
       | None => []
       end ++ [CookieRemove "auth_token"]).
  split; [exact Hmount|].
  unfold signed_out. simpl.
  destruct (pathname w) as [p|]; [destruct (on_auth_page p)|]; simpl;
    rewrite lookup_delete_eq, <- ?app_assoc; repeat split; auto.
Qed.

Lemma startup_with_expired_token_witness :
  exists w',
    AuthContext.mount_effect Sample.expired = (Ok tt, w') /\
    stored_token w' = JUndefined /\
    navigations_of (events w') = ["/login"].
Proof.
  destruct (startup_with_expired_token Sample.expired
              {| status := 401; data := JObj [("message", JStr "Token expired")] |}
              (conj eq_refl eq_refl) eq_refl eq_refl eq_refl)
    as (w' & evs & Hm & _ & _ & Hjar & Hev & _ & _ & Hnav & _).
  exists w'. split; [exact Hm|]. split.
  - unfold stored_token. rewrite Hjar. reflexivity.
  - rewrite Hev. exact Hnav.
Defined.

(** ** Deleting a user *)

Lemma deleteUser_resolved (userId : string) (w : world) (r : response) :
  userId <> "" ->
  answer w (delete_user_request userId w) = Response r ->
  200 <= status r < 300 ->
  usersAdminService.deleteUser userId w =
    (Ok (data r), on_wire (delete_user_request userId w) w).
Proof.
  intros Hid Ha Hs. unfold usersAdminService.deleteUser.
  rewrite (truthy_JStr_true userId Hid). simpl.
  unfold bind, Cookies.get, read, try_catch, axios.delete, axios.dispatch.
  fold (stored_token w). fold (delete_user_request userId w).
  unfold answer in Ha. rewrite Ha.
  replace ((200 <=? status r) && (status r <? 300)) with true; [reflexivity|].
  symmetry. apply andb_true_iff. split; [apply Z.leb_le | apply Z.ltb_lt]; lia.
Qed.

Lemma deleteUser_rejected (userId : string) (w : world) (r : response) :
  userId <> "" ->
  answer w (delete_user_request userId w) = Response r ->
  ~ (200 <= status r < 300) ->
  usersAdminService.deleteUser userId w =
    (Throw (rejection (delete_user_request userId w) r),
     on_wire (delete_user_request userId w) w).
Proof.
  intros Hid Ha Hs. unfold usersAdminService.deleteUser.
  rewrite (truthy_JStr_true userId Hid). simpl.
  unfold bind, Cookies.get, read, try_catch, axios.delete, axios.dispatch.
  fold (stored_token w). fold (delete_user_request userId w).
  unfold answer in Ha. rewrite Ha.
  replace ((200 <=? status r) && (status r <? 300)) with false; [reflexivity|].
  symmetry. apply andb_false_iff.
  destruct (Z.leb_spec 200 (status r)); [right; apply Z.ltb_ge; lia | left; reflexivity].
Qed.

Lemma deleteUser_no_response (userId : string) (w : world) (msg : string) :
  userId <> "" ->
  answer w (delete_user_request userId w) = NoResponse msg ->
  usersAdminService.deleteUser userId w =
    (Throw (AxiosError msg (delete_user_request userId w) None),
     on_wire (delete_user_request userId w) w).
Proof.
  intros Hid Ha. unfold usersAdminService.deleteUser.
  rewrite (truthy_JStr_true userId Hid). simpl.
  unfold bind, Cookies.get, read, try_catch, axios.delete, axios.dispatch.
  fold (stored_token w). fold (delete_user_request userId w).
  unfold answer in Ha. rewrite Ha. reflexivity.
Qed.

Lemma deleteUser_bypasses_frame (userId : string) (w : world) :
  userId <> "" ->
  snd (usersAdminService.deleteUser userId w) = on_wire (delete_user_request userId w) w.
Proof.
  intros Hid.
  destruct (answer w (delete_user_request userId w)) as [msg|r] eqn:Ha.
  - rewrite (deleteUser_no_response userId w msg Hid Ha). reflexivity.
  - destruct (Z_le_dec 200 (status r)) as [Hlo|Hlo];
      [destruct (Z_lt_dec (status r) 300) as [Hhi|Hhi]|].
    + rewrite (deleteUser_resolved userId w r Hid Ha (conj Hlo Hhi)). reflexivity.
    + rewrite (deleteUser_rejected userId w r Hid Ha ltac:(lia)). reflexivity.
    + rewrite (deleteUser_rejected userId w r Hid Ha ltac:(lia)). reflexivity.
Qed.

(** X15. [deleteUser] goes around the gateway.  For a non-empty identifier
    it puts exactly one DELETE request on the wire and does nothing else,
    whatever the answer: no toast, no cookie operation, no navigation, so a
    401 neither clears the token nor sends the browser to [/login]; a
    rejection is thrown as axios made it.  For the empty identifier it throws
    without sending anything. *)
Theorem deleteUser_bypasses_gateway (userId : string) (w : world) :
  userId <> "" ->
  events (snd (usersAdminService.deleteUser userId w)) =
    events w ++ [Request (delete_user_request userId w)] /\
  cookies (snd (usersAdminService.deleteUser userId w)) = cookies w /\
  (forall r, answer w (delete_user_request userId w) = Response r ->
             ~ (200 <= status r < 300) ->
             fst (usersAdminService.deleteUser userId w) =
               Throw (rejection (delete_user_request userId w) r)) /\
  usersAdminService.deleteUser "" w = (Throw (Error "User ID is required"), w).
Proof.
  intros Hid.
  rewrite (deleteUser_bypasses_frame userId w Hid). repeat split.
  intros r Ha Hs. rewrite (deleteUser_rejected userId w r Hid Ha Hs). reflexivity.
Qed.

Lemma deleteUser_bypasses_gateway_witness :
  exists e w',
    usersAdminService.deleteUser "u2" Sample.expired = (Throw e, w') /\
    has_status e 401 = true /\
    stored_token w' = JStr "t0" /\
    navigations_of (events w') = [].
Proof.
  destruct (deleteUser_bypasses_gateway "u2" Sample.expired ltac:(discriminate))
    as (Hev & Hjar & Hthrow & _).
  exists (rejection (delete_user_request "u2" Sample.expired)
            {| status := 401; data := JObj [("message", JStr "Token expired")] |}),
    (snd (usersAdminService.deleteUser "u2" Sample.expired)).
  split.
  { rewrite (surjective_pairing (usersAdminService.deleteUser "u2" Sample.expired)) at 1.
    rewrite (Hthrow _ eq_refl ltac:(simpl; lia)). reflexivity. }
  split; [reflexivity|]. split.
  - unfold stored_token. rewrite Hjar. reflexivity.
  - rewrite Hev. reflexivity.
Defined.

Lemma strict_eq_str_spec (x : json) (s : string) : strict_eq_str x s = true <-> x = JStr s.
Proof.
  destruct x; simpl; split; try discriminate.
  - intros H. apply String.eqb_eq in H. congruence.
  - intros [= ->]. apply String.eqb_refl.
Qed.

(** What [handleDeleteUser] does once the guards are passed. *)
Lemma handleDeleteUser_proceeds (w : world) (i : string) :
  truthy (userToDelete w) = true ->
  ProfilePage.cleaned_id (userToDelete w) = JStr i -> i <> "" ->
  opt_get (auth_user w) "id" <> JStr i ->
  ProfilePage.handleDeleteUser w =
    try_finally
      (try_catch
         (let* result := usersAdminService.deleteUser i in
          let* _ := setUsers (List.filter (fun u => negb (strict_eq_str (row_id u) i))) in
          let* _ := toast.success (JStr "User access revoked successfully") in
          ProfilePage.closeDeleteModal)
         (fun error => toast.error (JStr (revoke_failure_text error))))
      (setDeletingUser false) (with_deletingUser true w).
Proof.
  intros Hsel Hid Hne Hadmin.
  unfold ProfilePage.handleDeleteUser, bind at 1 2, read. rewrite Hsel. simpl.
  rewrite Hid, (truthy_JStr_true i Hne). simpl.
  destruct (strict_eq_str (opt_get (auth_user w) "id") i) eqn:Heq.
  { apply strict_eq_str_spec in Heq. contradiction. }
  unfold bind at 1. simpl.
  unfold try_finally, try_catch. unfold row_id.
  destruct (bind (usersAdminService.deleteUser i) _ (with_deletingUser true w))
    as [[u|e] w1]; [reflexivity|].
  unfold revoke_failure_text, has_status, response_status_is, error_response.
  destruct e as [m c [r|] | m | m]; try reflexivity. simpl.
  destruct (status r =? 404); [reflexivity|].
  destruct (status r =? 403); [reflexivity|].
  destruct (status r =? 400); reflexivity.
Qed.

(** X16. A deletion that the service confirms: one DELETE request for the
    cleaned identifier goes out; only then is the users list changed, and it
    loses exactly the rows whose identifier is that identifier (the other
    rows stay, in order); the dialog is closed and a success toast shown. *)
Theorem handleDeleteUser_revokes (w : world) (i : string) (r : response) :
  truthy (userToDelete w) = true ->
  ProfilePage.cleaned_id (userToDelete w) = JStr i -> i <> "" ->
  opt_get (auth_user w) "id" <> JStr i ->
  answer w (delete_user_request i w) = Response r ->
  200 <= status r < 300 ->
  exists w',
    ProfilePage.handleDeleteUser w = (Ok tt, w') /\
    users w' = List.filter (fun u => negb (strict_eq_str (row_id u) i)) (users w) /\
    (forall u, In u (users w') <-> In u (users w) /\ row_id u <> JStr i) /\
    events w' = events w ++
      [Request (delete_user_request i w);
       Toast toast_success (JStr "User access revoked successfully")] /\
    showDeleteModal w' = false /\ userToDelete w' = JNull /\ deletingUser w' = false.
Proof.
  intros Hsel Hid Hne Hadmin Ha Hs.
  rewrite (handleDeleteUser_proceeds w i Hsel Hid Hne Hadmin).
  unfold try_finally, try_catch, bind.
  rewrite (deleteUser_resolved i (with_deletingUser true w) r Hne Ha Hs).
  eexists. split; [reflexivity|]. simpl. rewrite <- app_assoc.
  repeat split; try reflexivity.
  - apply filter_In in H. apply H.
  - apply filter_In in H. destruct H as [_ H]. intros Heq.
    apply strict_eq_str_spec in Heq. rewrite Heq in H. discriminate.
  - intros [Hin Hrow]. apply filter_In. split; [exact Hin|].
    destruct (strict_eq_str (row_id u) i) eqn:Heq; [|reflexivity].
    apply strict_eq_str_spec in Heq. contradiction.
Qed.

Lemma handleDeleteUser_revokes_witness :
  exists w',
    ProfilePage.handleDeleteUser Scenario.revoking = (Ok tt, w') /\
    users w' = [Sample.own_row].
Proof.
  destruct (handleDeleteUser_revokes Scenario.revoking "u2"
              {| status := 200; data := JObj [("success", JBool true)] |}
              eq_refl eq_refl ltac:(discriminate) ltac:(discriminate) eq_refl
              ltac:(simpl; lia))
    as (w' & Hh & Hu & _).
  exists w'. split; [exact Hh|]. rewrite Hu. reflexivity.
Defined.

(** X17. A deletion that fails (the service rejects it or cannot be
    reached): the users list and the selection are what they were and the
    dialog stays open; one error toast is shown, chosen by the status (404,
    403, 400, otherwise the error's own message); nothing is thrown, and no
    cookie is touched, also on a 401. *)
Theorem handleDeleteUser_failure (w : world) (i : string) (e : error) :
  truthy (userToDelete w) = true ->
  ProfilePage.cleaned_id (userToDelete w) = JStr i -> i <> "" ->
  opt_get (auth_user w) "id" <> JStr i ->
  fst (usersAdminService.deleteUser i (with_deletingUser true w)) = Throw e ->
  exists w',
    ProfilePage.handleDeleteUser w = (Ok tt, w') /\
    users w' = users w /\
    showDeleteModal w' = showDeleteModal w /\ userToDelete w' = userToDelete w /\
    deletingUser w' = false /\
    cookies w' = cookies w /\
    events w' = events w ++
      [Request (delete_user_request i w); Toast toast_error (JStr (revoke_failure_text e))].
Proof.
  intros Hsel Hid Hne Hadmin Hfail.
  rewrite (handleDeleteUser_proceeds w i Hsel Hid Hne Hadmin).
  pose proof (deleteUser_bypasses_frame i (with_deletingUser true w) Hne) as Hw.
  unfold try_finally, try_catch, bind.
  destruct (usersAdminService.deleteUser i (with_deletingUser true w)) as [res w1].
  simpl in Hfail, Hw. subst res w1.
  eexists. split; [reflexivity|]. simpl. rewrite <- app_assoc. repeat split; reflexivity.
Qed.

Lemma handleDeleteUser_failure_witness :
  exists w',
    ProfilePage.handleDeleteUser Scenario.revoking_refused = (Ok tt, w') /\
    toasts_of (events w') =
      [(toast_error, JStr "You do not have permission to delete this user")] /\
    showDeleteModal w' = true.
Proof.
  destruct (handleDeleteUser_failure Scenario.revoking_refused "u2"
              (rejection (delete_user_request "u2" Scenario.revoking_refused)
                         {| status := 403; data := JNull |})
              eq_refl eq_refl ltac:(discriminate) ltac:(discriminate) eq_refl)
    as (w' & Hh & _ & Hm & _ & _ & _ & Hev).
  exists w'. split; [exact Hh|]. split; [rewrite Hev; reflexivity | exact Hm].
Defined.

(** ** Selecting a user *)

Lemma assoc_cons_ne (k k' : string) (v : json) (fs : list (string * json)) :
  k <> k' -> assoc k ((k', v) :: fs) = assoc k fs.
Proof.
  intros H. simpl. destruct (String.eqb_spec k k'); [contradiction | reflexivity].
Qed.

(** X18. [openDeleteModal] on a row (an object): when the row has neither a
    truthy [_id] nor a truthy [id], nothing is selected and an error toast
    is shown; otherwise the dialog opens on a copy of the row whose [_id] is
    the row's identifier and whose other properties are the row's; the
    trace and the users list are untouched. *)
Theorem openDeleteModal_selects (w : world) (fs : list (string * json)) :
  (truthy (row_id (JObj fs)) = false ->
     ProfilePage.openDeleteModal (JObj fs) w =
       (Ok tt, snd (toast.error (JStr "Cannot delete user: Missing ID") w)))
  /\ (truthy (row_id (JObj fs)) = true ->
      exists w',
        ProfilePage.openDeleteModal (JObj fs) w = (Ok tt, w') /\
        showDeleteModal w' = true /\
        truthy (userToDelete w') = true /\
        prop (userToDelete w') "_id" = row_id (JObj fs) /\
        (forall k, k <> "_id" -> prop (userToDelete w') k = prop (JObj fs) k) /\
        events w' = events w /\ users w' = users w).
Proof.
  unfold row_id, js_or. simpl. split.
  - intros H. unfold ProfilePage.openDeleteModal. simpl.
    destruct (truthy (assoc "_id" fs)) eqn:H1; [congruence|]. rewrite H. reflexivity.
  - intros H. unfold ProfilePage.openDeleteModal. simpl.
    destruct (truthy (assoc "_id" fs)) eqn:H1; simpl.
    + eexists. split; [reflexivity|]. simpl. unfold js_or. rewrite H1. simpl.
      rewrite H1. repeat split; try reflexivity.
      intros k Hk. destruct (String.eqb_spec k "_id"); [contradiction | reflexivity].
    + rewrite H. simpl.
      eexists. split; [reflexivity|]. simpl. unfold js_or. rewrite H1, H. simpl.
      repeat split; try reflexivity.
      intros k Hk. destruct (String.eqb_spec k "_id"); [contradiction | reflexivity].
Qed.

Lemma openDeleteModal_selects_witness :
  exists w',
    ProfilePage.openDeleteModal
      (JObj [("id", JStr " u2 "); ("name", JStr "Bob")]) Sample.selecting_self = (Ok tt, w') /\
    prop (userToDelete w') "_id" = JStr " u2 " /\
    prop (userToDelete w') "name" = JStr "Bob".
Proof.
  destruct (proj2 (openDeleteModal_selects Sample.selecting_self
                     [("id", JStr " u2 "); ("name", JStr "Bob")]) eq_refl)
    as (w' & Ho & _ & _ & Hid & Hrest & _).
  exists w'. split; [exact Ho|]. split; [exact Hid|].
  apply Hrest. discriminate.
Defined.

(** ** Editing the profile *)

(** X19. [updateUserProfile] is local: it never sends a request and touches
    neither the trace nor the jar.  With a session (an object) it sets
    [name], [email] and [phone] and keeps every other property of the user;
    without a session it does nothing. *)
Theorem updateUserProfile_is_local (w : world) (name email : string) (phone : json) :
  exists w',
    AuthContext.updateUserProfile name email phone w = (Ok tt, w') /\
    events w' = events w /\
    cookies w' = cookies w /\
    (truthy (auth_user w) = false -> w' = w) /\
    (forall fs, auth_user w = JObj fs ->
       prop (auth_user w') "name" = JStr name /\
       prop (auth_user w') "email" = JStr email /\
       prop (auth_user w') "phone" = phone /\
       forall k, k <> "name" -> k <> "email" -> k <> "phone" ->
                 prop (auth_user w') k = prop (auth_user w) k).
Proof.
  unfold AuthContext.updateUserProfile, bind, read.
  destruct (truthy (auth_user w)) eqn:Ht.
  - eexists. split; [reflexivity|]. simpl.
    split; [reflexivity|]. split; [reflexivity|]. split; [discriminate|].
    intros fs Hfs. rewrite Hfs. simpl.
    split; [reflexivity|]. split; [reflexivity|]. split; [reflexivity|].
    intros k H1 H2 H3.
    destruct (String.eqb_spec k "phone"); [contradiction|].
    destruct (String.eqb_spec k "email"); [contradiction|].
    destruct (String.eqb_spec k "name"); [contradiction|]. reflexivity.
  - exists w. split; [reflexivity|]. split; [reflexivity|]. split; [reflexivity|].
    split; [reflexivity|].
    intros fs Hfs. rewrite Hfs in Ht. discriminate.
Qed.

Lemma updateUserProfile_is_local_witness :
  exists w',
    AuthContext.updateUserProfile "Ann B" "ann@b.com" (JStr "555") Scenario.revoking
      = (Ok tt, w') /\
    prop (auth_user w') "name" = JStr "Ann B" /\
    events w' = [].
Proof.
  pose proof (updateUserProfile_is_local Scenario.revoking "Ann B" "ann@b.com" (JStr "555"))
    as H.
  destruct H as (w' & Hh & Hev & _ & _ & Hset).
  exists w'. split; [exact Hh|]. split; [|exact Hev].
  exact (proj1 (Hset _ eq_refl)).
Defined.

(** ** Submitting a booking *)

(** X20. A booking that the service accepts with a 2xx: one POST goes out;
    when the body of the answer is truthy the form shows its success toast
    and routes to [/dashboard]; when the body is falsy (an empty answer) the
    form shows nothing and stays where it is.  [loading] ends false. *)
Theorem booking_accepted (w : world) (formData : json) (r : response) :
  answer w (wire_request POST "/bookings" formData w) = Response r ->
  200 <= status r < 300 ->
  exists w',
    NewBookingPage.handleSubmit formData w = (Ok tt, w') /\
    events w' = events w ++
      Request (wire_request POST "/bookings" formData w) ::
      (if truthy (data r)
       then [Toast toast_success (JStr "Booking created successfully!");
             RouterPush "/dashboard"]
       else []) /\
    form_loading w' = false.
Proof.
  intros Ha Hs.
  set (w0 := with_form_loading true w).
  set (c := wire_request POST "/bookings" formData w).
  assert (Hcall : bookingsService.createBooking formData w0 = (Ok (data r), on_wire c w0)).
  { unfold bookingsService.createBooking, wrapped_call. apply withRetry_ok.
    unfold bind. rewrite (api_request_resolved POST "/bookings" formData w0 r Ha Hs).
    reflexivity. }
  unfold NewBookingPage.handleSubmit, bind at 1. simpl. fold w0.
  unfold try_finally, try_catch, bind at 1. rewrite Hcall.
  destruct (truthy (data r)); simpl;
    (eexists; split; [reflexivity|]; simpl; rewrite <- ?app_assoc; auto).
Qed.

Lemma booking_accepted_witness :
  exists w',
    NewBookingPage.handleSubmit Sample.booking_form Scenario.no_content = (Ok tt, w') /\
    toasts_of (events w') = [] /\ length (requests_of (events w')) = 1%nat.
Proof.
  destruct (booking_accepted Scenario.no_content Sample.booking_form
              {| status := 204; data := JStr "" |} eq_refl ltac:(simpl; lia))
    as (w' & Hs & Hev & _).
  exists w'. split; [exact Hs|]. rewrite Hev. split; reflexivity.
Defined.

(** X21. A booking while the service answers every request with a 500 whose
    message is a string: the POST that creates the booking is put on the wire
    three times, after waits of 1000 and 1500 ms; the gateway shows its
    server-error toast for each attempt and the form one more error toast;
    the handler itself does not throw. *)
Theorem booking_on_persistent_500 (w : world) (formData : json) (r : response) (t : string) :
  (forall n c, remote w n c = Response r) ->
  status r = 500 ->
  js_or (opt_get (data r) "message") (JStr "Server error") = JStr t ->
  exists w',
    NewBookingPage.handleSubmit formData w = (Ok tt, w') /\
    events w' = events w ++
      [Request (wire_request POST "/bookings" formData w);
       Toast toast_error (JStr (server_error_toast t));
       Timeout 1000;
       Request (wire_request POST "/bookings" formData w);
       Toast toast_error (JStr (server_error_toast t));
       Timeout 1500;
       Request (wire_request POST "/bookings" formData w);
       Toast toast_error (JStr (server_error_toast t));
       Toast toast_error (js_or (opt_get (data r) "message") (JStr "Failed to create booking"))] /\
    form_loading w' = false.
Proof.
  intros Hall Hs Hm.
  set (c := wire_request POST "/bookings" formData w).
  set (call := let* response := api.request POST "/bookings" formData in ret (data response)).
  set (after := fun w1 => snd (toast.error (JStr (server_error_toast t)) (on_wire c w1))).
  assert (Hatt : forall w1, remote w1 = remote w -> cookies w1 = cookies w ->
                            call w1 = (Throw (rejection c r), after w1)).
  { intros w1 Hr Hc. unfold call, bind.
    assert (Hc1 : wire_request POST "/bookings" formData w1 = c).
    { unfold c, wire_request, stored_token. rewrite Hc. reflexivity. }
    rewrite (api_request_500 POST "/bookings" formData w1 r t); rewrite ?Hc1;
      [reflexivity | unfold answer; rewrite Hr; apply Hall | exact Hs | exact Hm]. }
  assert (Hnr : not_retried (rejection c r) = false).
  { unfold not_retried. simpl. rewrite Hs. reflexivity. }
  set (w0 := with_form_loading true w).
  assert (Hcall : bookingsService.createBooking formData w0 =
                  (Throw (rejection c r),
                   after (snd (sleep 1500 (after (snd (sleep 1000 (after w0)))))))).
  { unfold bookingsService.createBooking, wrapped_call. fold call.
    unfold default_retries, default_delay.
    rewrite (withRetry_again call 2 1000 w0 _ _ (Hatt w0 eq_refl eq_refl) ltac:(lia) Hnr).
    change (Qred (1000 * 1.5)) with 1500%Q. change (2 - 1) with 1.
    rewrite (withRetry_again call 1 1500 _ _ _
               (Hatt (snd (sleep 1000 (after w0))) eq_refl eq_refl) ltac:(lia) Hnr).
    rewrite withRetry_exhausted by lia.
    apply (Hatt (snd (sleep 1500 (after (snd (sleep 1000 (after w0)))))) eq_refl eq_refl). }
  unfold NewBookingPage.handleSubmit, bind at 1. simpl. fold w0.
  unfold try_finally, try_catch, bind at 1. rewrite Hcall.
  eexists. split; [reflexivity|]. simpl. rewrite <- !app_assoc. auto.
Qed.

Lemma booking_on_persistent_500_witness :
  exists w',
    NewBookingPage.handleSubmit Sample.booking_form
      (Scenario.failing (JObj [("message", JStr "MongoDB is down")])) = (Ok tt, w') /\
    length (requests_of (events w')) = 3%nat /\
    length (toasts_of (events w')) = 4%nat.
Proof.
  destruct (booking_on_persistent_500
              (Scenario.failing (JObj [("message", JStr "MongoDB is down")]))
              Sample.booking_form
              {| status := 500; data := JObj [("message", JStr "MongoDB is down")] |}
              "MongoDB is down" ltac:(intros; reflexivity) eq_refl eq_refl)
    as (w' & Hs & Hev & _).
  exists w'. split; [exact Hs|]. rewrite Hev. split; reflexivity.
Defined.

(** ** The earlier booking form *)

(** X22. The earlier booking form sends nothing when a required field (date,
    time or service) is empty, or when the fields are filled and the date
    lies before today: it shows one error toast saying which, and leaves the
    jar and its loading flag alone. *)
Theorem earlier_form_validates (w : world) (formData : EarlierNewBookingPage.BookingFormData) :
  (EarlierNewBookingPage.date formData = "" \/ EarlierNewBookingPage.time formData = "" \/
   EarlierNewBookingPage.service formData = "") \/
  date_before_today w (EarlierNewBookingPage.date formData) = true ->
  exists msg,
    EarlierNewBookingPage.handleSubmit formData w =
      (Ok tt, snd (toast.error (JStr msg) w)) /\
    (msg = "Please fill all required fields" \/ msg = "Please select a future date") /\
    requests_of (events (snd (toast.error (JStr msg) w))) = requests_of (events w).
Proof.
  intros H. unfold EarlierNewBookingPage.handleSubmit, bind, read.
  assert (Hreq : forall msg,
    requests_of (events (snd (toast.error (JStr msg) w))) = requests_of (events w)).
  { intros msg. simpl. unfold requests_of. rewrite omap_app, app_nil_r. reflexivity. }
  destruct (negb (truthy (JStr (EarlierNewBookingPage.date formData)))
            || negb (truthy (JStr (EarlierNewBookingPage.time formData)))
            || negb (truthy (JStr (EarlierNewBookingPage.service formData)))) eqn:Hmiss.
  - exists "Please fill all required fields". auto.
  - destruct H as [H | H].
    + exfalso. destruct H as [H | [H | H]]; rewrite H in Hmiss; simpl in Hmiss;
        rewrite ?orb_true_r in Hmiss; discriminate.
    + rewrite H. exists "Please select a future date". auto.
Qed.

Lemma earlier_form_validates_witness :
  exists w',
    EarlierNewBookingPage.handleSubmit
      {| EarlierNewBookingPage.date := "2099-01-01"; EarlierNewBookingPage.time := "";
         EarlierNewBookingPage.service := "haircut"; EarlierNewBookingPage.notes := "" |}
      Sample.rejected_400 = (Ok tt, w') /\
    events w' = [Toast toast_error (JStr "Please fill all required fields")].
Proof.
  destruct (earlier_form_validates Sample.rejected_400
              {| EarlierNewBookingPage.date := "2099-01-01"; EarlierNewBookingPage.time := "";
                 EarlierNewBookingPage.service := "haircut"; EarlierNewBookingPage.notes := "" |}
              (or_introl (or_intror (or_introl eq_refl))))
    as (msg & Hh & _ & _).
  eexists. split; [exact Hh|].
  assert (Hw : snd (toast.error (JStr msg) Sample.rejected_400) =
               snd (EarlierNewBookingPage.handleSubmit
                      {| EarlierNewBookingPage.date := "2099-01-01";
                         EarlierNewBookingPage.time := "";
                         EarlierNewBookingPage.service := "haircut";
                         EarlierNewBookingPage.notes := "" |} Sample.rejected_400))
    by (rewrite Hh; reflexivity).
  rewrite Hw. reflexivity.
Defined.

(** ** Time slots of the booking form *)

Lemma fetchAvailableTimeSlots_returns (date : string) (st : BookingForm.State) (w : world) :
  exists slots,
    BookingForm.fetchAvailableTimeSlots date st w =
      (Ok tt, ({| BookingForm.formData := BookingForm.formData st;
                  BookingForm.availableSlots := slots |},
               snd (bookingsService.getAvailableTimeslots date w))).
Proof.
  unfold BookingForm.fetchAvailableTimeSlots, try_catchL, bindL, liftL.
  destruct (bookingsService.getAvailableTimeslots date w) as [[b|e] w1]; simpl.
  - destruct (truthy b && truthy (prop b "availableSlots")); eexists; reflexivity.
  - eexists; reflexivity.
Qed.

(** X23. [fetchAvailableTimeSlots] never throws and always sets the slots:
    to the nine default slots when the request fails or the answer carries
    no truthy [availableSlots], and otherwise to whatever the answer carries,
    an empty list included.  The form data are not touched. *)
Theorem time_slots_fall_back (date : string) (st : BookingForm.State) (w : world) :
  exists slots w',
    BookingForm.fetchAvailableTimeSlots date st w =
      (Ok tt, ({| BookingForm.formData := BookingForm.formData st;
                  BookingForm.availableSlots := slots |}, w')) /\
    w' = snd (bookingsService.getAvailableTimeslots date w) /\
    (forall e, fst (bookingsService.getAvailableTimeslots date w) = Throw e ->
               slots = BookingForm.timeSlots) /\
    (forall b, fst (bookingsService.getAvailableTimeslots date w) = Ok b ->
               slots = if truthy (opt_get b "availableSlots")
                       then opt_get b "availableSlots"
                       else BookingForm.timeSlots).
Proof.
  unfold BookingForm.fetchAvailableTimeSlots, try_catchL, bindL, liftL.
  destruct (bookingsService.getAvailableTimeslots date w) as [[b|e] w1]; simpl.
  - destruct b as [| |[|]|n|s|items|fs]; simpl;
      try (eexists _, _; split; [reflexivity|]; split; [reflexivity|];
           split; [discriminate|]; intros b [= <-]; reflexivity).
    + destruct (negb (n =? 0)); simpl;
        (eexists _, _; split; [reflexivity|]; split; [reflexivity|];
         split; [discriminate|]; intros b [= <-]; reflexivity).
    + destruct (negb (String.eqb s "")); simpl;
        (eexists _, _; split; [reflexivity|]; split; [reflexivity|];
         split; [discriminate|]; intros b [= <-]; reflexivity).
    + destruct (truthy (assoc "availableSlots" fs)) eqn:Ht; simpl;
        (eexists _, _; split; [reflexivity|]; split; [reflexivity|];
         split; [discriminate|]; intros b [= <-]; simpl; rewrite Ht; reflexivity).
  - eexists _, _. split; [reflexivity|]. split; [reflexivity|].
    split; [reflexivity | discriminate].
Qed.

Lemma time_slots_fall_back_witness :
  BookingForm.availableSlots
    (fst (snd (BookingForm.fetchAvailableTimeSlots "2099-01-01"
                 {| BookingForm.formData := Sample.booking_form;
                    BookingForm.availableSlots := JArr [JStr "09:00"] |}
                 Sample.rejected_400))) = BookingForm.timeSlots.
Proof.
  destruct (time_slots_fall_back "2099-01-01"
              {| BookingForm.formData := Sample.booking_form;
                 BookingForm.availableSlots := JArr [JStr "09:00"] |}
              Sample.rejected_400)
    as (slots & w' & Hf & _ & Hthrow & _).
  rewrite Hf. simpl. apply (Hthrow Scenario.slots_rejection). vm_compute. reflexivity.
Defined.

Lemma api_request_first_event (m : http_method) (path : string) (payload : json) (w : world) :
  exists evs,
    events (snd (api.request m path payload w)) =
    events w ++ Request (wire_request m path payload w) :: evs.
Proof.
  unfold api.request, bind. rewrite request_interceptor_pure.
  fold (wire_request m path payload w). set (c := wire_request m path payload w).
  unfold try_catch, axios.dispatch.
  assert (Hfail : forall e, exists evs,
    events (snd (api.response_interceptor e (on_wire c w))) = events w ++ Request c :: evs).
  { intros e. destruct (response_interceptor_off_schedule e (on_wire c w)) as (evs & Hadd & _).
    exists evs. rewrite Hadd. simpl. rewrite <- app_assoc. reflexivity. }
  destruct (remote w (requests_sent w) c) as [msg|r]; [apply Hfail|].
  destruct ((200 <=? status r) && (status r <? 300)); [|apply Hfail].
  exists []. reflexivity.
Qed.

Lemma wrapped_callback_grows (m : http_method) (path : string) (payload : json) :
  emits any_event (let* response := api.request m path payload in ret (data response)).
Proof. preserves_auto. Qed.

(** A wrapped service call starts by putting its request on the wire. *)
Lemma wrapped_call_first_event (m : http_method) (path : string) (payload : json) (w : world) :
  exists evs,
    events (snd (wrapped_call m path payload w)) =
    events w ++ Request (wire_request m path payload w) :: evs.
Proof.
  unfold wrapped_call.
  set (call := let* response := api.request m path payload in ret (data response)).
  destruct (api_request_first_event m path payload w) as (evs1 & H1).
  assert (Hcall : events (snd (call w)) =
                  events w ++ Request (wire_request m path payload w) :: evs1).
  { unfold call, bind. destruct (api.request m path payload w) as [[r|e] w1]; exact H1. }
  destruct (call w) as [[a|e] w1] eqn:Hc; simpl in Hcall.
  - rewrite (withRetry_ok call _ _ w a w1 Hc). exists evs1. exact Hcall.
  - destruct (not_retried e) eqn:Hnr.
    + rewrite (withRetry_refused call _ _ w e w1 Hc Hnr). exists evs1. exact Hcall.
    + rewrite (withRetry_again call default_retries default_delay w e w1 Hc ltac:(unfold default_retries; lia) Hnr).
      assert (Hrest : emits any_event (withRetry call (default_retries - 1)
                                          (Qred (default_delay * 1.5)))).
      { apply preserves_withRetry; [tc_solve | apply wrapped_callback_grows |].
        intros d. apply emits_emit. exact I. }
      destruct (Hrest (snd (sleep default_delay w1))) as (evs2 & H2 & _).
      exists (evs1 ++ Timeout default_delay :: evs2).
      rewrite H2. simpl. rewrite Hcall, <- !app_assoc. reflexivity.
Qed.

(** X24. [handleChange] records the new value under the name of the input.
    It sends nothing unless the input is [booking_date] and the value is not
    empty; for a date it asks the service for the slots of that date, and the
    form data are the same whether or not that request succeeds. *)
Theorem handleChange_fetches_on_date (name value : string) (st : BookingForm.State)
    (w : world) :
  (name <> "booking_date" \/ value = "" ->
     BookingForm.handleChange name value st w =
       (Ok tt, ({| BookingForm.formData :=
                     spread_with (BookingForm.formData st) name (JStr value);
                   BookingForm.availableSlots := BookingForm.availableSlots st |}, w)))
  /\ (name = "booking_date" -> value <> "" ->
      exists slots w' evs,
        BookingForm.handleChange name value st w =
          (Ok tt, ({| BookingForm.formData :=
                        spread_with (BookingForm.formData st) name (JStr value);
                      BookingForm.availableSlots := slots |}, w')) /\
        events w' = events w ++
          Request (wire_request GET ("/bookings/timeslots?date=" +:+ value) JUndefined w)
          :: evs).
Proof.
  split.
  - intros H. unfold BookingForm.handleChange, bindL, BookingForm.setFormData, modifyL. simpl.
    destruct H as [H | ->].
    + destruct (String.eqb_spec name "booking_date"); [contradiction | reflexivity].
    + rewrite andb_false_r. reflexivity.
  - intros -> Hv.
    unfold BookingForm.handleChange, bindL, BookingForm.setFormData, modifyL. simpl.
    destruct (String.eqb_spec value ""); [contradiction|]. simpl. unfold detachedL.
    set (st1 := {| BookingForm.formData := _; BookingForm.availableSlots := _ |}).
    destruct (fetchAvailableTimeSlots_returns value st1 w) as (slots & Hf).
    rewrite Hf. simpl.
    destruct (wrapped_call_first_event GET ("/bookings/timeslots?date=" +:+ value) JUndefined w)
      as (evs & Hev).
    exists slots, (snd (bookingsService.getAvailableTimeslots value w)), evs.
    split; [reflexivity|]. exact Hev.
Qed.

Lemma handleChange_fetches_on_date_witness :
  BookingForm.handleChange "customer_name" "Ann"
    {| BookingForm.formData := JObj []; BookingForm.availableSlots := BookingForm.timeSlots |}
    Sample.offline =
  (Ok tt, ({| BookingForm.formData := JObj [("customer_name", JStr "Ann")];
              BookingForm.availableSlots := BookingForm.timeSlots |}, Sample.offline)).
Proof.
  apply (proj1 (handleChange_fetches_on_date "customer_name" "Ann"
                  {| BookingForm.formData := JObj [];
                     BookingForm.availableSlots := BookingForm.timeSlots |} Sample.offline)).
  left. discriminate.
Defined.

(** ** The bookings table *)

(** What [handleStatusChange] does once it is past the confirmation step. *)
Lemma handleStatusChange_proceeds (bookingId newStatus : string) (st : Dashboard.State)
    (w : world) :
  String.eqb newStatus "cancelled"
    && Dashboard.confirm_is_not (Dashboard.showCancelConfirm st) bookingId = false ->
  Dashboard.handleStatusChange bookingId newStatus st w =
    match bookingsService.adminUpdateBookingStatus bookingId newStatus w with
    | (Ok _, w1) =>
        (Ok tt,
         ({| Dashboard.bookings := map (with_status bookingId newStatus) (Dashboard.bookings st);
             Dashboard.filteredBookings := Dashboard.filteredBookings st;
             Dashboard.statusFilter := Dashboard.statusFilter st;
             Dashboard.showCancelConfirm := None;
             Dashboard.updatingStatus := false |},
          snd (toast.success (JStr ("Booking status updated to " +:+ newStatus)) w1)))
    | (Throw e, w1) =>
        (Ok tt,
         ({| Dashboard.bookings := Dashboard.bookings st;
             Dashboard.filteredBookings := Dashboard.filteredBookings st;
             Dashboard.statusFilter := Dashboard.statusFilter st;
             Dashboard.showCancelConfirm := None;
             Dashboard.updatingStatus := false |},
          snd (toast.error (JStr (status_failure_text e)) w1)))
    end.
Proof.
  intros Hg. unfold Dashboard.handleStatusChange, bindL at 1, getL. rewrite Hg.
  unfold bindL, try_finallyL, try_catchL, liftL, Dashboard.setShowCancelConfirm,
    Dashboard.setUpdatingStatus, Dashboard.setBookings, modifyL. simpl.
  destruct (bookingsService.adminUpdateBookingStatus bookingId newStatus w) as [[b|e] w1];
    simpl; [reflexivity|].
  unfold status_failure_text, has_status, response_status_is, error_response.
  destruct e as [m c [r|] | m | m]; simpl; try reflexivity.
  destruct (status r =? 403); [reflexivity|].
  destruct (status r =? 404); reflexivity.
Qed.

(** X25. Cancelling from the table takes two steps.  While the
    confirmation for the booking is not showing, a request to cancel it only
    brings up the confirmation: nothing is sent and the bookings are what
    they were.  With the confirmation showing, the same request puts the
    PATCH for status "cancelled" on the wire and takes the confirmation
    down. *)
Theorem cancel_needs_confirmation (bookingId : string) (st : Dashboard.State) (w : world) :
  (Dashboard.showCancelConfirm st <> Some bookingId ->
     Dashboard.handleStatusChange bookingId "cancelled" st w =
       (Ok tt,
        ({| Dashboard.bookings := Dashboard.bookings st;
            Dashboard.filteredBookings := Dashboard.filteredBookings st;
            Dashboard.statusFilter := Dashboard.statusFilter st;
            Dashboard.showCancelConfirm := Some bookingId;
            Dashboard.updatingStatus := Dashboard.updatingStatus st |}, w)))
  /\ (Dashboard.showCancelConfirm st = Some bookingId ->
      exists st' w' evs,
        Dashboard.handleStatusChange bookingId "cancelled" st w = (Ok tt, (st', w')) /\
        events w' = events w ++ Request (status_request bookingId "cancelled" w) :: evs /\
        Dashboard.showCancelConfirm st' = None /\
        Dashboard.updatingStatus st' = false).
Proof.
  split.
  - intros Hc. unfold Dashboard.handleStatusChange, bindL, getL. simpl.
    replace (Dashboard.confirm_is_not (Dashboard.showCancelConfirm st) bookingId) with true;
      [reflexivity|].
    unfold Dashboard.confirm_is_not. destruct (Dashboard.showCancelConfirm st) as [s|];
      [|reflexivity].
    destruct (String.eqb_spec s bookingId); [subst; contradiction | reflexivity].
  - intros Hc.
    rewrite handleStatusChange_proceeds
      by (rewrite Hc; simpl; rewrite String.eqb_refl; reflexivity).
    destruct (wrapped_call_first_event PATCH ("/admin/bookings/" +:+ bookingId +:+ "/status")
                (JObj [("status", JStr "cancelled")]) w) as (evs & Hev).
    unfold bookingsService.adminUpdateBookingStatus.
    destruct (wrapped_call PATCH _ _ w) as [[b|e] w1]; simpl in Hev;
      eexists _, _, _; (split; [reflexivity|]); simpl; rewrite Hev, <- app_assoc;
      (split; [reflexivity|]); auto.
Qed.

Lemma cancel_needs_confirmation_witness :
  exists st' w',
    Dashboard.handleStatusChange "b1" "cancelled" Scenario.table Sample.offline
      = (Ok tt, (st', w')) /\
    Dashboard.showCancelConfirm st' = Some "b1" /\ events w' = [].
Proof.
  eexists _, _. split.
  - apply (proj1 (cancel_needs_confirmation "b1" Scenario.table Sample.offline)).
    discriminate.
  - split; reflexivity.
Defined.

(** X26. Past the confirmation step, the table follows the service.  When
    the update is confirmed, every row whose [_id] is the booking's gets the
    new status and keeps its other properties, the other rows are untouched,
    and a success toast is shown.  When the update fails, the rows are what
    they were and one error toast is shown, chosen by the status.  Either way
    the handler returns and [updatingStatus] ends false. *)
Theorem status_change_follows_service (bookingId newStatus : string) (st : Dashboard.State)
    (w : world) :
  newStatus <> "cancelled" \/ Dashboard.showCancelConfirm st = Some bookingId ->
  exists st' w',
    Dashboard.handleStatusChange bookingId newStatus st w = (Ok tt, (st', w')) /\
    Dashboard.updatingStatus st' = false /\
    (forall b, fst (bookingsService.adminUpdateBookingStatus bookingId newStatus w) = Ok b ->
       Forall2 (fun old new =>
                  if strict_eq_str (prop old "_id") bookingId
                  then prop new "status" = JStr newStatus /\
                       forall k, k <> "status" -> prop new k = prop old k
                  else new = old)
               (Dashboard.bookings st) (Dashboard.bookings st') /\
       w' = snd (toast.success (JStr ("Booking status updated to " +:+ newStatus))
                   (snd (bookingsService.adminUpdateBookingStatus bookingId newStatus w)))) /\
    (forall e, fst (bookingsService.adminUpdateBookingStatus bookingId newStatus w) = Throw e ->
       Dashboard.bookings st' = Dashboard.bookings st /\
       w' = snd (toast.error (JStr (status_failure_text e))
                   (snd (bookingsService.adminUpdateBookingStatus bookingId newStatus w)))).
Proof.
  intros Hg.
  assert (Hguard : String.eqb newStatus "cancelled"
                   && Dashboard.confirm_is_not (Dashboard.showCancelConfirm st) bookingId = false).
  { destruct Hg as [Hn | Hc].
    - destruct (String.eqb_spec newStatus "cancelled"); [contradiction | reflexivity].
    - rewrite Hc. simpl. rewrite String.eqb_refl. apply andb_false_r. }
  rewrite (handleStatusChange_proceeds bookingId newStatus st w Hguard).
  destruct (bookingsService.adminUpdateBookingStatus bookingId newStatus w) as [[b|e] w1];
    simpl; eexists _, _; (split; [reflexivity|]); simpl; (split; [reflexivity|]).
  - split; [|discriminate]. intros b' _. split; [|reflexivity].
    induction (Dashboard.bookings st) as [|old rows IH]; simpl; constructor; [|exact IH].
    unfold with_status. destruct (strict_eq_str (prop old "_id") bookingId); [|reflexivity].
    destruct old; simpl; (split; [reflexivity|]); intros k Hk;
      destruct (String.eqb_spec k "status"); try contradiction; reflexivity.
  - split; [discriminate|]. intros e' [= <-]. split; reflexivity.
Qed.

Lemma status_change_follows_service_witness :
  exists st' w',
    Dashboard.handleStatusChange "b1" "confirmed" Scenario.table Scenario.accepting
      = (Ok tt, (st', w')) /\
    Dashboard.bookings st' =
      [JObj [("status", JStr "confirmed"); ("_id", JStr "b1"); ("status", JStr "pending")];
       JObj [("_id", JStr "b2"); ("status", JStr "confirmed")]].
Proof.
  assert (Hne : "confirmed" <> "cancelled") by discriminate.
  pose proof (status_change_follows_service "b1" "confirmed" Scenario.table
                Scenario.accepting (or_introl Hne)) as H.
  destruct H as (st' & w' & Hh & _).
  exists st', w'. split; [exact Hh|].
  transitivity (Dashboard.bookings (fst (snd (Dashboard.handleStatusChange "b1" "confirmed"
                                                Scenario.table Scenario.accepting))));
    [exact (f_equal (fun p => Dashboard.bookings (fst (snd p))) (eq_sym Hh))
    | vm_compute; reflexivity].
Defined.

(** X27. Deleting from the table.  When the question is declined nothing
    happens at all.  When it is accepted and the service confirms, the rows
    left are exactly the earlier rows whose [_id] is not the booking's, and
    the filter effect that runs next shows none of the removed rows; when the
    service fails, the state is what it was and the failure toast is shown.
    The handler returns in every case. *)
Theorem deleted_booking_leaves_table (bookingId : string) (st : Dashboard.State) (w : world) :
  Dashboard.handleDeleteBooking false bookingId st w = (Ok tt, (st, w)) /\
  exists st' w',
    Dashboard.handleDeleteBooking true bookingId st w = (Ok tt, (st', w')) /\
    (forall b, fst (bookingsService.deleteBooking bookingId w) = Ok b ->
       (forall row, In row (Dashboard.bookings st') <->
                    In row (Dashboard.bookings st) /\ prop row "_id" <> JStr bookingId) /\
       (exists st2,
          Dashboard.filter_effect st' w' = (Ok tt, (st2, w')) /\
          Dashboard.bookings st2 = Dashboard.bookings st' /\
          forall row, In row (Dashboard.filteredBookings st2) ->
                      In row (Dashboard.bookings st) /\ prop row "_id" <> JStr bookingId) /\
       w' = snd (toast.success (JStr "Booking deleted successfully")
                   (snd (bookingsService.deleteBooking bookingId w)))) /\
    (forall e, fst (bookingsService.deleteBooking bookingId w) = Throw e ->
       st' = st /\
       w' = snd (toast.error (JStr "Failed to delete booking")
                   (snd (bookingsService.deleteBooking bookingId w)))).
Proof.
  split; [reflexivity|].
  unfold Dashboard.handleDeleteBooking, try_catchL, bindL, liftL, Dashboard.setBookings, modifyL.
  simpl.
  destruct (bookingsService.deleteBooking bookingId w) as [[b|e] w1]; simpl;
    eexists _, _; (split; [reflexivity|]); simpl.
  - split; [|discriminate]. intros _ _.
    assert (Hrows : forall row,
      In row (List.filter (fun booking => negb (strict_eq_str (prop booking "_id") bookingId))
                          (Dashboard.bookings st)) <->
      In row (Dashboard.bookings st) /\ prop row "_id" <> JStr bookingId).
    { intros row. rewrite filter_In, negb_true_iff, <- not_true_iff_false, strict_eq_str_spec.
      reflexivity. }
    split; [exact Hrows|]. split; [|reflexivity].
    unfold Dashboard.filter_effect, bindL, getL, Dashboard.setFilteredBookings, modifyL. simpl.
    destruct (String.eqb (Dashboard.statusFilter st) "all");
      eexists; (split; [reflexivity|]); simpl; (split; [reflexivity|]); intros row Hrow.
    + apply Hrows, Hrow.
    + apply filter_In in Hrow. apply Hrows, Hrow.
  - split; [discriminate|]. intros e' _. split; [destruct st|]; reflexivity.
Qed.

Lemma deleted_booking_leaves_table_witness :
  exists st' w',
    Dashboard.handleDeleteBooking true "b1" Scenario.table Scenario.accepting
      = (Ok tt, (st', w')) /\
    forall row, In row (Dashboard.bookings st') -> prop row "_id" <> JStr "b1".
Proof.
  pose proof (deleted_booking_leaves_table "b1" Scenario.table Scenario.accepting) as H.
  destruct H as (_ & st' & w' & Hh & Hok & _).
  exists st', w'. split; [exact Hh|].
  intros row Hrow.
  apply (proj1 (Hok (JObj [("success", JBool true)]) ltac:(vm_compute; reflexivity))).
  exact Hrow.
Defined.

(** ** Saving the profile *)

(** X28. Saving the profile.  Without a signed-in user the handler shows one
    error toast and sends nothing.  With one it puts exactly one PATCH to
    /users/profile on the wire, carrying the form data, and never waits or
    tries again; whatever the answer, the handler returns, [loading] ends
    false, and the user held by the session is the one it held before: the
    saved values are not written back to it. *)
Theorem profile_save (formData : json) (loading : bool) (w : world) :
  (truthy (auth_user w) = false ->
     ProfileForm.handleSubmit formData loading w =
       (Ok tt, (loading,
                snd (toast.error (JStr "You must be logged in to update your profile") w))))
  /\ (truthy (auth_user w) = true ->
      exists w' evs,
        ProfileForm.handleSubmit formData loading w = (Ok tt, (false, w')) /\
        events w' = events w ++ Request (wire_request PATCH "/users/profile" formData w) :: evs /\
        schedule evs = [] /\
        auth_user w' = auth_user w).
Proof.
  assert (Hstart : forall b, truthy (auth_user w) = b ->
    ProfileForm.handleSubmit formData loading w =
      (if negb b
       then liftL (toast.error (JStr "You must be logged in to update your profile"))
       else
         let+ _ := modifyL (fun _ => true) in
         try_finallyL
           (try_catchL
              (let+ response := liftL (api.patch "/users/profile" formData) in
               if truthy (data response)
               then liftL (toast.success (JStr "Profile updated successfully"))
               else retL tt)
              (fun error =>
                 liftL (toast.error (js_or (response_data_message error)
                                           (JStr "Failed to update profile")))))
           (modifyL (fun _ => false))) loading w).
  { intros b <-. reflexivity. }
  split; intros Ha; rewrite (Hstart _ Ha); simpl; [reflexivity|].
  unfold bindL, try_finallyL, try_catchL, liftL, modifyL, retL, api.patch.
  destruct (api_request_first_event PATCH "/users/profile" formData w) as (evs1 & H1).
  destruct (api_request_schedule PATCH "/users/profile" formData w) as (evs0 & H0 & Hsch).
  unfold added in H0. rewrite H1 in H0. apply app_inv_head in H0. subst evs0.
  simpl in Hsch. injection Hsch as Hsch.
  assert (Hu : auth_user (snd (api.request PATCH "/users/profile" formData w)) = auth_user w).
  { assert (Hp : preserves (unchanged auth_user) (api.request PATCH "/users/profile" formData))
      by frame_auto.
    apply Hp. }
  destruct (api.request PATCH "/users/profile" formData w) as [[r|e] w1]; simpl in *.
  - destruct (truthy (data r)); simpl.
    + eexists _, (evs1 ++ [_]). split; [reflexivity|]. simpl.
      rewrite H1, <- app_assoc. split; [reflexivity|].
      split; [|exact Hu]. unfold schedule in *. rewrite omap_app, Hsch. reflexivity.
    + exists w1, evs1. auto.
  - eexists _, (evs1 ++ [_]). split; [reflexivity|]. simpl.
    rewrite H1, <- app_assoc. split; [reflexivity|].
    split; [|exact Hu]. unfold schedule in *. rewrite omap_app, Hsch. reflexivity.
Qed.

Lemma profile_save_witness :
  exists w' evs,
    ProfileForm.handleSubmit (JObj [("name", JStr "Ann B")]) false Scenario.revoking
      = (Ok tt, (false, w')) /\
    events w' = events Scenario.revoking ++
                Request (wire_request PATCH "/users/profile" (JObj [("name", JStr "Ann B")])
                                      Scenario.revoking) :: evs /\
    schedule evs = [] /\
    auth_user w' = auth_user Scenario.revoking.
Proof.
  apply (proj2 (profile_save (JObj [("name", JStr "Ann B")]) false Scenario.revoking)).
  reflexivity.
Defined.

(** ** The users list *)

Lemma get_not_nullish (v : json) (k : string) (w : world) :
  nullish v = false -> get v k w = (Ok (prop v k), w).
Proof. destruct v; simpl; intros H; try discriminate H; reflexivity. Qed.





(** ** The booking details page *)

Lemma find_by_id_rows (id : string) (items : list json) (w : world) :
  Forall (fun b => nullish b = false) items ->
  BookingDetailsPage.find_by_id id items w =
    (Ok (match List.find (fun b => strict_eq_str (prop b "_id") id) items with
         | Some b => b
         | None => JUndefined
         end), w).
Proof.
  induction 1 as [|b rest Hb _ IH]; [reflexivity|].
  cbn [BookingDetailsPage.find_by_id List.find]. unfold bind.
  rewrite (get_not_nullish b "_id" w Hb).
  destruct (strict_eq_str (prop b "_id") id); [reflexivity | exact IH].
Qed.

Lemma found_row_truthy (id : string) (items : list json) (row : json) :
  List.find (fun b => strict_eq_str (prop b "_id") id) items = Some row ->
  truthy row = true.
Proof.
  intros H. apply find_some in H. destruct H as [_ H].
  destruct row; simpl in H; try discriminate H. reflexivity.
Qed.

Lemma truthy_nonempty (id : string) : id <> "" -> truthy (JStr id) = true.
Proof. intros H. destruct id; [contradiction | reflexivity]. Qed.

(** X30. Loading the booking of the details page, for a non-empty id.  The
    loader never throws and always ends with [loading] false.  When the list
    call fails, the page shows "Failed to load booking details" and the
    by-id call is never made.  When the list arrives, the by-id call is made
    next: its data, if any, are the booking; otherwise the first row of the
    list with that [_id] is; and with neither the page shows
    "Booking not found" and keeps the booking it had. *)
Theorem fetchBooking_settles (id : string) (st : BookingDetailsPage.State) (w : world) :
  id <> "" ->
  (exists st' w',
     BookingDetailsPage.fetchBooking id st w = (Ok tt, (st', w')) /\
     BookingDetailsPage.loading st' = false)
  /\ (forall e w1,
        bookingsService.getAllBookingsAdmin w = (Throw e, w1) ->
        BookingDetailsPage.fetchBooking id st w =
          (Ok tt, ({| BookingDetailsPage.booking := BookingDetailsPage.booking st;
                      BookingDetailsPage.loading := false;
                      BookingDetailsPage.error := "Failed to load booking details" |}, w1)))
  /\ (forall allBookings w1 items,
        bookingsService.getAllBookingsAdmin w = (Ok allBookings, w1) ->
        bookings_array allBookings = JArr items ->
        Forall (fun b => nullish b = false) items ->
        exists st',
          BookingDetailsPage.fetchBooking id st w =
            (Ok tt, (st', snd (bookingsService.getBookingById id w1))) /\
          (forall response,
             fst (bookingsService.getBookingById id w1) = Ok response ->
             truthy response && truthy (prop response "data") = true ->
             BookingDetailsPage.booking st' = prop response "data" /\
             BookingDetailsPage.error st' = BookingDetailsPage.error st) /\
          (forall row,
             without_data (fst (bookingsService.getBookingById id w1)) ->
             List.find (fun b => strict_eq_str (prop b "_id") id) items = Some row ->
             BookingDetailsPage.booking st' = row /\
             BookingDetailsPage.error st' = BookingDetailsPage.error st) /\
          (without_data (fst (bookingsService.getBookingById id w1)) ->
           List.find (fun b => strict_eq_str (prop b "_id") id) items = None ->
           BookingDetailsPage.booking st' = BookingDetailsPage.booking st /\
           BookingDetailsPage.error st' = "Booking not found")).
Proof.
  intros Hid. pose proof (truthy_nonempty id Hid) as Ht.
  assert (Hstart : BookingDetailsPage.fetchBooking id st w =
    try_finallyL
      (try_catchL
         (let+ _ := BookingDetailsPage.setLoading true in
          let+ allBookings := liftL bookingsService.getAllBookingsAdmin in
          let bookingsArray :=
            if isArray allBookings then allBookings
            else js_or (opt_get allBookings "data") (JArr []) in
          let+ foundBooking := liftL (BookingDetailsPage.js_find_by_id bookingsArray id) in
          let fromList := if truthy foundBooking then foundBooking else JNull in
          let+ bookingData :=
            try_catchL
              (let+ response := liftL (bookingsService.getBookingById id) in
               if truthy response && truthy (prop response "data")
               then retL (prop response "data")
               else retL fromList)
              (fun error => retL fromList) in
          if truthy bookingData
          then BookingDetailsPage.setBooking bookingData
          else BookingDetailsPage.setError "Booking not found")
         (fun error => BookingDetailsPage.setError "Failed to load booking details"))
      (BookingDetailsPage.setLoading false) st w).
  { unfold BookingDetailsPage.fetchBooking. rewrite Ht. reflexivity. }
  rewrite Hstart. clear Hstart.
  split; [|split].
  - unfold try_finallyL, try_catchL.
    match goal with
    | |- context [match ?b st w with _ => _ end] => destruct (b st w) as [[[]|e] [s1 w1]]
    end; simpl; eexists _, _; split; reflexivity.
  - intros e w1 Hlist.
    unfold try_finallyL, try_catchL, bindL, liftL, BookingDetailsPage.setLoading,
      BookingDetailsPage.setError, modifyL. simpl. rewrite Hlist. reflexivity.
  - intros allBookings w1 items Hlist Harr Hitems.
    unfold bookings_array in Harr.
    unfold try_finallyL, try_catchL, bindL, liftL, BookingDetailsPage.setLoading,
      BookingDetailsPage.setError, BookingDetailsPage.setBooking, modifyL, retL.
    simpl. rewrite Hlist, Harr. unfold BookingDetailsPage.js_find_by_id.
    rewrite (find_by_id_rows id items w1 Hitems).
    destruct (bookingsService.getBookingById id w1) as [[response|e] w2]; simpl.
    + destruct (truthy response && truthy (prop response "data")) eqn:Hdata.
      * apply andb_true_iff in Hdata. destruct Hdata as [_ Hdata]. rewrite Hdata.
        eexists. split; [reflexivity|]. simpl.
        split; [intros response' [= <-] _; split; reflexivity|].
        split; [intros row Hw; discriminate Hw | intros Hw; discriminate Hw].
      * destruct (List.find _ items) as [row|] eqn:Hfind.
        -- pose proof (found_row_truthy id items row Hfind) as Hrow.
           rewrite Hrow; simpl; rewrite ?Hrow.
           eexists. split; [reflexivity|]. simpl.
           split; [intros response' [= <-] Hc; congruence|].
           split; [intros row' _ [= <-]; split; reflexivity | intros _ Hn; discriminate Hn].
        -- simpl. eexists. split; [reflexivity|]. simpl.
           split; [intros response' [= <-] Hc; congruence|].
           split; [intros row' _ Hn; discriminate Hn | intros _ _; split; reflexivity].
    + destruct (List.find _ items) as [row|] eqn:Hfind.
      * pose proof (found_row_truthy id items row Hfind) as Hrow.
           rewrite Hrow; simpl; rewrite ?Hrow.
        eexists. split; [reflexivity|]. simpl.
        split; [intros response' Hc; discriminate Hc|].
        split; [intros row' _ [= <-]; split; reflexivity | intros _ Hn; discriminate Hn].
      * simpl. eexists. split; [reflexivity|]. simpl.
        split; [intros response' Hc; discriminate Hc|].
        split; [intros row' _ Hn; discriminate Hn | intros _ _; split; reflexivity].
Qed.

Lemma fetchBooking_settles_witness :
  exists st',
    BookingDetailsPage.fetchBooking "b1" Details.blank Details.page =
      (Ok tt, (st', snd (bookingsService.getBookingById "b1"
                           (snd (bookingsService.getAllBookingsAdmin Details.page))))) /\
    BookingDetailsPage.booking st' = Details.row.
Proof.
  assert (Hid : "b1" <> "") by discriminate.
  pose proof (fetchBooking_settles "b1" Details.blank Details.page Hid) as H.
  destruct H as (_ & _ & Hlist).
  assert (Hall : bookingsService.getAllBookingsAdmin Details.page =
                 (Ok (JArr [Details.row]),
                  snd (bookingsService.getAllBookingsAdmin Details.page))).
  { apply injective_projections; [vm_compute; reflexivity | reflexivity]. }
  assert (Hrows : Forall (fun b => nullish b = false) [Details.row])
    by (repeat constructor).
  destruct (Hlist _ _ [Details.row] Hall eq_refl Hrows) as (st' & Hh & _ & Hrow & _).
  exists st'. split; [exact Hh|].
  apply (Hrow Details.row); [|reflexivity].
  vm_compute. exact I.
Defined.
